(** * Skill Learning Coach: the goal / milestone / task store of [server.py]

    A shallow embedding of the seven tools of [src/server.py] over an
    explicit entity store.  Each tool opens a session on the store, runs its
    body, and commits, rolls back or merely closes the session, exactly where
    the Python does.  Argument coercion goes through [json.loads], which is a
    library function and is therefore a parameter of the development. *)

From Stdlib Require Import String Ascii List ZArith Lia Bool Arith.
From Stdlib Require Import Permutation Sorted DecimalString.
From ExtLib Require Import Structures.Monad.
Import ListNotations.
Import MonadNotation.

Set Warnings "-register-all".
Local Open Scope string_scope.
Local Open Scope Z_scope.
Local Open Scope monad_scope.

(** ** Python values

    The values that reach the tools as [roadmap] and [coach_notes], and the
    values [json.loads] produces.  JSON numbers are restricted to integers. *)

Inductive pyval : Type :=
| PNone
| PBool (b : bool)
| PInt (n : Z)
| PStr (s : string)
| PList (items : list pyval)
| PDict (kvs : list (string * pyval)).

(** [type(v).__name__] *)
Definition py_type_name (v : pyval) : string :=
  match v with
  | PNone => "NoneType"
  | PBool _ => "bool"
  | PInt _ => "int"
  | PStr _ => "str"
  | PList _ => "list"
  | PDict _ => "dict"
  end.

(** [bool(v)], as in [if coach_notes:] *)
Definition truthy (v : pyval) : bool :=
  match v with
  | PNone => false
  | PBool b => b
  | PInt n => negb (n =? 0)
  | PStr s => negb (String.eqb s EmptyString)
  | PList l => match l with [] => false | _ => true end
  | PDict kvs => match kvs with [] => false | _ => true end
  end.

(** [isinstance(v, str)] *)
Definition is_str (v : pyval) : bool :=
  match v with PStr _ => true | _ => false end.

(** [v is not None] *)
Definition is_not_none (v : pyval) : bool :=
  match v with PNone => false | _ => true end.

(** A dict is an association list in insertion order; a key is bound once. *)
Fixpoint dict_get (kvs : list (string * pyval)) (k : string) : option pyval :=
  match kvs with
  | [] => None
  | (k', v) :: rest => if String.eqb k' k then Some v else dict_get rest k
  end.

Fixpoint dict_set (kvs : list (string * pyval)) (k : string) (v : pyval)
  : list (string * pyval) :=
  match kvs with
  | [] => [(k, v)]
  | (k', v') :: rest =>
      if String.eqb k' k then (k', v) :: rest else (k', v') :: dict_set rest k v
  end.

Fixpoint chars_of (s : string) : list pyval :=
  match s with
  | EmptyString => []
  | String c rest => PStr (String c EmptyString) :: chars_of rest
  end.

(** [str(n)] for a non-negative integer, as the f-strings print it. *)
Definition str_of_nat (n : nat) : string :=
  NilEmpty.string_of_uint (Nat.to_uint n).

(** ** Entities

    [models.py] is not part of the sources; the records carry the columns
    that [server.py] reads and writes. *)

Inductive TaskStatus : Type := INCOMPLETE | IN_PROGRESS | COMPLETE.

Definition TaskStatus_eqb (a b : TaskStatus) : bool :=
  match a, b with
  | INCOMPLETE, INCOMPLETE | IN_PROGRESS, IN_PROGRESS | COMPLETE, COMPLETE => true
  | _, _ => false
  end.

(** Modelled from the spec: the enumeration [VerificationType] of the missing
    [models.py]; the spec names the single member ["text"]. *)
Inductive VerificationType : Type := VT_TEXT.

(** [VerificationType(value)]: lookup of a member by value; an unknown value
    raises [ValueError]. *)
Definition VerificationType_of_value (s : string) : option VerificationType :=
  if String.eqb s "text" then Some VT_TEXT else None.

Definition VerificationType_value (t : VerificationType) : string :=
  match t with VT_TEXT => "text" end.

Record User : Type := mkUser {
  user_id : Z;
  user_username : string;
  user_email : string;
  user_learning_style : option string;
  user_created_at : Z
}.

Record Goal : Type := mkGoal {
  goal_id : Z;
  goal_user_id : Z;
  goal_skill_name : string;
  goal_timeline : Z;
  goal_coach_notes : pyval
}.

Record Milestone : Type := mkMilestone {
  ms_id : Z;
  ms_goal_id : Z;
  ms_title : pyval;
  ms_description : pyval;
  ms_order : nat;
  ms_is_complete : bool;
  ms_completed_at : option Z
}.

Record Task : Type := mkTask {
  tk_id : Z;
  tk_goal_id : Z;
  tk_milestone_id : option Z;
  tk_title : string;
  tk_description : string;
  tk_status : TaskStatus;
  tk_created_at : Z;
  tk_completed_at : option Z
}.

Record Verification : Type := mkVerification {
  ver_id : Z;
  ver_task_id : Z;
  ver_type : VerificationType;
  ver_content : string;
  ver_requirements : string
}.

(** ** The entity store and a session on it *)

Record Store : Type := mkStore {
  users : list User;
  goals : list Goal;
  milestones : list Milestone;
  tasks : list Task;
  verifications : list Verification
}.

Definition empty_store : Store := mkStore [] [] [] [] [].

(** A session sees its own pending changes; only [db_commit] makes them
    part of the store. *)
Record Session : Type := mkSession {
  committed : Store;
  pending : Store
}.

(** [get_db()] *)
Definition get_db (st : Store) : Session := mkSession st st.

(** [db.close()]: what is not committed is dropped. *)
Definition db_close (s : Session) : Store := committed s.

(** Server-assigned primary key: one more than the largest key in the table. *)
Definition next_id (ids : list Z) : Z := 1 + fold_right Z.max 0 ids.

(** ** The monad of a tool body: session state, and Python exceptions

    A raised exception keeps the session, because the handler rolls it
    back and the store keeps what was committed before the raise. *)

Inductive outcome (A : Type) : Type :=
| Done (a : A)
| Raised (msg : string).
Arguments Done {A} a.
Arguments Raised {A} msg.

Definition M (A : Type) : Type := Session -> outcome A * Session.

Definition M_ret {A} (a : A) : M A := fun s => (Done a, s).

Definition M_bind {A B} (c : M A) (k : A -> M B) : M B :=
  fun s =>
    match c s with
    | (Done a, s') => k a s'
    | (Raised msg, s') => (Raised msg, s')
    end.

#[global] Instance Monad_M : Monad M := {| ret := @M_ret; bind := @M_bind |}.

Definition py_raise {A} (msg : string) : M A := fun s => (Raised msg, s).

Definition db_view : M Store := fun s => (Done (pending s), s).

Definition db_modify (f : Store -> Store) : M unit :=
  fun s => (Done tt, mkSession (committed s) (f (pending s))).

(** [db.commit()] *)
Definition db_commit : M unit :=
  fun s => (Done tt, mkSession (pending s) (pending s)).

(** [db.rollback()] *)
Definition db_rollback (s : Session) : Session :=
  mkSession (committed s) (committed s).

(** ** Queries

    [.filter(...)] keeps the rows that satisfy the condition, in table
    order; [.first()] is the head of the result; [.order_by(...)] is a stable
    sort of it; [.limit(n)] keeps the first [n] rows. *)

Definition first {A} (rows : list A) : option A := hd_error rows.

Fixpoint insert_by {A} (before : A -> A -> bool) (x : A) (rows : list A) : list A :=
  match rows with
  | [] => [x]
  | y :: rest => if before x y then x :: rows else y :: insert_by before x rest
  end.

Definition order_by {A} (before : A -> A -> bool) (rows : list A) : list A :=
  fold_right (insert_by before) [] rows.

Definition limit {A} (n : nat) (rows : list A) : list A := firstn n rows.

(** Comparison of a nullable timestamp column: NULL sorts below every value
    (the ordering of SQLite, the default engine of [DATABASE_URL]). *)
Definition ts_leb (a b : option Z) : bool :=
  match a, b with
  | None, _ => true
  | Some _, None => false
  | Some x, Some y => x <=? y
  end.

(** [Task.completed_at.desc()] *)
Definition completed_at_desc (a b : Task) : bool :=
  ts_leb (tk_completed_at b) (tk_completed_at a).

(** [Task.created_at.asc()] *)
Definition created_at_asc (a b : Task) : bool :=
  tk_created_at a <=? tk_created_at b.

(** [Milestone.order] *)
Definition by_order (a b : Milestone) : bool :=
  (ms_order a <=? ms_order b)%nat.

Definition opt_eqb (a : option Z) (b : Z) : bool :=
  match a with Some x => x =? b | None => false end.

(** ** Row insertion and attribute assignment

    [db.add(obj)] queues the row; its primary key is the one the engine
    assigns when the row is flushed. *)

Definition db_add_user (username email : string) (learning_style : option string)
    (now : Z) : M User :=
  st <- db_view ;;
  let u := mkUser (next_id (map user_id (users st))) username email
                  learning_style now in
  db_modify (fun st => mkStore (users st ++ [u]) (goals st) (milestones st)
                               (tasks st) (verifications st)) ;;
  ret u.

Definition db_add_goal (uid : Z) (skill_name : string) (timeline : Z)
    (coach_notes : pyval) : M Goal :=
  st <- db_view ;;
  let g := mkGoal (next_id (map goal_id (goals st))) uid skill_name timeline
                  coach_notes in
  db_modify (fun st => mkStore (users st) (goals st ++ [g]) (milestones st)
                               (tasks st) (verifications st)) ;;
  ret g.

(** Modelled from the spec: the column defaults of the missing [models.py],
    [is_complete] false and [completed_at] null on a new milestone. *)
Definition db_add_milestone (gid : Z) (title description : pyval) (order : nat)
  : M Milestone :=
  st <- db_view ;;
  let m := mkMilestone (next_id (map ms_id (milestones st))) gid title description
                       order false None in
  db_modify (fun st => mkStore (users st) (goals st) (milestones st ++ [m])
                               (tasks st) (verifications st)) ;;
  ret m.

(** Modelled from the spec: the column defaults of the missing [models.py],
    [created_at] the time of creation and [completed_at] null on a new task. *)
Definition db_add_task (gid : Z) (mid : option Z) (title description : string)
    (status : TaskStatus) (now : Z) : M Task :=
  st <- db_view ;;
  let t := mkTask (next_id (map tk_id (tasks st))) gid mid title description
                  status now None in
  db_modify (fun st => mkStore (users st) (goals st) (milestones st)
                               (tasks st ++ [t]) (verifications st)) ;;
  ret t.

Definition db_add_verification (tid : Z) (ty : VerificationType)
    (content requirements : string) : M Verification :=
  st <- db_view ;;
  let v := mkVerification (next_id (map ver_id (verifications st))) tid ty
                          content requirements in
  db_modify (fun st => mkStore (users st) (goals st) (milestones st)
                               (tasks st) (verifications st ++ [v])) ;;
  ret v.

(** Assignment to an attribute of a loaded row: the session's copy of the
    row with that primary key changes. *)
Definition update_rows {A} (key : A -> Z) (id : Z) (f : A -> A) (rows : list A)
  : list A :=
  map (fun r => if key r =? id then f r else r) rows.

Definition set_user (id : Z) (f : User -> User) : M unit :=
  db_modify (fun st => mkStore (update_rows user_id id f (users st)) (goals st)
                               (milestones st) (tasks st) (verifications st)).

Definition set_goal (id : Z) (f : Goal -> Goal) : M unit :=
  db_modify (fun st => mkStore (users st) (update_rows goal_id id f (goals st))
                               (milestones st) (tasks st) (verifications st)).

Definition set_milestone (id : Z) (f : Milestone -> Milestone) : M unit :=
  db_modify (fun st => mkStore (users st) (goals st)
                               (update_rows ms_id id f (milestones st))
                               (tasks st) (verifications st)).

(** [db.query(T).filter(T.id == id).first()] *)
Definition find_user (id : Z) (st : Store) : option User :=
  first (filter (fun u => user_id u =? id) (users st)).

Definition find_goal (id : Z) (st : Store) : option Goal :=
  first (filter (fun g => goal_id g =? id) (goals st)).

Definition find_milestone (id : Z) (st : Store) : option Milestone :=
  first (filter (fun m => ms_id m =? id) (milestones st)).

Definition query {A} (q : Store -> A) : M A := st <- db_view ;; ret (q st).

(** ** Responses: the dictionaries the tools return *)

Record TaskSummary : Type := mkTaskSummary {
  ts_task_id : Z;
  ts_title : string;
  ts_description : string;
  ts_status : TaskStatus;
  ts_completed_at : option Z
}.

Record MilestoneSummary : Type := mkMilestoneSummary {
  mss_milestone_id : Z;
  mss_title : pyval;
  mss_description : pyval;
  mss_order : nat;
  mss_is_complete : bool
}.

Inductive Response : Type :=
| Error (msg : string)
| UserInfo (uid : Z) (username email : string) (learning_style : option string)
           (created_at : Z)
| GoalCreated (gid : Z) (confirmation skill_name : string) (timeline : Z)
              (milestones_count : nat)
| ContextInfo (gid : Z) (skill_name : string) (learning_style : option string)
              (last_completed_tasks current_incomplete_tasks : list TaskSummary)
              (roadmap : list MilestoneSummary) (coach_notes : pyval)
| GoalUpdated (gid : Z) (skill_name : string) (timeline : Z) (coach_notes : pyval)
              (message : string)
| MilestoneUpdated (mid : Z) (title description : pyval) (order : nat)
                   (is_complete : bool) (message : string)
| TaskCreated (tid : Z) (title description verification_type : string)
              (verification_content : pyval) (milestone_id : option Z).

Definition is_error (r : Response) : bool :=
  match r with Error _ => true | _ => false end.

Definition summary_of_task (t : Task) : TaskSummary :=
  mkTaskSummary (tk_id t) (tk_title t) (tk_description t) (tk_status t)
                (tk_completed_at t).

Definition summary_of_milestone (m : Milestone) : MilestoneSummary :=
  mkMilestoneSummary (ms_id m) (ms_title m) (ms_description m) (ms_order m)
                     (ms_is_complete m).

(** [try: body / except Exception as e: db.rollback(); return {"error": str(e)}
    / finally: db.close()] *)
Definition run_tool (body : M Response) (st : Store) : Response * Store :=
  match body (get_db st) with
  | (Done r, s) => (r, db_close s)
  | (Raised msg, s) => (Error msg, db_close (db_rollback s))
  end.

(** The handler of [get_context] does not roll back. *)
Definition run_readonly_tool (body : M Response) (st : Store) : Response * Store :=
  match body (get_db st) with
  | (Done r, s) => (r, db_close s)
  | (Raised msg, s) => (Error msg, db_close s)
  end.

(** ** Python object protocol used by the tools *)

(** [v.get(k, default)]: only a dict has the method. *)
Definition py_get (v : pyval) (k : string) (default : pyval) : M pyval :=
  match v with
  | PDict kvs => ret (match dict_get kvs k with Some x => x | None => default end)
  | _ => py_raise ("'" ++ py_type_name v ++ "' object has no attribute 'get'")
  end.

(** What iterating over [v] yields: a list yields its items, a dict its
    keys, a str its characters; nothing else is iterable. *)
Definition iter_items (v : pyval) : option (list pyval) :=
  match v with
  | PList items => Some items
  | PDict kvs => Some (map (fun kv => PStr (fst kv)) kvs)
  | PStr s => Some (chars_of s)
  | _ => None
  end.

(** [enumerate(v)] *)
Definition py_iter (v : pyval) : M (list pyval) :=
  match iter_items v with
  | Some items => ret items
  | None => py_raise ("'" ++ py_type_name v ++ "' object is not iterable")
  end.

(** [VerificationType(v)] *)
Definition py_VerificationType (v : pyval) : M VerificationType :=
  match v with
  | PStr s =>
      match VerificationType_of_value s with
      | Some t => ret t
      | None => py_raise ("'" ++ s ++ "' is not a valid VerificationType")
      end
  | _ => py_raise "not a valid VerificationType"
  end.

(** [db.refresh(obj)]: the row is read again by primary key. *)
Definition db_refresh {A} (find : Z -> Store -> option A) (id : Z) : M A :=
  row <- query (find id) ;;
  match row with
  | Some r => ret r
  | None => py_raise "Could not refresh instance"
  end.

Definition find_task (id : Z) (st : Store) : option Task :=
  first (filter (fun t => tk_id t =? id) (tasks st)).

Definition find_verification (id : Z) (st : Store) : option Verification :=
  first (filter (fun v => ver_id v =? id) (verifications st)).

(** ** The tools *)

Section Tools.

(** [json.loads]: [None] stands for [json.JSONDecodeError]. *)
Variable loads : string -> option pyval.

(** [json.dumps] *)
Variable dumps : pyval -> string.

(** [json.loads(x) if isinstance(x, str) else x] *)
Definition parse_arg (x : pyval) : option pyval :=
  match x with
  | PStr s => loads s
  | _ => Some x
  end.

(** *** User tools *)

Definition create_user (username email : string) (learning_style : option string)
    (now : Z) : Store -> Response * Store :=
  run_tool (
    existing_user <- query (fun st =>
      first (filter (fun u => String.eqb (user_username u) username
                              || String.eqb (user_email u) email) (users st))) ;;
    match existing_user with
    | Some _ => ret (Error "Username or email already exists")
    | None =>
        user <- db_add_user username email learning_style now ;;
        db_commit ;;
        user <- db_refresh find_user (user_id user) ;;
        ret (UserInfo (user_id user) (user_username user) (user_email user)
                      (user_learning_style user) (user_created_at user))
    end).

Definition update_user (uid : Z) (learning_style : string)
  : Store -> Response * Store :=
  run_tool (
    user <- query (find_user uid) ;;
    match user with
    | None => ret (Error "User not found")
    | Some user =>
        set_user (user_id user)
          (fun u => mkUser (user_id u) (user_username u) (user_email u)
                           (Some learning_style) (user_created_at u)) ;;
        db_commit ;;
        user <- db_refresh find_user (user_id user) ;;
        ret (UserInfo (user_id user) (user_username user) (user_email user)
                      (user_learning_style user) (user_created_at user))
    end).

(** *** Goal tools *)

(** The loop [for idx, milestone_input in enumerate(roadmap_list)]. *)
Fixpoint store_milestones (gid : Z) (idx : nat) (entries : list pyval)
  : M (list Milestone) :=
  match entries with
  | [] => ret []
  | milestone_input :: rest =>
      title <- py_get milestone_input "title"
                 (PStr ("Milestone " ++ str_of_nat (idx + 1))) ;;
      description <- py_get milestone_input "description" (PStr EmptyString) ;;
      milestone <- db_add_milestone gid title description (idx + 1) ;;
      created <- store_milestones gid (S idx) rest ;;
      ret (milestone :: created)
  end.

Definition create_goal (uid : Z) (skill_name : string) (timeline : Z)
    (roadmap coach_notes : pyval) : Store -> Response * Store :=
  run_tool (
    user <- query (find_user uid) ;;
    match user with
    | None => ret (Error "User not found")
    | Some _ =>
        match parse_arg roadmap with
        | None => ret (Error "Invalid roadmap JSON format")
        | Some roadmap_list =>
            match (if truthy coach_notes then parse_arg coach_notes
                   else Some PNone) with
            | None => ret (Error "Invalid coach_notes JSON format")
            | Some coach_notes_dict =>
                goal <- db_add_goal uid skill_name timeline coach_notes_dict ;;
                db_commit ;;
                goal <- db_refresh find_goal (goal_id goal) ;;
                entries <- py_iter roadmap_list ;;
                created <- store_milestones (goal_id goal) 0 entries ;;
                db_commit ;;
                ret (GoalCreated (goal_id goal)
                       ("Goal '" ++ skill_name ++ "' created successfully with "
                        ++ str_of_nat (length created) ++ " milestones")
                       (goal_skill_name goal) (goal_timeline goal)
                       (length created))
            end
        end
    end).

Definition completed_of (gid : Z) (t : Task) : bool :=
  (tk_goal_id t =? gid) && TaskStatus_eqb (tk_status t) COMPLETE.

Definition open_of (gid : Z) (t : Task) : bool :=
  (tk_goal_id t =? gid)
  && existsb (TaskStatus_eqb (tk_status t)) [INCOMPLETE; IN_PROGRESS].

Definition milestone_of (gid : Z) (m : Milestone) : bool :=
  ms_goal_id m =? gid.

Definition get_context (gid : Z) : Store -> Response * Store :=
  run_readonly_tool (
    goal <- query (find_goal gid) ;;
    match goal with
    | None => ret (Error "Goal not found")
    | Some goal =>
        last_completed <- query (fun st =>
          limit 5 (order_by completed_at_desc
                     (filter (completed_of gid) (tasks st)))) ;;
        current_incomplete <- query (fun st =>
          order_by created_at_asc (filter (open_of gid) (tasks st))) ;;
        roadmap <- query (fun st =>
          order_by by_order (filter (milestone_of gid) (milestones st))) ;;
        user <- query (find_user (goal_user_id goal)) ;;
        ret (ContextInfo (goal_id goal) (goal_skill_name goal)
               (match user with Some u => user_learning_style u | None => None end)
               (map summary_of_task last_completed)
               (map summary_of_task current_incomplete)
               (map summary_of_milestone roadmap)
               (goal_coach_notes goal))
    end).

Definition with_skill_name (v : string) (g : Goal) : Goal :=
  mkGoal (goal_id g) (goal_user_id g) v (goal_timeline g) (goal_coach_notes g).

Definition with_timeline (v : Z) (g : Goal) : Goal :=
  mkGoal (goal_id g) (goal_user_id g) (goal_skill_name g) v (goal_coach_notes g).

Definition with_coach_notes (v : pyval) (g : Goal) : Goal :=
  mkGoal (goal_id g) (goal_user_id g) (goal_skill_name g) (goal_timeline g) v.

Definition update_goal_body (gid : Z) (skill_name : option string)
    (timeline : option Z) (coach_notes : pyval) : M Response :=
  goal <- query (find_goal gid) ;;
  match goal with
  | None => ret (Error "Goal not found")
  | Some goal =>
      let finish : M Response :=
        db_commit ;;
        goal <- db_refresh find_goal (goal_id goal) ;;
        ret (GoalUpdated (goal_id goal) (goal_skill_name goal) (goal_timeline goal)
                         (goal_coach_notes goal) "Goal updated successfully") in
      match skill_name with
      | Some v => set_goal (goal_id goal) (with_skill_name v)
      | None => ret tt
      end ;;
      match timeline with
      | Some v => set_goal (goal_id goal) (with_timeline v)
      | None => ret tt
      end ;;
      if is_not_none coach_notes then
        match parse_arg coach_notes with
        | Some v => set_goal (goal_id goal) (with_coach_notes v) ;; finish
        | None => ret (Error "Invalid coach_notes JSON format")
        end
      else finish
  end.

Definition update_goal (gid : Z) (skill_name : option string) (timeline : option Z)
    (coach_notes : pyval) : Store -> Response * Store :=
  run_tool (update_goal_body gid skill_name timeline coach_notes).

(** *** Milestone and task tools *)

Definition with_title (v : string) (m : Milestone) : Milestone :=
  mkMilestone (ms_id m) (ms_goal_id m) (PStr v) (ms_description m) (ms_order m)
              (ms_is_complete m) (ms_completed_at m).

Definition with_description (v : string) (m : Milestone) : Milestone :=
  mkMilestone (ms_id m) (ms_goal_id m) (ms_title m) (PStr v) (ms_order m)
              (ms_is_complete m) (ms_completed_at m).

Definition with_is_complete (v : bool) (m : Milestone) : Milestone :=
  mkMilestone (ms_id m) (ms_goal_id m) (ms_title m) (ms_description m) (ms_order m)
              v (ms_completed_at m).

Definition with_completed_at (v : option Z) (m : Milestone) : Milestone :=
  mkMilestone (ms_id m) (ms_goal_id m) (ms_title m) (ms_description m) (ms_order m)
              (ms_is_complete m) v.

Definition update_milestone (mid : Z) (title description : option string)
    (is_complete : option bool) (now : Z) : Store -> Response * Store :=
  run_tool (
    milestone <- query (find_milestone mid) ;;
    match milestone with
    | None => ret (Error "Milestone not found")
    | Some milestone =>
        match title with
        | Some v => set_milestone (ms_id milestone) (with_title v)
        | None => ret tt
        end ;;
        match description with
        | Some v => set_milestone (ms_id milestone) (with_description v)
        | None => ret tt
        end ;;
        match is_complete with
        | Some v =>
            set_milestone (ms_id milestone) (with_is_complete v) ;;
            if v then set_milestone (ms_id milestone) (with_completed_at (Some now))
            else set_milestone (ms_id milestone) (with_completed_at None)
        | None => ret tt
        end ;;
        db_commit ;;
        milestone <- db_refresh find_milestone (ms_id milestone) ;;
        ret (MilestoneUpdated (ms_id milestone) (ms_title milestone)
               (ms_description milestone) (ms_order milestone)
               (ms_is_complete milestone) "Milestone updated successfully")
    end).

Definition incomplete_of (gid : Z) (m : Milestone) : bool :=
  (ms_goal_id m =? gid) && Bool.eqb (ms_is_complete m) false.

(** The dictionary [verification_data] built by [create_task]. *)
Definition verification_data (task_title task_description : string) : pyval :=
  PDict [("type", PStr "text");
         ("content",
          PDict [("prompt",
                  PStr ("Please complete the following task: " ++ task_title));
                 ("guidelines", PStr task_description)]);
         ("requirements",
          PDict [("completion_criteria",
                  PStr "Task should be completed according to the description")])].

Definition create_task (gid : Z) (task_title task_description : string) (now : Z)
  : Store -> Response * Store :=
  run_tool (
    goal <- query (find_goal gid) ;;
    match goal with
    | None => ret (Error "Goal not found")
    | Some _ =>
        current_milestone <- query (fun st =>
          first (order_by by_order (filter (incomplete_of gid) (milestones st)))) ;;
        task <- db_add_task gid (option_map ms_id current_milestone)
                  task_title task_description INCOMPLETE now ;;
        db_commit ;;
        task <- db_refresh find_task (tk_id task) ;;
        let data := verification_data task_title task_description in
        type_value <- py_get data "type" (PStr "text") ;;
        vtype <- py_VerificationType type_value ;;
        content <- py_get data "content" (PDict []) ;;
        requirements <- py_get data "requirements" (PDict []) ;;
        verification <- db_add_verification (tk_id task) vtype
                          (dumps content) (dumps requirements) ;;
        db_commit ;;
        verification <- db_refresh find_verification (ver_id verification) ;;
        content' <- py_get data "content" (PDict []) ;;
        ret (TaskCreated (tk_id task) (tk_title task) (tk_description task)
               (VerificationType_value (ver_type verification))
               content' (option_map ms_id current_milestone))
    end).

End Tools.

(** ** An instance of [json.loads] and [json.dumps]

    A recursive-descent reader and a printer for JSON text over integers,
    strings without [\u] escapes, arrays and objects.  The tools are stated
    over any reader and printer; this instance runs them on concrete text. *)

Module Json.

Definition is_ws (c : ascii) : bool :=
  match c with
  | " "%char | "009"%char | "010"%char | "013"%char => true
  | _ => false
  end.

Fixpoint skip_ws (s : string) : string :=
  match s with
  | String c rest => if is_ws c then skip_ws rest else s
  | EmptyString => s
  end.

Definition digit_of (c : ascii) : option Z :=
  let n := Z.of_nat (nat_of_ascii c) in
  if (48 <=? n) && (n <=? 57) then Some (n - 48) else None.

Fixpoint read_digits (acc : Z) (s : string) : Z * string :=
  match s with
  | String c rest =>
      match digit_of c with
      | Some d => read_digits (10 * acc + d) rest
      | None => (acc, s)
      end
  | EmptyString => (acc, s)
  end.

(** The integer part of a number; a fraction or exponent is not read. *)
Definition read_nat (s : string) : option (Z * string) :=
  match s with
  | String c rest =>
      match digit_of c with
      | Some 0 =>
          match rest with
          | String c' _ =>
              match digit_of c' with Some _ => None | None => Some (0, rest) end
          | EmptyString => Some (0, rest)
          end
      | Some d => Some (read_digits d rest)
      | None => None
      end
  | EmptyString => None
  end.

Definition no_fraction (r : Z * string) : option (Z * string) :=
  match snd r with
  | String "."%char _ | String "e"%char _ | String "E"%char _ => None
  | _ => Some r
  end.

Fixpoint expect (word rest : string) : option string :=
  match word, rest with
  | EmptyString, _ => Some rest
  | String a w, String b r => if Ascii.eqb a b then expect w r else None
  | String _ _, EmptyString => None
  end.

(** The characters of a string literal after its opening quote. *)
Fixpoint read_string (s : string) : option (string * string) :=
  match s with
  | EmptyString => None
  | String "034"%char rest => Some (EmptyString, rest)
  | String "\"%char (String e rest) =>
      let unescaped :=
        match e with
        | "034"%char => Some "034"%char
        | "\"%char => Some "\"%char
        | "/"%char => Some "/"%char
        | "b"%char => Some "008"%char
        | "f"%char => Some "012"%char
        | "n"%char => Some "010"%char
        | "r"%char => Some "013"%char
        | "t"%char => Some "009"%char
        | _ => None
        end in
      match unescaped, read_string rest with
      | Some c, Some (body, rest') => Some (String c body, rest')
      | _, _ => None
      end
  | String "\"%char EmptyString => None
  | String c rest =>
      if (nat_of_ascii c <? 32)%nat then None
      else match read_string rest with
           | Some (body, rest') => Some (String c body, rest')
           | None => None
           end
  end.

Fixpoint read_value (fuel : nat) (s : string) {struct fuel}
  : option (pyval * string) :=
  match fuel with
  | O => None
  | S fuel' =>
      match skip_ws s with
      | String "n"%char rest => option_map (pair PNone) (expect "ull" rest)
      | String "t"%char rest => option_map (pair (PBool true)) (expect "rue" rest)
      | String "f"%char rest => option_map (pair (PBool false)) (expect "alse" rest)
      | String "034"%char rest =>
          option_map (fun r => (PStr (fst r), snd r)) (read_string rest)
      | String "["%char rest =>
          match skip_ws rest with
          | String "]"%char rest' => Some (PList [], rest')
          | _ => option_map (fun r => (PList (fst r), snd r)) (read_items fuel' rest)
          end
      | String "{"%char rest =>
          match skip_ws rest with
          | String "}"%char rest' => Some (PDict [], rest')
          | _ => option_map (fun r => (PDict (fst r), snd r))
                            (read_members fuel' [] rest)
          end
      | String "-"%char rest =>
          match read_nat rest with
          | Some r => option_map (fun r => (PInt (- fst r), snd r)) (no_fraction r)
          | None => None
          end
      | rest =>
          match read_nat rest with
          | Some r => option_map (fun r => (PInt (fst r), snd r)) (no_fraction r)
          | None => None
          end
      end
  end
with read_items (fuel : nat) (s : string) {struct fuel}
  : option (list pyval * string) :=
  match fuel with
  | O => None
  | S fuel' =>
      match read_value fuel' s with
      | Some (v, rest) =>
          match skip_ws rest with
          | String ","%char rest' =>
              option_map (fun r => (v :: fst r, snd r)) (read_items fuel' rest')
          | String "]"%char rest' => Some ([v], rest')
          | _ => None
          end
      | None => None
      end
  end
with read_members (fuel : nat) (acc : list (string * pyval)) (s : string)
    {struct fuel} : option (list (string * pyval) * string) :=
  match fuel with
  | O => None
  | S fuel' =>
      match skip_ws s with
      | String "034"%char rest =>
          match read_string rest with
          | Some (k, rest1) =>
              match skip_ws rest1 with
              | String ":"%char rest2 =>
                  match read_value fuel' rest2 with
                  | Some (v, rest3) =>
                      match skip_ws rest3 with
                      | String ","%char rest4 =>
                          read_members fuel' (dict_set acc k v) rest4
                      | String "}"%char rest4 => Some (dict_set acc k v, rest4)
                      | _ => None
                      end
                  | None => None
                  end
              | _ => None
              end
          | None => None
          end
      | _ => None
      end
  end.

Definition loads (s : string) : option pyval :=
  match read_value (2 * String.length s + 2) s with
  | Some (v, rest) =>
      match skip_ws rest with
      | EmptyString => Some v
      | _ => None
      end
  | None => None
  end.

Definition hex_digit (n : nat) : ascii :=
  ascii_of_nat (if (n <? 10)%nat then 48 + n else 87 + n).

Fixpoint escape (s : string) : string :=
  match s with
  | EmptyString => EmptyString
  | String c rest =>
      (match c with
       | "034"%char => String "\"%char (String "034"%char EmptyString)
       | "\"%char => "\\"
       | "008"%char => "\b"
       | "012"%char => "\f"
       | "010"%char => "\n"
       | "013"%char => "\r"
       | "009"%char => "\t"
       | _ =>
           let n := nat_of_ascii c in
           if (n <? 32)%nat
           then "\u00" ++ String (hex_digit (n / 16))
                                (String (hex_digit (n mod 16)) EmptyString)
           else String c EmptyString
       end) ++ escape rest
  end.

Definition quote (s : string) : string :=
  String "034"%char (escape s ++ String "034"%char EmptyString).

Fixpoint dumps (v : pyval) : string :=
  match v with
  | PNone => "null"
  | PBool true => "true"
  | PBool false => "false"
  | PInt n => NilZero.string_of_int (Z.to_int n)
  | PStr s => quote s
  | PList items =>
      "[" ++ (fix go (l : list pyval) : string :=
                match l with
                | [] => EmptyString
                | x :: rest =>
                    dumps x
                    ++ match rest with [] => EmptyString | _ => ", " ++ go rest end
                end) items ++ "]"
  | PDict kvs =>
      "{" ++ (fix go (l : list (string * pyval)) : string :=
                match l with
                | [] => EmptyString
                | (k, x) :: rest =>
                    quote k ++ ": " ++ dumps x
                    ++ match rest with [] => EmptyString | _ => ", " ++ go rest end
                end) kvs ++ "}"
  end.

End Json.

(** * Vocabulary of the statements *)

(** [a] may come before [b] in a result ordered by [before]. *)
Definition precedes {A} (before : A -> A -> bool) (a b : A) : Prop :=
  before a b = true.

(** A store to run the tools on: one user, one goal with three milestones
    (the first complete), seven completed tasks and two open ones. *)
Definition demo_task (id : Z) (status : TaskStatus) (created : Z)
    (completed : option Z) : Task :=
  mkTask id 1 (Some 1) "task" "work" status created completed.

Definition demo_store : Store :=
  mkStore
    [mkUser 1 "alice" "alice@x.com" (Some "visual") 10]
    [mkGoal 1 1 "Guitar" 60 PNone]
    [mkMilestone 1 1 (PStr "Chords") (PStr EmptyString) 1 true (Some 50);
     mkMilestone 2 1 (PStr "Songs") (PStr EmptyString) 2 false None;
     mkMilestone 3 1 (PStr "Stage") (PStr EmptyString) 3 false None]
    [demo_task 1 COMPLETE 20 (Some 31);
     demo_task 2 COMPLETE 21 (Some 37);
     demo_task 3 IN_PROGRESS 29 None;
     demo_task 4 COMPLETE 22 (Some 33);
     demo_task 5 COMPLETE 23 (Some 36);
     demo_task 6 INCOMPLETE 24 None;
     demo_task 7 COMPLETE 25 (Some 32);
     demo_task 8 COMPLETE 26 (Some 35);
     demo_task 9 COMPLETE 27 (Some 34)]
    [].

Definition demo_goal : Goal := mkGoal 1 1 "Guitar" 60 PNone.

(** A goal whose owner is gone and that has neither tasks nor milestones. *)
Definition orphan_store : Store :=
  mkStore [] [mkGoal 4 9 "Chess" 30 PNone] [] [] [].

Definition orphan_goal : Goal := mkGoal 4 9 "Chess" 30 PNone.

(** The assignments of [update_milestone], in the order the tool makes them. *)
Definition milestone_assignments (title description : option string)
    (is_complete : option bool) (now : Z) (m : Milestone) : Milestone :=
  let m1 := match title with Some v => with_title v m | None => m end in
  let m2 := match description with
            | Some v => with_description v m1
            | None => m1
            end in
  match is_complete with
  | Some v =>
      with_completed_at (if v then Some now else None) (with_is_complete v m2)
  | None => m2
  end.

(** The assignments of [update_goal] when [coach_notes] is absent or parses
    to [parsed]. *)
Definition goal_assignments (skill_name : option string) (timeline : option Z)
    (coach_notes parsed : pyval) (g : Goal) : Goal :=
  let g1 := match skill_name with Some v => with_skill_name v g | None => g end in
  let g2 := match timeline with Some v => with_timeline v g1 | None => g1 end in
  if is_not_none coach_notes then with_coach_notes parsed g2 else g2.

(** The condition [(User.username == username) | (User.email == email)]. *)
Definition same_name_or_email (username email : string) (u : User) : bool :=
  String.eqb (user_username u) username || String.eqb (user_email u) email.

(** The milestone a new task of goal [gid] is attached to. *)
Definition current_milestone (gid : Z) (st : Store) : option Milestone :=
  first (order_by by_order (filter (incomplete_of gid) (milestones st))).

Definition add_milestones (created : list Milestone) (st : Store) : Store :=
  mkStore (users st) (goals st) (milestones st ++ created) (tasks st)
          (verifications st).

Definition add_goal (g : Goal) (st : Store) : Store :=
  mkStore (users st) (goals st ++ [g]) (milestones st) (tasks st)
          (verifications st).

(** The title and description the loop gives to the entry at index [idx]. *)
Definition entry_title (idx : nat) (kvs : list (string * pyval)) : pyval :=
  match dict_get kvs "title" with
  | Some t => t
  | None => PStr ("Milestone " ++ str_of_nat (idx + 1))
  end.

Definition entry_description (kvs : list (string * pyval)) : pyval :=
  match dict_get kvs "description" with
  | Some d => d
  | None => PStr EmptyString
  end.

(** [coach_notes_dict], as [create_goal] computes it. *)
Definition parse_notes (loads : string -> option pyval) (coach_notes : pyval)
  : option pyval :=
  if truthy coach_notes then parse_arg loads coach_notes else Some PNone.

(** An entry the loop of [create_goal] can read: a dict. *)
Definition is_record (v : pyval) : bool :=
  match v with PDict _ => true | _ => false end.

(** The parsed roadmap can be iterated and every entry is a dict. *)
Definition entries_are_records (roadmap_list : pyval) : bool :=
  match iter_items roadmap_list with
  | Some entries => forallb is_record entries
  | None => false
  end.

(** The assignment of [update_user]. *)
Definition with_learning_style (v : string) (u : User) : User :=
  mkUser (user_id u) (user_username u) (user_email u) (Some v) (user_created_at u).

(** The lists of a context snapshot; empty for any other response. *)
Definition context_recent (r : Response) : list TaskSummary :=
  match r with ContextInfo _ _ _ recent _ _ _ => recent | _ => [] end.

Definition context_current (r : Response) : list TaskSummary :=
  match r with ContextInfo _ _ _ _ current _ _ => current | _ => [] end.

Definition context_roadmap (r : Response) : list MilestoneSummary :=
  match r with ContextInfo _ _ _ _ _ roadmap _ => roadmap | _ => [] end.

(** The milestone the loop of [create_goal] makes of the record [kvs] at
    index [idx], under key [id]. *)
Definition milestone_of_entry (gid id : Z) (idx : nat)
    (kvs : list (string * pyval)) : Milestone :=
  mkMilestone id gid (entry_title idx kvs) (entry_description kvs) (idx + 1)
              false None.

(** The milestones the loop makes of a sequence of records, the first under
    key [id] and at index [idx], the following under the following keys. *)
Fixpoint milestones_of_records (gid id : Z) (idx : nat)
    (records : list (list (string * pyval))) : list Milestone :=
  match records with
  | [] => []
  | kvs :: rest =>
      milestone_of_entry gid id idx kvs
      :: milestones_of_records gid (id + 1) (S idx) rest
  end.

(** Every reference in the store points at a row that is there: a goal at
    its user, a milestone and a task at their goal, a task that has a
    milestone at a milestone of the same goal, a verification at its task. *)
Definition refs_ok (st : Store) : Prop :=
  (forall g, In g (goals st) -> In (goal_user_id g) (map user_id (users st)))
  /\ (forall m, In m (milestones st) ->
        In (ms_goal_id m) (map goal_id (goals st)))
  /\ (forall t, In t (tasks st) -> In (tk_goal_id t) (map goal_id (goals st)))
  /\ (forall t mid, In t (tasks st) -> tk_milestone_id t = Some mid ->
        exists m, In m (milestones st)
                  /\ ms_id m = mid /\ ms_goal_id m = tk_goal_id t)
  /\ (forall v, In v (verifications st) ->
        In (ver_task_id v) (map tk_id (tasks st))).

(** What the assignments of [update_milestone] do to a roadmap entry. *)
Definition summary_assignments (title description : option string)
    (is_complete : option bool) (s : MilestoneSummary) : MilestoneSummary :=
  mkMilestoneSummary (mss_milestone_id s)
    (match title with Some v => PStr v | None => mss_title s end)
    (match description with Some v => PStr v | None => mss_description s end)
    (mss_order s)
    (match is_complete with Some v => v | None => mss_is_complete s end).

(** [a] is not later than [b]; a missing time is below every time, which is
    how the default engine of [DATABASE_URL] orders NULL. *)
Definition no_later (a b : option Z) : Prop :=
  match a, b with
  | None, _ => True
  | Some _, None => False
  | Some x, Some y => x <= y
  end.

(** The two statuses of a task that is still open. *)
Definition is_open (s : TaskStatus) : Prop := s = INCOMPLETE \/ s = IN_PROGRESS.

(** The dictionary returned for a task, and for a milestone, field by field. *)
Definition shows_task (s : TaskSummary) (t : Task) : Prop :=
  ts_task_id s = tk_id t /\ ts_title s = tk_title t
  /\ ts_description s = tk_description t /\ ts_status s = tk_status t
  /\ ts_completed_at s = tk_completed_at t.

Definition shows_milestone (s : MilestoneSummary) (m : Milestone) : Prop :=
  mss_milestone_id s = ms_id m /\ mss_title s = ms_title m
  /\ mss_description s = ms_description m /\ mss_order s = ms_order m
  /\ mss_is_complete s = ms_is_complete m.

(** [a] occurs in [l] at a position before an occurrence of [b]. *)
Inductive in_order {A : Type} : list A -> A -> A -> Prop :=
| in_order_here (a b : A) (l : list A) : In b l -> in_order (a :: l) a b
| in_order_later (x a b : A) (l : list A) : in_order l a b -> in_order (x :: l) a b.

(** [digits] is the decimal numeral of [n]. *)
Definition decimal_of (n : nat) (digits : string) : Prop :=
  NilEmpty.uint_of_string digits = Some (Nat.to_uint n).

(** The first pair of [kvs] with key [k] carries [v]; no pair has key [k]. *)
Definition binds (kvs : list (string * pyval)) (k : string) (v : pyval) : Prop :=
  exists front back,
    kvs = (front ++ (k, v) :: back)%list /\ forall v', ~ In (k, v') front.

Definition unbound (kvs : list (string * pyval)) (k : string) : Prop :=
  forall v, ~ In (k, v) kvs.

(** * Properties *)

(** ** Ordered queries *)

Section OrderBy.

Context {A : Type} (before : A -> A -> bool).

Hypothesis before_total : forall a b, before a b = true \/ before b a = true.
Hypothesis before_trans :
  forall a b c, before a b = true -> before b c = true -> before a c = true.

Lemma insert_by_perm (x : A) (rows : list A) :
  Permutation (insert_by before x rows) (x :: rows).
Proof.
  induction rows as [|y rest IH]; simpl.
  - apply Permutation_refl.
  - destruct (before x y).
    + apply Permutation_refl.
    + eapply perm_trans; [apply perm_skip, IH | apply perm_swap].
Qed.

Lemma order_by_perm (rows : list A) : Permutation (order_by before rows) rows.
Proof.
  induction rows as [|x rest IH]; simpl.
  - constructor.
  - eapply perm_trans; [apply insert_by_perm | apply perm_skip, IH].
Qed.

Lemma order_by_length (rows : list A) :
  length (order_by before rows) = length rows.
Proof. apply Permutation_length, order_by_perm. Qed.

Lemma order_by_In (rows : list A) (x : A) :
  In x (order_by before rows) <-> In x rows.
Proof.
  split; apply Permutation_in;
    [apply order_by_perm | apply Permutation_sym, order_by_perm].
Qed.

Lemma insert_by_sorted (x : A) (rows : list A) :
  StronglySorted (precedes before) rows ->
  StronglySorted (precedes before) (insert_by before x rows).
Proof using before_total before_trans.
  induction 1 as [|y rest Hsorted IH Hall]; simpl.
  - repeat constructor.
  - destruct (before x y) eqn:Hxy.
    + constructor; [constructor; assumption|].
      constructor; [exact Hxy|].
      rewrite Forall_forall in Hall |- *.
      intros z Hz. eapply before_trans; [exact Hxy | apply Hall, Hz].
    + constructor; [exact IH|].
      rewrite Forall_forall in Hall |- *.
      intros z Hz.
      apply (Permutation_in _ (insert_by_perm x rest)) in Hz.
      destruct Hz as [<- | Hz]; [|apply Hall, Hz].
      destruct (before_total x y) as [H | H]; [congruence | exact H].
Qed.

Lemma order_by_sorted (rows : list A) :
  StronglySorted (precedes before) (order_by before rows).
Proof using before_total before_trans.
  induction rows as [|x rest IH]; simpl.
  - constructor.
  - apply insert_by_sorted, IH.
Qed.

Lemma sorted_app_precedes (front back : list A) :
  StronglySorted (precedes before) (front ++ back) ->
  forall a b, In a front -> In b back -> precedes before a b.
Proof.
  induction front as [|x front IH]; simpl; intros Hs a b Ha Hb.
  - contradiction.
  - inversion Hs as [|? ? Hrest Hall]; subst.
    destruct Ha as [<- | Ha].
    + rewrite Forall_forall in Hall. apply Hall, in_or_app. right; exact Hb.
    + eapply IH; eassumption.
Qed.

Lemma sorted_app_front (front back : list A) :
  StronglySorted (precedes before) (front ++ back) ->
  StronglySorted (precedes before) front.
Proof.
  induction front as [|x front IH]; simpl; intros Hs.
  - constructor.
  - inversion Hs as [|? ? Hrest Hall]; subst.
    constructor; [apply IH, Hrest|].
    rewrite Forall_forall in Hall |- *.
    intros z Hz. apply Hall, in_or_app. left; exact Hz.
Qed.

(** What [.order_by(...).limit(n)] returns: a sorted prefix that every
    row left out comes after. *)
Lemma limit_order_by (n : nat) (rows : list A) :
  let kept := limit n (order_by before rows) in
  let dropped := skipn n (order_by before rows) in
  Permutation (kept ++ dropped) rows
  /\ StronglySorted (precedes before) kept
  /\ (forall a b, In a kept -> In b dropped -> precedes before a b)
  /\ length kept = Nat.min n (length rows).
Proof using before_total before_trans.
  intros kept dropped. subst kept dropped. unfold limit.
  pose proof (order_by_sorted rows) as Hs.
  rewrite <- (firstn_skipn n (order_by before rows)) in Hs.
  repeat split.
  - rewrite firstn_skipn. apply order_by_perm.
  - eapply sorted_app_front, Hs.
  - apply sorted_app_precedes, Hs.
  - rewrite length_firstn, order_by_length. reflexivity.
Qed.

(** What [.order_by(...).first()] returns: a row that no other row of
    the result comes strictly before, or nothing when there is no row. *)
Lemma first_order_by_some (rows : list A) (m : A) :
  first (order_by before rows) = Some m ->
  In m rows /\ forall x, In x rows -> precedes before m x.
Proof using before_total before_trans.
  intros Hfirst. pose proof (order_by_sorted rows) as Hs.
  unfold first in Hfirst.
  destruct (order_by before rows) as [|y sorted] eqn:Hsorted; [discriminate|].
  simpl in Hfirst. injection Hfirst as ->.
  assert (Hin : forall x, In x rows <-> In x (m :: sorted)).
  { intros x. rewrite <- Hsorted. symmetry. apply order_by_In. }
  split.
  - apply Hin. left; reflexivity.
  - intros x Hx. apply Hin in Hx. inversion Hs as [|? ? _ Hall]; subst.
    destruct Hx as [<- | Hx].
    + destruct (before_total m m); assumption.
    + rewrite Forall_forall in Hall. apply Hall, Hx.
Qed.

Lemma first_order_by_none (rows : list A) :
  first (order_by before rows) = None -> rows = [].
Proof.
  intros Hfirst. pose proof (order_by_length rows) as Hlen.
  unfold first in Hfirst.
  destruct (order_by before rows); [|discriminate].
  destruct rows; [reflexivity | discriminate].
Qed.

End OrderBy.

Lemma ts_leb_total (a b : option Z) : ts_leb a b = true \/ ts_leb b a = true.
Proof. destruct a, b; simpl; auto; lia. Qed.

Lemma ts_leb_trans (a b c : option Z) :
  ts_leb a b = true -> ts_leb b c = true -> ts_leb a c = true.
Proof. destruct a, b, c; simpl; auto; try discriminate; lia. Qed.

Lemma completed_at_desc_total (a b : Task) :
  completed_at_desc a b = true \/ completed_at_desc b a = true.
Proof.
  unfold completed_at_desc.
  destruct (ts_leb_total (tk_completed_at a) (tk_completed_at b)); auto.
Qed.

Lemma completed_at_desc_trans (a b c : Task) :
  completed_at_desc a b = true -> completed_at_desc b c = true ->
  completed_at_desc a c = true.
Proof. unfold completed_at_desc. intros H1 H2. eapply ts_leb_trans; eassumption. Qed.

Lemma created_at_asc_total (a b : Task) :
  created_at_asc a b = true \/ created_at_asc b a = true.
Proof. unfold created_at_asc. lia. Qed.

Lemma created_at_asc_trans (a b c : Task) :
  created_at_asc a b = true -> created_at_asc b c = true ->
  created_at_asc a c = true.
Proof. unfold created_at_asc. lia. Qed.

Lemma by_order_total (a b : Milestone) : by_order a b = true \/ by_order b a = true.
Proof. unfold by_order. rewrite !Nat.leb_le. lia. Qed.

Lemma by_order_trans (a b c : Milestone) :
  by_order a b = true -> by_order b c = true -> by_order a c = true.
Proof. unfold by_order. rewrite !Nat.leb_le. lia. Qed.

Lemma StronglySorted_weaken {A} (R R' : A -> A -> Prop) (l : list A) :
  (forall a b, R a b -> R' a b) -> StronglySorted R l -> StronglySorted R' l.
Proof.
  intros Himp. induction 1 as [|x rest Hs IH Hall]; constructor.
  - exact IH.
  - eapply Forall_impl; [|exact Hall]. intros b. apply Himp.
Qed.

Lemma filter_none {A} (f : A -> bool) (l : list A) :
  (forall x, In x l -> f x = false) -> filter f l = [].
Proof.
  induction l as [|x rest IH]; simpl; intros Hall; [reflexivity|].
  rewrite (Hall x (or_introl eq_refl)). apply IH.
  intros y Hy. apply Hall. right; exact Hy.
Qed.

(** ** Primary keys and row lookup *)

Lemma next_id_above (ids : list Z) (x : Z) : In x ids -> x < next_id ids.
Proof.
  unfold next_id. induction ids as [|y rest IH]; cbn [fold_right In].
  - contradiction.
  - intros [-> | Hin]; [lia|]. specialize (IH Hin). lia.
Qed.

Lemma next_id_positive (ids : list Z) : 0 < next_id ids.
Proof.
  unfold next_id. induction ids as [|y rest IH]; cbn [fold_right]; lia.
Qed.

Lemma filter_next_id {A} (key : A -> Z) (rows : list A) :
  filter (fun r => key r =? next_id (map key rows)) rows = [].
Proof.
  apply filter_none. intros r Hr. apply Z.eqb_neq.
  pose proof (next_id_above (map key rows) (key r) (in_map key rows r Hr)). lia.
Qed.

(** A row appended with the next key is the row found under that key. *)
Lemma first_filter_app_new {A} (key : A -> Z) (rows : list A) (r : A) :
  key r = next_id (map key rows) ->
  first (filter (fun x => key x =? key r) (rows ++ [r])) = Some r.
Proof.
  intros Hkey. rewrite filter_app, Hkey, filter_next_id. simpl.
  rewrite <- Hkey, Z.eqb_refl. reflexivity.
Qed.

Lemma first_filter_app_fresh {A} (key : A -> Z) (rows : list A) (r : A) :
  key r = next_id (map key rows) ->
  first (filter (fun x => key x =? next_id (map key rows)) (rows ++ [r])) = Some r.
Proof.
  intros Hkey. rewrite <- Hkey. apply first_filter_app_new, Hkey.
Qed.

(** Rows that were there before are found as before. *)
Lemma first_filter_app_old {A} (f : A -> bool) (rows extra : list A) (r : A) :
  first (filter f rows) = Some r -> first (filter f (rows ++ extra)) = Some r.
Proof.
  rewrite filter_app. destruct (filter f rows); simpl; [discriminate | auto].
Qed.

Lemma first_filter_key {A} (key : A -> Z) (id : Z) (rows : list A) (r : A) :
  first (filter (fun x => key x =? id) rows) = Some r -> key r = id /\ In r rows.
Proof.
  induction rows as [|x rest IH]; simpl; [discriminate|].
  destruct (key x =? id) eqn:Hx; simpl.
  - intros [= ->]. split; [apply Z.eqb_eq, Hx | left; reflexivity].
  - intros H. destruct (IH H). split; [assumption | right; assumption].
Qed.

(** Lookup after an attribute assignment, under the assigned key... *)
Lemma first_filter_update_same {A} (key : A -> Z) (id : Z) (f : A -> A)
    (rows : list A) :
  (forall r, key (f r) = key r) ->
  first (filter (fun x => key x =? id) (update_rows key id f rows))
  = option_map f (first (filter (fun x => key x =? id) rows)).
Proof.
  intros Hkey. unfold update_rows.
  induction rows as [|x rest IH]; simpl; [reflexivity|].
  destruct (key x =? id) eqn:Hx; simpl.
  - rewrite Hkey, Hx. reflexivity.
  - rewrite Hx. exact IH.
Qed.

(** ... and under any other key. *)
Lemma first_filter_update_other {A} (key : A -> Z) (id id' : Z) (f : A -> A)
    (rows : list A) :
  (forall r, key (f r) = key r) -> id' <> id ->
  first (filter (fun x => key x =? id') (update_rows key id f rows))
  = first (filter (fun x => key x =? id') rows).
Proof.
  intros Hkey Hne. unfold update_rows.
  induction rows as [|x rest IH]; simpl; [reflexivity|].
  destruct (key x =? id) eqn:Hx.
  - rewrite Hkey. apply Z.eqb_eq in Hx. rewrite Hx.
    destruct (id =? id') eqn:Hid; [apply Z.eqb_eq in Hid; congruence | exact IH].
  - destruct (key x =? id'); simpl; [reflexivity | exact IH].
Qed.

(** Unfolding of the session monad in a tool body. *)
Ltac run_body :=
  unfold run_tool, run_readonly_tool, query, db_refresh, set_goal, set_user,
    set_milestone, db_add_user, db_add_goal, db_add_milestone, db_add_task,
    db_add_verification, db_view, db_modify, db_commit, py_raise, get_db,
    db_close, db_rollback;
  cbn [bind ret Monad_M]; unfold M_bind, M_ret;
  cbn [fst snd committed pending users goals milestones tasks verifications].

(** ** [get_context] *)

Lemma get_context_found (gid : Z) (st : Store) (g : Goal) :
  find_goal gid st = Some g ->
  get_context gid st =
  (ContextInfo (goal_id g) (goal_skill_name g)
     (match find_user (goal_user_id g) st with
      | Some u => user_learning_style u
      | None => None
      end)
     (map summary_of_task
        (limit 5 (order_by completed_at_desc
                    (filter (completed_of gid) (tasks st)))))
     (map summary_of_task
        (order_by created_at_asc (filter (open_of gid) (tasks st))))
     (map summary_of_milestone
        (order_by by_order (filter (milestone_of gid) (milestones st))))
     (goal_coach_notes g),
   st).
Proof.
  intros Hg. unfold get_context. run_body. rewrite Hg. reflexivity.
Qed.

Lemma get_context_missing (gid : Z) (st : Store) :
  find_goal gid st = None -> get_context gid st = (Error "Goal not found", st).
Proof.
  intros Hg. unfold get_context. run_body. rewrite Hg. reflexivity.
Qed.

(** ** Rows kept and rows left out by a filter, and ties of an ordering *)

Lemma filter_partition {A} (p : A -> bool) (rows : list A) :
  Permutation (filter p rows ++ filter (fun r => negb (p r)) rows) rows.
Proof.
  induction rows as [|r rest IH]; cbn [filter]; [constructor|].
  destruct (p r); cbn [negb app].
  - apply perm_skip, IH.
  - eapply perm_trans; [apply Permutation_sym, Permutation_middle|].
    apply perm_skip, IH.
Qed.

Lemma Forall_filter_kept {A} (p : A -> bool) (rows : list A) :
  Forall (fun r => p r = true) (filter p rows).
Proof. apply Forall_forall. intros r Hr. apply filter_In in Hr. apply Hr. Qed.

Lemma Forall_filter_dropped {A} (p : A -> bool) (rows : list A) :
  Forall (fun r => p r = false) (filter (fun r => negb (p r)) rows).
Proof.
  apply Forall_forall. intros r Hr. apply filter_In in Hr.
  destruct Hr as [_ Hr]. destruct (p r); [discriminate | reflexivity].
Qed.

Lemma in_order_In {A} (l : list A) (a b : A) : in_order l a b -> In a l /\ In b l.
Proof.
  induction 1 as [a b l Hb | x a b l _ [IHa IHb]].
  - split; [left; reflexivity | right; exact Hb].
  - split; right; assumption.
Qed.

Lemma in_order_insert_by {A} (before : A -> A -> bool) (x : A) (rows : list A)
    (a b : A) :
  in_order (insert_by before x rows) a b ->
  in_order rows a b
  \/ (a = x /\ In b rows)
  \/ (b = x /\ In a rows /\ before x a = false).
Proof.
  induction rows as [|y rest IH]; cbn [insert_by]; intros Hord.
  - inversion Hord as [? ? ? Hb | ? ? ? ? Hin]; subst;
      [contradiction | inversion Hin].
  - destruct (before x y) eqn:Hxy.
    + inversion Hord as [? ? ? Hb | ? ? ? ? Hin]; subst.
      * right; left. split; [reflexivity | exact Hb].
      * left. exact Hin.
    + inversion Hord as [? ? ? Hb | ? ? ? ? Hin]; subst.
      * apply (Permutation_in _ (insert_by_perm before x rest)) in Hb.
        destruct Hb as [<- | Hb].
        -- right; right. split; [reflexivity|].
           split; [left; reflexivity | exact Hxy].
        -- left. apply in_order_here, Hb.
      * destruct (IH Hin) as [Hold | [[-> Hb] | [-> [Ha Hxa]]]].
        -- left. apply in_order_later, Hold.
        -- right; left. split; [reflexivity | right; exact Hb].
        -- right; right. split; [reflexivity|]. split; [right; exact Ha | exact Hxa].
Qed.

(** [order_by] is stable: two rows of the result that the ordering does not
    tell apart are in the order in which the table has them. *)
Lemma order_by_stable {A} (before : A -> A -> bool) (rows : list A) (a b : A) :
  in_order (order_by before rows) a b -> before b a = true -> in_order rows a b.
Proof.
  induction rows as [|x rest IH]; cbn [order_by fold_right]; intros Hord Htie.
  - inversion Hord.
  - fold (order_by before rest) in Hord.
    destruct (in_order_insert_by before x (order_by before rest) a b Hord)
      as [Hold | [[-> Hb] | [-> [_ Hxa]]]].
    + apply in_order_later, IH; assumption.
    + apply in_order_here. apply (order_by_In before rest b), Hb.
    + congruence.
Qed.

Lemma in_order_filter {A} (p : A -> bool) (rows : list A) (a b : A) :
  in_order (filter p rows) a b -> in_order rows a b.
Proof.
  induction rows as [|x rest IH]; cbn [filter]; intros Hord; [inversion Hord|].
  destruct (p x).
  - inversion Hord as [? ? ? Hb | ? ? ? ? Hin]; subst.
    + apply in_order_here. apply filter_In in Hb. apply Hb.
    + apply in_order_later, IH, Hin.
  - apply in_order_later, IH, Hord.
Qed.

Lemma in_order_firstn {A} (n : nat) (rows : list A) (a b : A) :
  in_order (firstn n rows) a b -> in_order rows a b.
Proof.
  revert rows. induction n as [|n IH]; intros rows Hord; [inversion Hord|].
  destruct rows as [|x rest]; [inversion Hord|].
  cbn [firstn] in Hord. inversion Hord as [? ? ? Hb | ? ? ? ? Hin]; subst.
  - apply in_order_here. rewrite <- (firstn_skipn n rest).
    apply in_or_app. left; exact Hb.
  - apply in_order_later, IH, Hin.
Qed.

Lemma ts_leb_no_later (a b : option Z) : ts_leb a b = true <-> no_later a b.
Proof.
  destruct a, b; cbn; try tauto; [apply Z.leb_le | split; [discriminate | tauto]].
Qed.

Lemma ts_leb_refl (a : option Z) : ts_leb a a = true.
Proof. destruct a; cbn; [apply Z.leb_refl | reflexivity]. Qed.

Lemma TaskStatus_eqb_eq (a b : TaskStatus) : TaskStatus_eqb a b = true <-> a = b.
Proof. destruct a, b; cbn; split; congruence. Qed.

Lemma completed_of_iff (gid : Z) (t : Task) :
  completed_of gid t = true <-> tk_goal_id t = gid /\ tk_status t = COMPLETE.
Proof.
  unfold completed_of. rewrite andb_true_iff, Z.eqb_eq, TaskStatus_eqb_eq.
  reflexivity.
Qed.

Lemma open_of_iff (gid : Z) (t : Task) :
  open_of gid t = true <-> tk_goal_id t = gid /\ is_open (tk_status t).
Proof.
  unfold open_of, is_open. cbn [existsb].
  rewrite andb_true_iff, Z.eqb_eq, !orb_true_iff, !TaskStatus_eqb_eq.
  intuition congruence.
Qed.

Lemma Forall2_map_shows {A B} (f : A -> B) (shows : B -> A -> Prop) (l : list A) :
  (forall x, shows (f x) x) -> Forall2 shows (map f l) l.
Proof.
  intros Hshows. induction l as [|x rest IH]; cbn [map]; constructor; auto.
Qed.

(** C5. For an existing goal [get_context] returns, field by field,
    (b) completed tasks of the goal: the tasks of the store that belong to
    the goal and are COMPLETE split into the ones returned and the ones left
    out, at most five are returned and exactly five when there are more, the
    returned ones are in descending order of [completed_at], each one left
    out is no later than each one returned, and returned tasks with equal
    [completed_at] come in the order of the table; (c) exactly the tasks of
    the goal that are INCOMPLETE or IN_PROGRESS, in ascending order of
    [created_at]; (d) exactly the milestones of the goal, in ascending order
    of [order]. *)
Theorem get_context_lists (gid : Z) (st : Store) (g : Goal) :
  find_goal gid st = Some g ->
  exists (style : option string)
         (recent_out current_out : list TaskSummary)
         (roadmap_out : list MilestoneSummary)
         (recent older other_tasks current not_open : list Task)
         (roadmap other_milestones : list Milestone),
    fst (get_context gid st)
    = ContextInfo (goal_id g) (goal_skill_name g) style recent_out current_out
        roadmap_out (goal_coach_notes g)
    /\ Forall2 shows_task recent_out recent
    /\ Forall2 shows_task current_out current
    /\ Forall2 shows_milestone roadmap_out roadmap
    /\ Permutation (recent ++ older ++ other_tasks) (tasks st)
    /\ Forall (fun t => tk_goal_id t = gid /\ tk_status t = COMPLETE)
              (recent ++ older)
    /\ Forall (fun t => ~ (tk_goal_id t = gid /\ tk_status t = COMPLETE))
              other_tasks
    /\ length recent = Nat.min 5 (length recent + length older)
    /\ StronglySorted
         (fun a b => no_later (tk_completed_at b) (tk_completed_at a)) recent
    /\ (forall a b, In a recent -> In b older ->
          no_later (tk_completed_at b) (tk_completed_at a))
    /\ (forall a b, in_order recent a b ->
          tk_completed_at a = tk_completed_at b -> in_order (tasks st) a b)
    /\ Permutation (current ++ not_open) (tasks st)
    /\ Forall (fun t => tk_goal_id t = gid /\ is_open (tk_status t)) current
    /\ Forall (fun t => ~ (tk_goal_id t = gid /\ is_open (tk_status t))) not_open
    /\ StronglySorted (fun a b => tk_created_at a <= tk_created_at b) current
    /\ Permutation (roadmap ++ other_milestones) (milestones st)
    /\ Forall (fun m => ms_goal_id m = gid) roadmap
    /\ Forall (fun m => ms_goal_id m <> gid) other_milestones
    /\ StronglySorted (fun a b => (ms_order a <= ms_order b)%nat) roadmap.
Proof.
  intros Hg. rewrite (get_context_found gid st g Hg). cbn [fst].
  set (done := filter (completed_of gid) (tasks st)).
  destruct (limit_order_by completed_at_desc completed_at_desc_total
              completed_at_desc_trans 5 done)
    as (Hperm & Hsorted & Hdom & Hlen).
  exists (match find_user (goal_user_id g) st with
          | Some u => user_learning_style u
          | None => None
          end),
    (map summary_of_task (limit 5 (order_by completed_at_desc done))),
    (map summary_of_task (order_by created_at_asc (filter (open_of gid) (tasks st)))),
    (map summary_of_milestone
       (order_by by_order (filter (milestone_of gid) (milestones st)))),
    (limit 5 (order_by completed_at_desc done)),
    (skipn 5 (order_by completed_at_desc done)),
    (filter (fun t => negb (completed_of gid t)) (tasks st)),
    (order_by created_at_asc (filter (open_of gid) (tasks st))),
    (filter (fun t => negb (open_of gid t)) (tasks st)),
    (order_by by_order (filter (milestone_of gid) (milestones st))),
    (filter (fun m => negb (milestone_of gid m)) (milestones st)).
  split; [reflexivity|].
  split; [apply Forall2_map_shows; intros t; repeat split; reflexivity|].
  split; [apply Forall2_map_shows; intros t; repeat split; reflexivity|].
  split; [apply Forall2_map_shows; intros m; repeat split; reflexivity|].
  split.
  { rewrite app_assoc.
    eapply perm_trans; [|apply (filter_partition (completed_of gid))].
    apply Permutation_app_tail. exact Hperm. }
  split.
  { apply Forall_forall. intros t Ht.
    apply (Permutation_in _ Hperm) in Ht. apply filter_In in Ht.
    apply completed_of_iff, Ht. }
  split.
  { eapply Forall_impl; [|apply (Forall_filter_dropped (completed_of gid))].
    intros t Hno Hyes. apply completed_of_iff in Hyes. cbn beta in Hno. congruence. }
  split.
  { rewrite <- length_app. unfold limit.
    rewrite firstn_skipn, length_firstn. reflexivity. }
  split.
  { eapply StronglySorted_weaken; [|exact Hsorted].
    intros a b. unfold precedes, completed_at_desc. apply ts_leb_no_later. }
  split.
  { intros a b Ha Hb. apply ts_leb_no_later. apply (Hdom a b Ha Hb). }
  split.
  { intros a b Hord Htie. apply in_order_firstn in Hord.
    apply order_by_stable in Hord.
    - apply in_order_filter in Hord. exact Hord.
    - unfold completed_at_desc. rewrite Htie. apply ts_leb_refl. }
  split.
  { eapply perm_trans; [|apply (filter_partition (open_of gid))].
    apply Permutation_app_tail, order_by_perm. }
  split.
  { apply Forall_forall. intros t Ht. apply order_by_In in Ht.
    apply filter_In in Ht. apply open_of_iff, Ht. }
  split.
  { eapply Forall_impl; [|apply (Forall_filter_dropped (open_of gid))].
    intros t Hno Hyes. apply open_of_iff in Hyes. cbn beta in Hno. congruence. }
  split.
  { eapply StronglySorted_weaken;
      [|apply (order_by_sorted created_at_asc created_at_asc_total
                 created_at_asc_trans)].
    intros a b. unfold precedes, created_at_asc. lia. }
  split.
  { eapply perm_trans; [|apply (filter_partition (milestone_of gid))].
    apply Permutation_app_tail, order_by_perm. }
  split.
  { apply Forall_forall. intros m Hm. apply order_by_In in Hm.
    apply filter_In in Hm. destruct Hm as [_ Hm]. apply Z.eqb_eq, Hm. }
  split.
  { eapply Forall_impl; [|apply (Forall_filter_dropped (milestone_of gid))].
    intros m Hno. apply Z.eqb_neq. exact Hno. }
  eapply StronglySorted_weaken;
    [|apply (order_by_sorted by_order by_order_total by_order_trans)].
  intros a b. unfold precedes, by_order. apply Nat.leb_le.
Qed.

Lemma get_context_lists_witness :
  find_goal 1 demo_store = Some demo_goal
  /\ fst (get_context 1 demo_store)
     = ContextInfo 1 "Guitar" (Some "visual")
         [mkTaskSummary 2 "task" "work" COMPLETE (Some 37);
          mkTaskSummary 5 "task" "work" COMPLETE (Some 36);
          mkTaskSummary 8 "task" "work" COMPLETE (Some 35);
          mkTaskSummary 9 "task" "work" COMPLETE (Some 34);
          mkTaskSummary 4 "task" "work" COMPLETE (Some 33)]
         [mkTaskSummary 6 "task" "work" INCOMPLETE None;
          mkTaskSummary 3 "task" "work" IN_PROGRESS None]
         [mkMilestoneSummary 1 (PStr "Chords") (PStr EmptyString) 1 true;
          mkMilestoneSummary 2 (PStr "Songs") (PStr EmptyString) 2 false;
          mkMilestoneSummary 3 (PStr "Stage") (PStr EmptyString) 3 false]
         PNone
  /\ exists (style : option string)
            (recent_out current_out : list TaskSummary)
            (roadmap_out : list MilestoneSummary)
            (recent older other_tasks current not_open : list Task)
            (roadmap other_milestones : list Milestone),
       fst (get_context 1 demo_store)
       = ContextInfo 1 "Guitar" style recent_out current_out roadmap_out PNone
       /\ Forall2 shows_task recent_out recent
       /\ Forall2 shows_task current_out current
       /\ Forall2 shows_milestone roadmap_out roadmap
       /\ Permutation (recent ++ older ++ other_tasks) (tasks demo_store)
       /\ Forall (fun t => tk_goal_id t = 1 /\ tk_status t = COMPLETE)
                 (recent ++ older)
       /\ Forall (fun t => ~ (tk_goal_id t = 1 /\ tk_status t = COMPLETE))
                 other_tasks
       /\ length recent = Nat.min 5 (length recent + length older)
       /\ StronglySorted
            (fun a b => no_later (tk_completed_at b) (tk_completed_at a)) recent
       /\ (forall a b, In a recent -> In b older ->
             no_later (tk_completed_at b) (tk_completed_at a))
       /\ (forall a b, in_order recent a b ->
             tk_completed_at a = tk_completed_at b ->
             in_order (tasks demo_store) a b)
       /\ Permutation (current ++ not_open) (tasks demo_store)
       /\ Forall (fun t => tk_goal_id t = 1 /\ is_open (tk_status t)) current
       /\ Forall (fun t => ~ (tk_goal_id t = 1 /\ is_open (tk_status t))) not_open
       /\ StronglySorted (fun a b => tk_created_at a <= tk_created_at b) current
       /\ Permutation (roadmap ++ other_milestones) (milestones demo_store)
       /\ Forall (fun m => ms_goal_id m = 1) roadmap
       /\ Forall (fun m => ms_goal_id m <> 1) other_milestones
       /\ StronglySorted (fun a b => (ms_order a <= ms_order b)%nat) roadmap.
Proof.
  split; [reflexivity|]. split; [reflexivity|].
  apply (get_context_lists 1 demo_store demo_goal). reflexivity.
Defined.

(** With seven completed tasks the five most recently completed come back,
    latest first, and the two open tasks in order of creation. *)
Example get_context_seven_completed :
  fst (get_context 1 demo_store)
  = ContextInfo 1 "Guitar" (Some "visual")
      (map summary_of_task
         [demo_task 2 COMPLETE 21 (Some 37); demo_task 5 COMPLETE 23 (Some 36);
          demo_task 8 COMPLETE 26 (Some 35); demo_task 9 COMPLETE 27 (Some 34);
          demo_task 4 COMPLETE 22 (Some 33)])
      (map summary_of_task
         [demo_task 6 INCOMPLETE 24 None; demo_task 3 IN_PROGRESS 29 None])
      (map summary_of_milestone (milestones demo_store))
      PNone.
Proof. reflexivity. Qed.

(** C6. On an existing goal [get_context] leaves the store as it was and does
    not report an error; when the goal has no task both task lists are empty,
    when it has no milestone the roadmap is empty, and when the owning user is
    not found the learning style is null. *)
Theorem get_context_pure_read (gid : Z) (st : Store) (g : Goal) :
  find_goal gid st = Some g ->
  snd (get_context gid st) = st
  /\ is_error (fst (get_context gid st)) = false
  /\ exists style recent current roadmap,
       fst (get_context gid st)
       = ContextInfo (goal_id g) (goal_skill_name g) style recent current roadmap
           (goal_coach_notes g)
       /\ ((forall t, In t (tasks st) -> tk_goal_id t <> gid) ->
           recent = [] /\ current = [])
       /\ ((forall m, In m (milestones st) -> ms_goal_id m <> gid) ->
           roadmap = [])
       /\ (find_user (goal_user_id g) st = None -> style = None).
Proof.
  intros Hg. rewrite (get_context_found gid st g Hg). cbn [fst snd is_error].
  split; [reflexivity|]. split; [reflexivity|].
  eexists _, _, _, _. split; [reflexivity|]. split; [|split].
  - intros Hnone. split.
    + rewrite (filter_none (completed_of gid)); [reflexivity|].
      intros t Ht. unfold completed_of.
      destruct (Z.eqb_spec (tk_goal_id t) gid) as [E|_]; [|reflexivity].
      exfalso. exact (Hnone t Ht E).
    + rewrite (filter_none (open_of gid)); [reflexivity|].
      intros t Ht. unfold open_of.
      destruct (Z.eqb_spec (tk_goal_id t) gid) as [E|_]; [|reflexivity].
      exfalso. exact (Hnone t Ht E).
  - intros Hnone. rewrite (filter_none (milestone_of gid)); [reflexivity|].
    intros m Hm. unfold milestone_of. apply Z.eqb_neq. exact (Hnone m Hm).
  - intros Hu. rewrite Hu. reflexivity.
Qed.

Lemma get_context_pure_read_witness :
  find_goal 4 orphan_store = Some orphan_goal
  /\ snd (get_context 4 orphan_store) = orphan_store
  /\ is_error (fst (get_context 4 orphan_store)) = false
  /\ exists style recent current roadmap,
       fst (get_context 4 orphan_store)
       = ContextInfo 4 "Chess" style recent current roadmap PNone
       /\ ((forall t, In t (tasks orphan_store) -> tk_goal_id t <> 4) ->
           recent = [] /\ current = [])
       /\ ((forall m, In m (milestones orphan_store) -> ms_goal_id m <> 4) ->
           roadmap = [])
       /\ (find_user 9 orphan_store = None -> style = None).
Proof.
  split; [reflexivity|].
  apply (get_context_pure_read 4 orphan_store orphan_goal). reflexivity.
Defined.

(** ** [update_milestone] and [update_goal] *)

Ltac lookup_updated :=
  repeat (rewrite first_filter_update_same by (intros; reflexivity));
  repeat (rewrite first_filter_update_other
            by (solve [intros; reflexivity | assumption])).

Lemma update_milestone_effect (mid : Z) (title description : option string)
    (is_complete : option bool) (now : Z) (st : Store) (m : Milestone) :
  find_milestone mid st = Some m ->
  let m' := milestone_assignments title description is_complete now m in
  exists rows,
    update_milestone mid title description is_complete now st
    = (MilestoneUpdated (ms_id m') (ms_title m') (ms_description m') (ms_order m')
         (ms_is_complete m') "Milestone updated successfully",
       mkStore (users st) (goals st) rows (tasks st) (verifications st))
    /\ first (filter (fun x => ms_id x =? mid) rows) = Some m'
    /\ forall mid', mid' <> mid ->
         first (filter (fun x => ms_id x =? mid') rows)
         = first (filter (fun x => ms_id x =? mid') (milestones st)).
Proof.
  intros Hm m'. subst m'.
  destruct (first_filter_key ms_id mid (milestones st) m Hm) as [Hid _].
  destruct st as [us gs ms ts vs].
  unfold find_milestone in Hm. cbn [milestones] in Hm.
  unfold update_milestone, milestone_assignments. run_body.
  unfold find_milestone at 1. cbn [milestones]. rewrite Hm, Hid.
  destruct title, description, is_complete as [[|]|]; run_body;
    unfold find_milestone; cbn [milestones];
    (lookup_updated; rewrite ?Hm; cbn [option_map];
     eexists; split; [reflexivity|]; split;
     [lookup_updated; rewrite ?Hm; reflexivity
     | intros mid' Hne; lookup_updated; reflexivity]).
Qed.

Lemma update_goal_effect (loads : string -> option pyval) (gid : Z)
    (skill_name : option string) (timeline : option Z) (coach_notes parsed : pyval)
    (st : Store) (g : Goal) :
  find_goal gid st = Some g ->
  parse_arg loads coach_notes = Some parsed ->
  let g' := goal_assignments skill_name timeline coach_notes parsed g in
  exists rows,
    update_goal loads gid skill_name timeline coach_notes st
    = (GoalUpdated (goal_id g') (goal_skill_name g') (goal_timeline g')
         (goal_coach_notes g') "Goal updated successfully",
       mkStore (users st) rows (milestones st) (tasks st) (verifications st))
    /\ first (filter (fun x => goal_id x =? gid) rows) = Some g'
    /\ forall gid', gid' <> gid ->
         first (filter (fun x => goal_id x =? gid') rows)
         = first (filter (fun x => goal_id x =? gid') (goals st)).
Proof.
  intros Hg Hparse g'. subst g'.
  destruct (first_filter_key goal_id gid (goals st) g Hg) as [Hid _].
  destruct st as [us gs ms ts vs]. unfold find_goal in Hg. cbn [goals] in Hg.
  unfold update_goal, update_goal_body, goal_assignments. run_body.
  unfold find_goal at 1. cbn [goals]. rewrite Hg, Hid, Hparse.
  destruct skill_name, timeline, (is_not_none coach_notes); run_body;
    unfold find_goal; cbn [goals];
    (lookup_updated; rewrite ?Hg; cbn [option_map];
     eexists; split; [reflexivity|]; split;
     [lookup_updated; rewrite ?Hg; reflexivity
     | intros gid' Hne; lookup_updated; reflexivity]).
Qed.

Lemma parse_arg_fails_on_text (loads : string -> option pyval) (x : pyval) :
  parse_arg loads x = None -> exists s, x = PStr s /\ loads s = None.
Proof.
  destruct x; simpl; try discriminate.
  intros H. eexists; split; [reflexivity | exact H].
Qed.

(** C7. When [is_complete] is supplied to [update_milestone] on an existing
    milestone, the milestone afterwards has that value of [is_complete], and
    its [completed_at] is the current time if the value is true and null if
    it is false, whatever the milestone held before. *)
Theorem update_milestone_completed_at (mid : Z) (title description : option string)
    (is_complete : bool) (now : Z) (st : Store) (m : Milestone) :
  find_milestone mid st = Some m ->
  exists m',
    find_milestone mid
      (snd (update_milestone mid title description (Some is_complete) now st))
    = Some m'
    /\ ms_is_complete m' = is_complete
    /\ ms_completed_at m' = (if is_complete then Some now else None).
Proof.
  intros Hm.
  destruct (update_milestone_effect mid title description (Some is_complete) now
              st m Hm) as (rows & Hrun & Hsame & _).
  rewrite Hrun. unfold find_milestone. cbn [snd milestones]. rewrite Hsame.
  eexists. split; [reflexivity|].
  unfold milestone_assignments.
  destruct title, description, is_complete; split; reflexivity.
Qed.

Lemma update_milestone_completed_at_witness :
  find_milestone 1 demo_store
  = Some (mkMilestone 1 1 (PStr "Chords") (PStr EmptyString) 1 true (Some 50))
  /\ (exists m',
        find_milestone 1
          (snd (update_milestone 1 None None (Some true) 77 demo_store))
        = Some m'
        /\ ms_is_complete m' = true /\ ms_completed_at m' = Some 77)
  /\ (exists m',
        find_milestone 1
          (snd (update_milestone 1 None None (Some false) 77 demo_store))
        = Some m'
        /\ ms_is_complete m' = false /\ ms_completed_at m' = None).
Proof.
  split; [reflexivity|]. split.
  - apply (update_milestone_completed_at 1 None None true 77 demo_store
             (mkMilestone 1 1 (PStr "Chords") (PStr EmptyString) 1 true (Some 50))).
    reflexivity.
  - apply (update_milestone_completed_at 1 None None false 77 demo_store
             (mkMilestone 1 1 (PStr "Chords") (PStr EmptyString) 1 true (Some 50))).
    reflexivity.
Defined.

(** C10. When [update_goal] is called on an existing goal with a
    [coach_notes] text that does not parse, it returns the error
    ["Invalid coach_notes JSON format"] and the store is what it was: the
    session holds the goal with the supplied [skill_name] and [timeline]
    already assigned, and is closed without a commit. *)
Theorem update_goal_bad_notes_writes_nothing (loads : string -> option pyval)
    (gid : Z) (skill_name : option string) (timeline : option Z)
    (coach_notes : pyval) (st : Store) (g : Goal) :
  find_goal gid st = Some g ->
  parse_arg loads coach_notes = None ->
  update_goal loads gid skill_name timeline coach_notes st
  = (Error "Invalid coach_notes JSON format", st)
  /\ exists s g',
       update_goal_body loads gid skill_name timeline coach_notes (get_db st)
       = (Done (Error "Invalid coach_notes JSON format"), s)
       /\ committed s = st
       /\ find_goal gid (pending s) = Some g'
       /\ goal_skill_name g'
          = match skill_name with Some v => v | None => goal_skill_name g end
       /\ goal_timeline g'
          = match timeline with Some v => v | None => goal_timeline g end.
Proof.
  intros Hg Hparse.
  destruct (parse_arg_fails_on_text loads coach_notes Hparse)
    as (text & -> & Hloads).
  destruct (first_filter_key goal_id gid (goals st) g Hg) as [Hid _].
  destruct st as [us gs ms ts vs]. unfold find_goal in Hg. cbn [goals] in Hg.
  unfold update_goal, update_goal_body. run_body.
  unfold find_goal. cbn [goals is_not_none parse_arg].
  rewrite Hg, Hid, Hloads.
  destruct skill_name, timeline; run_body;
    (split; [reflexivity|]; eexists _, _; split; [reflexivity|];
     split; [reflexivity|]; split;
     [cbn [goals pending]; lookup_updated; rewrite ?Hg; reflexivity
     | split; reflexivity]).
Qed.

Lemma update_goal_bad_notes_writes_nothing_witness :
  find_goal 1 demo_store = Some demo_goal
  /\ parse_arg Json.loads (PStr "{bad") = None
  /\ update_goal Json.loads 1 (Some "Piano") (Some 90) (PStr "{bad") demo_store
     = (Error "Invalid coach_notes JSON format", demo_store)
  /\ exists s g',
       update_goal_body Json.loads 1 (Some "Piano") (Some 90) (PStr "{bad")
         (get_db demo_store)
       = (Done (Error "Invalid coach_notes JSON format"), s)
       /\ committed s = demo_store
       /\ find_goal 1 (pending s) = Some g'
       /\ goal_skill_name g' = "Piano"
       /\ goal_timeline g' = 90.
Proof.
  split; [reflexivity|]. split; [reflexivity|].
  apply (update_goal_bad_notes_writes_nothing Json.loads 1 (Some "Piano") (Some 90)
           (PStr "{bad") demo_store demo_goal); reflexivity.
Defined.

(** C9, as the tools have it.  A call of [update_goal] on an existing goal
    whose [coach_notes] is absent or parses, and any call of
    [update_milestone] on an existing milestone, overwrite each field whose
    argument is supplied with the supplied value ([coach_notes] with the
    value it parses to) and leave every field whose argument is omitted as
    it was; [completed_at] is left as it was when [is_complete] is omitted. *)
Theorem partial_update (loads : string -> option pyval)
    (gid : Z) (skill_name : option string) (timeline : option Z)
    (coach_notes parsed : pyval) (st : Store) (g : Goal)
    (mid : Z) (title description : option string) (is_complete : option bool)
    (now : Z) (st2 : Store) (m : Milestone) :
  find_goal gid st = Some g ->
  parse_arg loads coach_notes = Some parsed ->
  find_milestone mid st2 = Some m ->
  (exists g',
     find_goal gid (snd (update_goal loads gid skill_name timeline coach_notes st))
     = Some g'
     /\ goal_skill_name g'
        = match skill_name with Some v => v | None => goal_skill_name g end
     /\ goal_timeline g'
        = match timeline with Some v => v | None => goal_timeline g end
     /\ goal_coach_notes g'
        = (if is_not_none coach_notes then parsed else goal_coach_notes g)
     /\ goal_id g' = goal_id g /\ goal_user_id g' = goal_user_id g)
  /\ (exists m',
        find_milestone mid
          (snd (update_milestone mid title description is_complete now st2))
        = Some m'
        /\ ms_title m' = match title with Some v => PStr v | None => ms_title m end
        /\ ms_description m'
           = match description with Some v => PStr v | None => ms_description m end
        /\ ms_is_complete m'
           = match is_complete with Some v => v | None => ms_is_complete m end
        /\ (is_complete = None -> ms_completed_at m' = ms_completed_at m)
        /\ ms_id m' = ms_id m /\ ms_goal_id m' = ms_goal_id m
        /\ ms_order m' = ms_order m).
Proof.
  intros Hg Hparse Hm. split.
  - destruct (update_goal_effect loads gid skill_name timeline coach_notes parsed
                st g Hg Hparse) as (rows & Hrun & Hsame & _).
    rewrite Hrun. unfold find_goal. cbn [snd goals]. rewrite Hsame.
    eexists. split; [reflexivity|]. unfold goal_assignments.
    destruct skill_name, timeline, (is_not_none coach_notes);
      repeat split; reflexivity.
  - destruct (update_milestone_effect mid title description is_complete now
                st2 m Hm) as (rows & Hrun & Hsame & _).
    rewrite Hrun. unfold find_milestone. cbn [snd milestones]. rewrite Hsame.
    eexists. split; [reflexivity|]. unfold milestone_assignments.
    destruct title, description, is_complete as [[|]|];
      repeat split; try reflexivity; discriminate.
Qed.

Lemma partial_update_witness :
  find_goal 1 demo_store = Some demo_goal
  /\ parse_arg Json.loads (PStr "[7]") = Some (PList [PInt 7])
  /\ find_milestone 2 demo_store
     = Some (mkMilestone 2 1 (PStr "Songs") (PStr EmptyString) 2 false None)
  /\ (exists g',
        find_goal 1 (snd (update_goal Json.loads 1 None (Some 90) (PStr "[7]")
                            demo_store))
        = Some g'
        /\ goal_skill_name g' = "Guitar"
        /\ goal_timeline g' = 90
        /\ goal_coach_notes g' = PList [PInt 7]
        /\ goal_id g' = 1 /\ goal_user_id g' = 1)
  /\ (exists m',
        find_milestone 2
          (snd (update_milestone 2 (Some "Tunes") None None 77 demo_store))
        = Some m'
        /\ ms_title m' = PStr "Tunes"
        /\ ms_description m' = PStr EmptyString
        /\ ms_is_complete m' = false
        /\ (@None bool = None -> ms_completed_at m' = None)
        /\ ms_id m' = 2 /\ ms_goal_id m' = 1 /\ ms_order m' = 2%nat).
Proof.
  split; [reflexivity|]. split; [reflexivity|]. split; [reflexivity|].
  apply (partial_update Json.loads 1 None (Some 90) (PStr "[7]") (PList [PInt 7])
           demo_store demo_goal 2 (Some "Tunes") None None 77 demo_store
           (mkMilestone 2 1 (PStr "Songs") (PStr EmptyString) 2 false None));
    reflexivity.
Defined.

(** C9 as stated does not hold of every call: a call of [update_goal] that
    supplies [skill_name] and [timeline] together with a [coach_notes] text
    that does not parse is rejected, and the goal keeps its former
    [skill_name] and [timeline]. *)
Lemma partial_update_rejected_call :
  find_goal 1 demo_store = Some demo_goal
  /\ exists g',
       find_goal 1 (snd (update_goal Json.loads 1 (Some "Piano") (Some 90)
                           (PStr "{bad") demo_store))
       = Some g'
       /\ goal_skill_name g' <> "Piano"
       /\ goal_timeline g' <> 90.
Proof.
  split; [reflexivity|]. exists demo_goal.
  split; [reflexivity|]. split; discriminate.
Qed.

(** ** [create_user] *)

Lemma first_filter_none {A} (f : A -> bool) (rows : list A) :
  first (filter f rows) = None <-> forall x, In x rows -> f x = false.
Proof.
  induction rows as [|y rest IH]; simpl.
  - split; [intros _ x [] | reflexivity].
  - destruct (f y) eqn:Hy; simpl.
    + split; [discriminate|]. intros Hall.
      rewrite (Hall y (or_introl eq_refl)) in Hy. discriminate.
    + rewrite IH. split.
      * intros Hall x [<- | Hx]; [exact Hy | apply Hall, Hx].
      * intros Hall x Hx. apply Hall. right; exact Hx.
Qed.

Lemma first_filter_some {A} (f : A -> bool) (rows : list A) (r : A) :
  first (filter f rows) = Some r -> In r rows /\ f r = true.
Proof.
  intros Hfirst. assert (Hin : In r (filter f rows)).
  { destruct (filter f rows); [discriminate|].
    injection Hfirst as ->. left; reflexivity. }
  apply filter_In in Hin. exact Hin.
Qed.

Lemma same_name_or_email_true (username email : string) (u : User) :
  same_name_or_email username email u = true
  <-> user_username u = username \/ user_email u = email.
Proof.
  unfold same_name_or_email. rewrite orb_true_iff, !String.eqb_eq. reflexivity.
Qed.

(** C8. [create_user] fails exactly when some user already has the same
    username or the same email (compared as exact strings), the failure is
    the conflict error and leaves the store as it was; otherwise it succeeds,
    appends the new user under a key no user had, and returns the projection
    of that user with the assigned key and creation time. *)
Theorem create_user_conflict_iff (username email : string)
    (learning_style : option string) (now : Z) (st : Store) :
  let taken :=
    exists u, In u (users st)
              /\ (user_username u = username \/ user_email u = email) in
  let u' := mkUser (next_id (map user_id (users st))) username email
                   learning_style now in
  (is_error (fst (create_user username email learning_style now st)) = true
   <-> taken)
  /\ (taken ->
      create_user username email learning_style now st
      = (Error "Username or email already exists", st))
  /\ (~ taken ->
      create_user username email learning_style now st
      = (UserInfo (user_id u') username email learning_style now,
         mkStore (users st ++ [u']) (goals st) (milestones st) (tasks st)
                 (verifications st))
      /\ find_user (user_id u') st = None
      /\ find_user (user_id u')
           (snd (create_user username email learning_style now st)) = Some u').
Proof.
  intros taken u'.
  assert (Hrun :
    create_user username email learning_style now st
    = match first (filter (same_name_or_email username email) (users st)) with
      | Some _ => (Error "Username or email already exists", st)
      | None =>
          (UserInfo (user_id u') username email learning_style now,
           mkStore (users st ++ [u']) (goals st) (milestones st) (tasks st)
                   (verifications st))
      end).
  { unfold create_user. run_body. fold (same_name_or_email username email).
    destruct (first (filter (same_name_or_email username email) (users st)));
      [reflexivity|].
    run_body. unfold find_user. cbn [users]. subst u'.
    rewrite (first_filter_app_new user_id (users st)
               (mkUser (next_id (map user_id (users st))) username email
                       learning_style now) eq_refl).
    reflexivity. }
  assert (Htaken :
    taken <-> first (filter (same_name_or_email username email) (users st)) <> None).
  { subst taken. split.
    - intros (u & Hin & Hu) Hnone.
      rewrite first_filter_none in Hnone.
      apply same_name_or_email_true in Hu. rewrite (Hnone u Hin) in Hu. discriminate.
    - intros Hsome.
      destruct (first (filter (same_name_or_email username email) (users st)))
        as [u|] eqn:Hfirst; [|contradiction].
      apply first_filter_some in Hfirst. destruct Hfirst as [Hin Hu].
      exists u. split; [exact Hin | apply same_name_or_email_true, Hu]. }
  rewrite Hrun, Htaken.
  destruct (first (filter (same_name_or_email username email) (users st))) as [u|];
    cbn [fst snd is_error].
  - split; [split; [discriminate | reflexivity]|].
    split; [reflexivity|]. intros Hno. exfalso. apply Hno. discriminate.
  - split; [split; [discriminate | intros Hno; contradiction]|].
    split; [intros Hno; contradiction|].
    intros _. split; [reflexivity|]. split.
    + unfold find_user. subst u'. cbn [user_id]. rewrite filter_next_id. reflexivity.
    + unfold find_user. cbn [users].
      apply (first_filter_app_new user_id (users st) u' eq_refl).
Qed.

(** A second user with the email of the first is refused. *)
Example create_user_same_email :
  let st := snd (create_user "alice" "alice@x.com" None 10 empty_store) in
  create_user "Alice" "alice@x.com" (Some "visual") 11 st
  = (Error "Username or email already exists", st)
  /\ fst (create_user "Alice" "Alice@x.com" (Some "visual") 11 st)
     = UserInfo 2 "Alice" "Alice@x.com" (Some "visual") 11.
Proof. split; reflexivity. Qed.

(** ** [create_task] *)

Lemma incomplete_of_true (gid : Z) (m : Milestone) :
  incomplete_of gid m = true <-> ms_goal_id m = gid /\ ms_is_complete m = false.
Proof.
  unfold incomplete_of. rewrite andb_true_iff, Z.eqb_eq.
  destruct (ms_is_complete m); simpl; intuition congruence.
Qed.

Lemma verification_data_get (task_title task_description : string) :
  py_get (verification_data task_title task_description) "type" (PStr "text")
  = M_ret (PStr "text")
  /\ py_get (verification_data task_title task_description) "content" (PDict [])
     = M_ret (PDict [("prompt",
                      PStr ("Please complete the following task: " ++ task_title));
                     ("guidelines", PStr task_description)])
  /\ py_get (verification_data task_title task_description) "requirements" (PDict [])
     = M_ret (PDict [("completion_criteria",
                      PStr "Task should be completed according to the description")]).
Proof. repeat split. Qed.

Lemma create_task_found (dumps : pyval -> string) (gid : Z)
    (task_title task_description : string) (now : Z) (st : Store) (g : Goal) :
  find_goal gid st = Some g ->
  let mid := option_map ms_id (current_milestone gid st) in
  let t := mkTask (next_id (map tk_id (tasks st))) gid mid task_title
                  task_description INCOMPLETE now None in
  let content :=
    PDict [("prompt", PStr ("Please complete the following task: " ++ task_title));
           ("guidelines", PStr task_description)] in
  let requirements :=
    PDict [("completion_criteria",
            PStr "Task should be completed according to the description")] in
  let v := mkVerification (next_id (map ver_id (verifications st))) (tk_id t)
                          VT_TEXT (dumps content) (dumps requirements) in
  create_task dumps gid task_title task_description now st
  = (TaskCreated (tk_id t) task_title task_description "text" content mid,
     mkStore (users st) (goals st) (milestones st) (tasks st ++ [t])
             (verifications st ++ [v])).
Proof.
  intros Hg mid t content requirements v. subst mid t content requirements v.
  unfold create_task, current_milestone. run_body. rewrite Hg. run_body.
  unfold find_task. cbn [tasks].
  rewrite (first_filter_app_new tk_id (tasks st)
             (mkTask (next_id (map tk_id (tasks st))) gid
                (option_map ms_id
                   (first (order_by by_order
                             (filter (incomplete_of gid) (milestones st)))))
                task_title task_description INCOMPLETE now None) eq_refl).
  destruct (verification_data_get task_title task_description) as (Ht & Hc & Hr).
  rewrite Ht, Hc, Hr. run_body.
  change (py_VerificationType (PStr "text")) with (@M_ret VerificationType VT_TEXT).
  run_body. unfold find_verification. cbn [verifications tk_id].
  rewrite (first_filter_app_new ver_id (verifications st)
             (mkVerification (next_id (map ver_id (verifications st)))
                (next_id (map tk_id (tasks st))) VT_TEXT _ _) eq_refl).
  reflexivity.
Qed.

(** C3. A [create_task] call on an existing goal appends one task, with
    status INCOMPLETE, whose [milestone_id] is returned; it is the key of a
    milestone of the goal that is not complete and whose [order] no other
    incomplete milestone of the goal is below, and it is null exactly when
    every milestone of the goal is complete. *)
Theorem create_task_milestone (dumps : pyval -> string) (gid : Z)
    (task_title task_description : string) (now : Z) (st : Store) (g : Goal) :
  find_goal gid st = Some g ->
  exists (t : Task) (vtype : string) (vcontent : pyval),
    fst (create_task dumps gid task_title task_description now st)
    = TaskCreated (tk_id t) task_title task_description vtype vcontent
        (tk_milestone_id t)
    /\ tasks (snd (create_task dumps gid task_title task_description now st))
       = (tasks st ++ [t])%list
    /\ tk_status t = INCOMPLETE
    /\ tk_goal_id t = gid
    /\ tk_title t = task_title
    /\ tk_description t = task_description
    /\ match tk_milestone_id t with
       | Some mid =>
           exists m, In m (milestones st)
             /\ ms_id m = mid /\ ms_goal_id m = gid /\ ms_is_complete m = false
             /\ forall m', In m' (milestones st) -> ms_goal_id m' = gid ->
                  ms_is_complete m' = false -> (ms_order m <= ms_order m')%nat
       | None =>
           forall m', In m' (milestones st) -> ms_goal_id m' = gid ->
             ms_is_complete m' = true
       end.
Proof.
  intros Hg.
  rewrite (create_task_found dumps gid task_title task_description now st g Hg).
  cbn [fst snd tasks].
  exists (mkTask (next_id (map tk_id (tasks st))) gid
            (option_map ms_id (current_milestone gid st)) task_title
            task_description INCOMPLETE now None).
  eexists _, _. split; [reflexivity|]. split; [reflexivity|].
  cbn [tk_status tk_goal_id tk_title tk_description tk_milestone_id].
  repeat (split; [reflexivity|]).
  unfold current_milestone.
  destruct (first (order_by by_order (filter (incomplete_of gid) (milestones st))))
    as [m|] eqn:Hfirst; cbn [option_map].
  - apply (first_order_by_some by_order by_order_total by_order_trans) in Hfirst.
    destruct Hfirst as [Hin Hmin].
    apply filter_In in Hin. destruct Hin as [Hin Hinc].
    apply incomplete_of_true in Hinc. destruct Hinc as [Hgoal Hopen].
    exists m. repeat (split; [assumption || reflexivity|]).
    intros m' Hin' Hgoal' Hopen'. apply Nat.leb_le. apply Hmin.
    apply filter_In. split; [exact Hin'|].
    apply incomplete_of_true. split; assumption.
  - apply first_order_by_none in Hfirst.
    intros m' Hin' Hgoal'. destruct (ms_is_complete m') eqn:Hc; [reflexivity|].
    assert (Hm' : In m' (filter (incomplete_of gid) (milestones st))).
    { apply filter_In. split; [exact Hin'|].
      apply incomplete_of_true. split; assumption. }
    rewrite Hfirst in Hm'. contradiction.
Qed.

Lemma create_task_milestone_witness :
  find_goal 1 demo_store = Some demo_goal
  /\ exists (t : Task) (vtype : string) (vcontent : pyval),
       fst (create_task Json.dumps 1 "Learn Em" "Practice E minor" 80 demo_store)
       = TaskCreated (tk_id t) "Learn Em" "Practice E minor" vtype vcontent
           (tk_milestone_id t)
       /\ tasks (snd (create_task Json.dumps 1 "Learn Em" "Practice E minor" 80
                        demo_store))
          = (tasks demo_store ++ [t])%list
       /\ tk_status t = INCOMPLETE
       /\ tk_goal_id t = 1
       /\ tk_title t = "Learn Em"
       /\ tk_description t = "Practice E minor"
       /\ match tk_milestone_id t with
          | Some mid =>
              exists m, In m (milestones demo_store)
                /\ ms_id m = mid /\ ms_goal_id m = 1 /\ ms_is_complete m = false
                /\ forall m', In m' (milestones demo_store) -> ms_goal_id m' = 1 ->
                     ms_is_complete m' = false -> (ms_order m <= ms_order m')%nat
          | None =>
              forall m', In m' (milestones demo_store) -> ms_goal_id m' = 1 ->
                ms_is_complete m' = true
          end.
Proof.
  split; [reflexivity|].
  apply (create_task_milestone Json.dumps 1 "Learn Em" "Practice E minor" 80
           demo_store demo_goal).
  reflexivity.
Defined.

(** On milestones [complete, incomplete (order 2), incomplete (order 3)] the
    task goes to the milestone of order 2. *)
Example create_task_second_milestone :
  fst (create_task Json.dumps 1 "Learn Em" "Practice E minor" 80 demo_store)
  = TaskCreated 10 "Learn Em" "Practice E minor" "text"
      (PDict [("prompt", PStr "Please complete the following task: Learn Em");
              ("guidelines", PStr "Practice E minor")])
      (Some 2).
Proof. reflexivity. Qed.

(** C4. A [create_task] call on an existing goal appends exactly one
    verification, for the new task, of type "text", whose content is the
    serialised [{prompt: "Please complete the following task: " + task_title,
    guidelines: task_description}] and whose requirements are the serialised
    [{completion_criteria: "Task should be completed according to the
    description"}]; the content returned is that dictionary.  A second call
    with the same title and description, on any store and goal, creates a
    verification with the same type, content and requirements. *)
Theorem create_task_verification (dumps : pyval -> string)
    (task_title task_description : string)
    (gid : Z) (now : Z) (st : Store) (g : Goal)
    (gid2 : Z) (now2 : Z) (st2 : Store) (g2 : Goal) :
  find_goal gid st = Some g ->
  find_goal gid2 st2 = Some g2 ->
  let content :=
    PDict [("prompt", PStr ("Please complete the following task: " ++ task_title));
           ("guidelines", PStr task_description)] in
  exists (tid tid2 : Z) (mid mid2 : option Z) (v v2 : Verification),
    fst (create_task dumps gid task_title task_description now st)
    = TaskCreated tid task_title task_description "text" content mid
    /\ verifications (snd (create_task dumps gid task_title task_description now st))
       = (verifications st ++ [v])%list
    /\ ver_task_id v = tid
    /\ find_task tid (snd (create_task dumps gid task_title task_description now st))
       <> None
    /\ ver_type v = VT_TEXT
    /\ VerificationType_value (ver_type v) = "text"
    /\ ver_content v = dumps content
    /\ ver_requirements v
       = dumps (PDict [("completion_criteria",
                        PStr "Task should be completed according to the description")])
    /\ fst (create_task dumps gid2 task_title task_description now2 st2)
       = TaskCreated tid2 task_title task_description "text" content mid2
    /\ verifications
         (snd (create_task dumps gid2 task_title task_description now2 st2))
       = (verifications st2 ++ [v2])%list
    /\ ver_type v2 = ver_type v
    /\ ver_content v2 = ver_content v
    /\ ver_requirements v2 = ver_requirements v.
Proof.
  intros Hg Hg2 content. subst content.
  rewrite (create_task_found dumps gid task_title task_description now st g Hg).
  rewrite (create_task_found dumps gid2 task_title task_description now2 st2 g2 Hg2).
  cbn [fst snd verifications tk_id].
  eexists _, _, _, _, _, _.
  split; [reflexivity|]. split; [reflexivity|]. split; [reflexivity|]. split.
  - unfold find_task. cbn [tasks].
    rewrite (first_filter_app_fresh tk_id (tasks st)
               (mkTask (next_id (map tk_id (tasks st))) gid
                  (option_map ms_id (current_milestone gid st))
                  task_title task_description INCOMPLETE now None) eq_refl).
    discriminate.
  - repeat (split; [reflexivity|]). reflexivity.
Qed.

Lemma create_task_verification_witness :
  find_goal 1 demo_store = Some demo_goal
  /\ find_goal 4 orphan_store = Some orphan_goal
  /\ exists (tid tid2 : Z) (mid mid2 : option Z) (v v2 : Verification),
       fst (create_task Json.dumps 1 "Learn Em" "Practice E minor" 80 demo_store)
       = TaskCreated tid "Learn Em" "Practice E minor" "text"
           (PDict [("prompt", PStr "Please complete the following task: Learn Em");
                   ("guidelines", PStr "Practice E minor")]) mid
       /\ verifications
            (snd (create_task Json.dumps 1 "Learn Em" "Practice E minor" 80
                    demo_store))
          = (verifications demo_store ++ [v])%list
       /\ ver_task_id v = tid
       /\ ver_type v = VT_TEXT
       /\ verifications
            (snd (create_task Json.dumps 4 "Learn Em" "Practice E minor" 95
                    orphan_store))
          = (verifications orphan_store ++ [v2])%list
       /\ ver_content v2 = ver_content v
       /\ ver_requirements v2 = ver_requirements v.
Proof.
  split; [reflexivity|]. split; [reflexivity|].
  destruct (create_task_verification Json.dumps "Learn Em" "Practice E minor"
              1 80 demo_store demo_goal 4 95 orphan_store orphan_goal
              eq_refl eq_refl)
    as (tid & tid2 & mid & mid2 & v & v2 & H1 & H2 & H3 & _ & H5 & _ & _ & _
        & _ & H10 & _ & H12 & H13).
  exists tid, tid2, mid, mid2, v, v2.
  repeat (split; [assumption|]). assumption.
Defined.

(** ** [create_goal] *)

Lemma add_milestones_nil (st : Store) : add_milestones [] st = st.
Proof. destruct st. unfold add_milestones. cbn. rewrite app_nil_r. reflexivity. Qed.

Lemma add_milestones_app (a b : list Milestone) (st : Store) :
  add_milestones b (add_milestones a st) = add_milestones (a ++ b) st.
Proof. unfold add_milestones. cbn. rewrite app_assoc. reflexivity. Qed.

(** The loop never commits: whether it finishes or raises, the store holds
    what it held when the loop began. *)
Lemma store_milestones_committed (gid : Z) (entries : list pyval) :
  forall (idx : nat) (s : Session),
    committed (snd (store_milestones gid idx entries s)) = committed s.
Proof.
  induction entries as [|e rest IH]; intros idx s; [reflexivity|].
  cbn [store_milestones]. destruct e; try reflexivity.
  unfold py_get. run_body.
  specialize (IH (S idx)
    (mkSession (committed s)
       (add_milestones
          [mkMilestone (next_id (map ms_id (milestones (pending s)))) gid
             (entry_title idx kvs) (entry_description kvs) (idx + 1) false None]
          (pending s)))).
  unfold add_milestones, entry_title, entry_description in IH.
  cbn [users goals milestones tasks verifications pending committed] in IH.
  destruct (store_milestones gid (S idx) rest _) as [[created|msg] s'];
    cbn [snd] in IH |- *; exact IH.
Qed.

(** When the loop finishes, every entry was a dict, and the session holds
    one new milestone per entry, in the order of the entries. *)
Lemma store_milestones_done (gid : Z) (entries : list pyval) :
  forall (idx : nat) (s s' : Session) (created : list Milestone),
    store_milestones gid idx entries s = (Done created, s') ->
    pending s' = add_milestones created (pending s)
    /\ length created = length entries
    /\ map ms_order created = seq (idx + 1) (length entries)
    /\ forall i e, nth_error entries i = Some e ->
         exists m kvs,
           nth_error created i = Some m
           /\ e = PDict kvs
           /\ ms_goal_id m = gid
           /\ ms_order m = (idx + i + 1)%nat
           /\ ms_title m = entry_title (idx + i) kvs
           /\ ms_description m = entry_description kvs
           /\ ms_is_complete m = false
           /\ ms_completed_at m = None.
Proof.
  induction entries as [|e rest IH]; intros idx s s' created Hrun.
  - cbn in Hrun. injection Hrun as <- <-.
    rewrite add_milestones_nil. repeat (split; [reflexivity|]).
    intros [|i] e; discriminate.
  - cbn [store_milestones] in Hrun. destruct e; try discriminate.
    unfold py_get in Hrun. run_body. revert Hrun. run_body.
    fold (entry_title idx kvs). fold (entry_description kvs).
    match goal with
    | |- context [store_milestones gid (S idx) rest ?s1] =>
        destruct (store_milestones gid (S idx) rest s1) as [[tail|msg] s2] eqn:Htail;
        [destruct (IH (S idx) s1 s2 tail Htail) as (Hpending & Hlen & Hseq & Hnth)
        | discriminate]
    end.
    intros [= <- <-]. split; [|split; [|split]].
    + rewrite Hpending. cbn [pending].
      change (mkStore (users (pending s)) (goals (pending s))
                (milestones (pending s) ++ [?m])%list (tasks (pending s))
                (verifications (pending s)))
        with (add_milestones [m] (pending s)).
      apply add_milestones_app.
    + cbn [length]. rewrite Hlen. reflexivity.
    + cbn [map length seq ms_order]. rewrite Hseq.
      replace (S idx + 1)%nat with (S (idx + 1)) by lia. reflexivity.
    + intros [|i] e He.
      * cbn in He. injection He as <-. eexists _, kvs.
        split; [reflexivity|]. split; [reflexivity|].
        cbn [ms_goal_id ms_order ms_title ms_description ms_is_complete
             ms_completed_at].
        rewrite Nat.add_0_r. repeat split; reflexivity.
      * cbn in He. destruct (Hnth i e He) as (m & kvs' & Hm & He' & Hrest).
        exists m, kvs'. split; [exact Hm|]. split; [exact He'|].
        replace (idx + S i)%nat with (S idx + i)%nat by lia. exact Hrest.
Qed.

(** The paths of [create_goal].  Once both arguments are parsed the goal is
    committed, and whatever happens in the loop it stays in the store. *)
Lemma create_goal_run (loads : string -> option pyval) (uid : Z)
    (skill_name : string) (timeline : Z) (roadmap coach_notes : pyval)
    (st : Store) :
  create_goal loads uid skill_name timeline roadmap coach_notes st
  = match find_user uid st with
    | None => (Error "User not found", st)
    | Some _ =>
        match parse_arg loads roadmap with
        | None => (Error "Invalid roadmap JSON format", st)
        | Some roadmap_list =>
            match parse_notes loads coach_notes with
            | None => (Error "Invalid coach_notes JSON format", st)
            | Some notes =>
                let g := mkGoal (next_id (map goal_id (goals st))) uid skill_name
                                timeline notes in
                match iter_items roadmap_list with
                | None =>
                    (Error ("'" ++ py_type_name roadmap_list
                            ++ "' object is not iterable"),
                     add_goal g st)
                | Some entries =>
                    match store_milestones (goal_id g) 0 entries
                            (get_db (add_goal g st)) with
                    | (Done created, s') =>
                        (GoalCreated (goal_id g)
                           ("Goal '" ++ skill_name ++ "' created successfully with "
                            ++ str_of_nat (length created) ++ " milestones")
                           skill_name timeline (length created),
                         pending s')
                    | (Raised msg, _) => (Error msg, add_goal g st)
                    end
                end
            end
        end
    end.
Proof.
  unfold create_goal, parse_notes. run_body.
  destruct (find_user uid st) as [u|]; [|reflexivity].
  destruct (parse_arg loads roadmap) as [roadmap_list|]; [|reflexivity].
  destruct (if truthy coach_notes then parse_arg loads coach_notes else Some PNone)
    as [notes|]; [|reflexivity].
  run_body. unfold find_goal. cbn [goals].
  rewrite (first_filter_app_new goal_id (goals st)
             (mkGoal (next_id (map goal_id (goals st))) uid skill_name timeline notes)
             eq_refl).
  unfold py_iter. destruct (iter_items roadmap_list) as [entries|]; [|reflexivity].
  run_body. cbn [goal_id goal_skill_name goal_timeline].
  pose proof (store_milestones_committed (next_id (map goal_id (goals st))) entries 0
                (get_db (add_goal (mkGoal (next_id (map goal_id (goals st))) uid
                                     skill_name timeline notes) st))) as Hkeep.
  unfold get_db, add_goal in Hkeep |- *. cbn [committed] in Hkeep.
  destruct (store_milestones _ 0 entries _) as [[created|msg] s'];
    cbn [snd] in Hkeep; [reflexivity|].
  rewrite Hkeep. reflexivity.
Qed.

(** ** Lookup in a record, and decimal numerals *)

Lemma binds_dict_get (kvs : list (string * pyval)) (k : string) (v : pyval) :
  binds kvs k v -> dict_get kvs k = Some v.
Proof.
  intros (front & back & -> & Hfirst).
  induction front as [|[k' v'] front IH]; cbn [app dict_get].
  - rewrite String.eqb_refl. reflexivity.
  - destruct (String.eqb_spec k' k) as [-> | _].
    + exfalso. apply (Hfirst v'). left; reflexivity.
    + apply IH. intros w Hw. apply (Hfirst w). right; exact Hw.
Qed.

Lemma unbound_dict_get (kvs : list (string * pyval)) (k : string) :
  unbound kvs k -> dict_get kvs k = None.
Proof.
  unfold unbound. induction kvs as [|[k' v'] rest IH]; cbn [dict_get]; intros Hno.
  - reflexivity.
  - destruct (String.eqb_spec k' k) as [-> | _].
    + exfalso. apply (Hno v'). left; reflexivity.
    + apply IH. intros w Hw. apply (Hno w). right; exact Hw.
Qed.

Lemma decimal_of_str_of_nat (n : nat) : decimal_of n (str_of_nat n).
Proof. unfold decimal_of, str_of_nat. apply NilEmpty.usu. Qed.

(** C2. When [create_goal] succeeds on a roadmap that is, or as text parses
    to, a list of N entries, every entry is a record, the store gains the
    goal and exactly N milestones of that goal, in the order of the entries,
    the milestone of the entry at index i being incomplete with [order] i+1,
    with the entry's title or else "Milestone " followed by the decimal
    numeral of i+1, and with the entry's description or else the empty
    string; the [order] values are 1..N and the count returned is N. *)
Theorem create_goal_milestones (loads : string -> option pyval) (uid : Z)
    (skill_name : string) (timeline : Z) (roadmap coach_notes : pyval)
    (st st' : Store) (response : Response) (entries : list pyval) :
  create_goal loads uid skill_name timeline roadmap coach_notes st
  = (response, st') ->
  is_error response = false ->
  roadmap = PList entries
  \/ (exists text, roadmap = PStr text /\ loads text = Some (PList entries)) ->
  exists (g : Goal) (created : list Milestone) (digits : string),
    decimal_of (length entries) digits
    /\ response
       = GoalCreated (goal_id g)
           ("Goal '" ++ skill_name ++ "' created successfully with "
            ++ digits ++ " milestones")
           skill_name timeline (length entries)
    /\ goals st' = (goals st ++ [g])%list
    /\ goal_user_id g = uid
    /\ goal_skill_name g = skill_name
    /\ goal_timeline g = timeline
    /\ milestones st' = (milestones st ++ created)%list
    /\ length created = length entries
    /\ map ms_order created = seq 1 (length entries)
    /\ forall i e, nth_error entries i = Some e ->
         exists m kvs,
           nth_error created i = Some m
           /\ e = PDict kvs
           /\ ms_goal_id m = goal_id g
           /\ ms_order m = (i + 1)%nat
           /\ ms_is_complete m = false
           /\ (forall t, binds kvs "title" t -> ms_title m = t)
           /\ (unbound kvs "title" ->
               exists d, decimal_of (i + 1) d
                         /\ ms_title m = PStr ("Milestone " ++ d))
           /\ (forall t, binds kvs "description" t -> ms_description m = t)
           /\ (unbound kvs "description" -> ms_description m = PStr EmptyString).
Proof.
  intros Hrun Hok Hshape.
  assert (Hparse : parse_arg loads roadmap = Some (PList entries)).
  { destruct Hshape as [-> | (text & -> & Hloads)]; [reflexivity | exact Hloads]. }
  rewrite create_goal_run, Hparse in Hrun.
  destruct (find_user uid st) as [u|];
    [|injection Hrun as <- <-; discriminate].
  destruct (parse_notes loads coach_notes) as [notes|];
    [|injection Hrun as <- <-; discriminate].
  cbn zeta in Hrun. cbn [iter_items] in Hrun.
  destruct (store_milestones _ 0 entries _) as [[created|msg] s'] eqn:Hloop;
    [|injection Hrun as <- <-; discriminate].
  injection Hrun as <- <-.
  destruct (store_milestones_done _ entries 0 _ s' created Hloop)
    as (Hpending & Hlen & Hseq & Hnth).
  exists (mkGoal (next_id (map goal_id (goals st))) uid skill_name timeline notes),
    created, (str_of_nat (length entries)).
  rewrite Hpending, Hlen.
  cbn [get_db pending add_goal add_milestones goals milestones goal_id
       goal_user_id goal_skill_name goal_timeline].
  split; [apply decimal_of_str_of_nat|].
  repeat (split; [reflexivity|]). split; [exact Hseq|].
  intros i e He.
  destruct (Hnth i e He) as (m & kvs & Hm & -> & Hg & Ho & Ht & Hd & Hc & _).
  exists m, kvs. cbn [Nat.add] in Ho, Ht. cbn [goal_id] in Hg.
  split; [exact Hm|]. split; [reflexivity|]. split; [exact Hg|].
  split; [exact Ho|]. split; [exact Hc|].
  unfold entry_title in Ht. unfold entry_description in Hd.
  split; [|split; [|split]].
  - intros t Hb. rewrite Ht, (binds_dict_get kvs "title" t Hb). reflexivity.
  - intros Hu. rewrite (unbound_dict_get kvs "title" Hu) in Ht.
    exists (str_of_nat (i + 1)). split; [apply decimal_of_str_of_nat | exact Ht].
  - intros t Hb. rewrite Hd, (binds_dict_get kvs "description" t Hb). reflexivity.
  - intros Hu. rewrite (unbound_dict_get kvs "description" Hu) in Hd. exact Hd.
Qed.

Lemma create_goal_milestones_witness :
  let roadmap := PList [PDict [("title", PStr "Chords")]; PDict []] in
  let run := create_goal Json.loads 1 "Bass" 45 roadmap PNone demo_store in
  run
  = (GoalCreated 2 "Goal 'Bass' created successfully with 2 milestones" "Bass" 45 2,
     mkStore (users demo_store)
       (goals demo_store ++ [mkGoal 2 1 "Bass" 45 PNone])
       (milestones demo_store
        ++ [mkMilestone 4 2 (PStr "Chords") (PStr EmptyString) 1 false None;
            mkMilestone 5 2 (PStr "Milestone 2") (PStr EmptyString) 2 false None])
       (tasks demo_store) (verifications demo_store))
  /\ exists (g : Goal) (created : list Milestone) (digits : string),
       decimal_of 2 digits
       /\ fst run
          = GoalCreated (goal_id g)
              ("Goal '" ++ "Bass" ++ "' created successfully with "
               ++ digits ++ " milestones")
              "Bass" 45 2
       /\ goals (snd run) = (goals demo_store ++ [g])%list
       /\ goal_user_id g = 1
       /\ goal_skill_name g = "Bass"
       /\ goal_timeline g = 45
       /\ milestones (snd run) = (milestones demo_store ++ created)%list
       /\ length created = 2%nat
       /\ map ms_order created = [1; 2]%nat
       /\ forall i e,
            nth_error [PDict [("title", PStr "Chords")]; PDict []] i = Some e ->
            exists m kvs,
              nth_error created i = Some m
              /\ e = PDict kvs
              /\ ms_goal_id m = goal_id g
              /\ ms_order m = (i + 1)%nat
              /\ ms_is_complete m = false
              /\ (forall t, binds kvs "title" t -> ms_title m = t)
              /\ (unbound kvs "title" ->
                  exists d, decimal_of (i + 1) d
                            /\ ms_title m = PStr ("Milestone " ++ d))
              /\ (forall t, binds kvs "description" t -> ms_description m = t)
              /\ (unbound kvs "description" ->
                  ms_description m = PStr EmptyString).
Proof.
  intros roadmap run. split; [reflexivity|].
  apply (create_goal_milestones Json.loads 1 "Bass" 45 roadmap PNone demo_store
           (snd run) (fst run) [PDict [("title", PStr "Chords")]; PDict []]);
    [reflexivity | reflexivity | left; reflexivity].
Defined.

(** A roadmap given as text, with two entries that name neither a title nor
    a description. *)
Example create_goal_default_titles :
  create_goal Json.loads 1 "Bass" 45 (PStr "[{}, {}]") PNone
    (mkStore [mkUser 1 "alice" "alice@x.com" None 10] [] [] [] [])
  = (GoalCreated 1 "Goal 'Bass' created successfully with 2 milestones" "Bass" 45 2,
     mkStore [mkUser 1 "alice" "alice@x.com" None 10]
       [mkGoal 1 1 "Bass" 45 PNone]
       [mkMilestone 1 1 (PStr "Milestone 1") (PStr EmptyString) 1 false None;
        mkMilestone 2 1 (PStr "Milestone 2") (PStr EmptyString) 2 false None]
       [] []).
Proof. reflexivity. Qed.

(** The part of C1 that the tool does keep: a roadmap text that is not JSON
    is rejected before anything is written. *)
Lemma create_goal_undecodable_roadmap (loads : string -> option pyval) (uid : Z)
    (skill_name : string) (timeline : Z) (roadmap coach_notes : pyval)
    (st : Store) (u : User) :
  find_user uid st = Some u ->
  parse_arg loads roadmap = None ->
  create_goal loads uid skill_name timeline roadmap coach_notes st
  = (Error "Invalid roadmap JSON format", st).
Proof.
  intros Hu Hparse. rewrite create_goal_run, Hu, Hparse. reflexivity.
Qed.

(** The loop raises at the first entry that is not a dict. *)
Lemma store_milestones_raises (gid : Z) (entries : list pyval) :
  forallb is_record entries = false ->
  forall (idx : nat) (s : Session),
    exists msg, fst (store_milestones gid idx entries s) = Raised msg.
Proof.
  induction entries as [|e rest IH]; intros Hbad idx s; [discriminate|].
  cbn [store_milestones].
  destruct e; try (eexists; reflexivity).
  cbn [forallb is_record andb] in Hbad.
  unfold py_get. run_body.
  match goal with
  | |- context [store_milestones gid (S idx) rest ?s1] =>
      destruct (IH Hbad (S idx) s1) as [msg Hmsg];
      destruct (store_milestones gid (S idx) rest s1) as [[created|msg'] s2]
  end; cbn [fst] in Hmsg |- *; [discriminate | eexists; reflexivity].
Qed.

(** X9. A roadmap that parses but is not a sequence of records: the tool
    reports an error, and the goal it committed before the loop stays in the
    store, without a milestone. *)
Lemma create_goal_late_failure_keeps_goal (loads : string -> option pyval)
    (uid : Z) (skill_name : string) (timeline : Z) (roadmap coach_notes : pyval)
    (st : Store) (u : User) (roadmap_list notes : pyval) :
  find_user uid st = Some u ->
  parse_arg loads roadmap = Some roadmap_list ->
  parse_notes loads coach_notes = Some notes ->
  entries_are_records roadmap_list = false ->
  exists msg,
    create_goal loads uid skill_name timeline roadmap coach_notes st
    = (Error msg,
       add_goal (mkGoal (next_id (map goal_id (goals st))) uid skill_name timeline
                        notes) st).
Proof.
  intros Hu Hroadmap Hnotes Hbad. rewrite create_goal_run, Hu, Hroadmap, Hnotes.
  cbn zeta. unfold entries_are_records in Hbad.
  destruct (iter_items roadmap_list) as [entries|]; [|eexists; reflexivity].
  match goal with
  | |- context [store_milestones ?gid 0 entries ?s1] =>
      destruct (store_milestones_raises gid entries Hbad 0 s1) as [msg Hmsg];
      destruct (store_milestones gid 0 entries s1) as [[created|msg'] s2]
  end; cbn [fst] in Hmsg; [discriminate | eexists; reflexivity].
Qed.

(** C1 fails on the tool.  The roadmap text [[1]] is JSON but not a sequence
    of records: the tool reports an error, yet the goal it committed before
    the loop is in the store afterwards, without any milestone. *)
Theorem create_goal_malformed_roadmap_keeps_goal :
  let st := mkStore [mkUser 1 "alice" "alice@x.com" None 10] [] [] [] [] in
  Json.loads "[1]" = Some (PList [PInt 1])
  /\ create_goal Json.loads 1 "Guitar" 60 (PStr "[1]") PNone st
     = (Error "'int' object has no attribute 'get'",
        mkStore [mkUser 1 "alice" "alice@x.com" None 10]
          [mkGoal 1 1 "Guitar" 60 PNone] [] [] []).
Proof. split; reflexivity. Qed.

(** * Further properties of the tools *)

(** ** Attribute assignment on a table *)

Lemma update_rows_compose {A} (key : A -> Z) (id : Z) (f g : A -> A)
    (rows : list A) :
  (forall r, key (f r) = key r) ->
  update_rows key id g (update_rows key id f rows)
  = update_rows key id (fun r => g (f r)) rows.
Proof.
  intros Hkey. unfold update_rows. rewrite map_map. apply map_ext. intros r.
  destruct (key r =? id) eqn:Hr; [rewrite Hkey, Hr | rewrite Hr]; reflexivity.
Qed.

Lemma update_rows_id {A} (key : A -> Z) (id : Z) (rows : list A) :
  update_rows key id (fun r => r) rows = rows.
Proof.
  unfold update_rows. rewrite <- (map_id rows) at 2. apply map_ext.
  intros r. destruct (key r =? id); reflexivity.
Qed.

Lemma update_rows_length {A} (key : A -> Z) (id : Z) (f : A -> A) (rows : list A) :
  length (update_rows key id f rows) = length rows.
Proof. apply length_map. Qed.

(** A projection that the assignment keeps is the same on every row. *)
Lemma update_rows_map_kept {A B} (key : A -> Z) (id : Z) (f : A -> A)
    (proj : A -> B) (rows : list A) :
  (forall r, proj (f r) = proj r) ->
  map proj (update_rows key id f rows) = map proj rows.
Proof.
  intros Hkept. unfold update_rows. rewrite map_map. apply map_ext.
  intros r. destruct (key r =? id); [apply Hkept | reflexivity].
Qed.

(** A row under another key stays where it is. *)
Lemma update_rows_nth_other {A} (key : A -> Z) (id : Z) (f : A -> A)
    (rows : list A) (i : nat) (r : A) :
  nth_error rows i = Some r -> key r <> id ->
  nth_error (update_rows key id f rows) i = Some r.
Proof.
  intros Hnth Hkey. unfold update_rows. rewrite nth_error_map, Hnth. cbn.
  apply Z.eqb_neq in Hkey. rewrite Hkey. reflexivity.
Qed.

Lemma update_rows_In {A} (key : A -> Z) (id : Z) (f : A -> A) (rows : list A)
    (r' : A) :
  In r' (update_rows key id f rows) ->
  exists r, In r rows /\ (r' = r \/ r' = f r).
Proof.
  unfold update_rows. rewrite in_map_iff. intros (r & Hr & Hin).
  exists r. split; [exact Hin|]. destruct (key r =? id); auto.
Qed.

(** ** The stores the update tools leave *)

Lemma update_user_run (uid : Z) (learning_style : string) (st : Store) (u : User) :
  find_user uid st = Some u ->
  update_user uid learning_style st
  = (UserInfo (user_id u) (user_username u) (user_email u) (Some learning_style)
       (user_created_at u),
     mkStore (update_rows user_id uid (with_learning_style learning_style) (users st))
             (goals st) (milestones st) (tasks st) (verifications st)).
Proof.
  intros Hu.
  destruct (first_filter_key user_id uid (users st) u Hu) as [Hid _].
  destruct st as [us gs ms ts vs]. unfold find_user in Hu. cbn [users] in Hu.
  unfold update_user. run_body. unfold find_user. cbn [users].
  rewrite Hu, Hid. run_body.
  change (fun u0 : User => mkUser (user_id u0) (user_username u0) (user_email u0)
                             (Some learning_style) (user_created_at u0))
    with (with_learning_style learning_style).
  lookup_updated. rewrite Hu, <- Hid. reflexivity.
Qed.

Lemma update_user_missing (uid : Z) (learning_style : string) (st : Store) :
  find_user uid st = None ->
  update_user uid learning_style st = (Error "User not found", st).
Proof. intros Hu. unfold update_user. run_body. rewrite Hu. reflexivity. Qed.

Lemma update_milestone_run (mid : Z) (title description : option string)
    (is_complete : option bool) (now : Z) (st : Store) (m : Milestone) :
  find_milestone mid st = Some m ->
  snd (update_milestone mid title description is_complete now st)
  = mkStore (users st) (goals st)
      (update_rows ms_id mid
         (milestone_assignments title description is_complete now) (milestones st))
      (tasks st) (verifications st).
Proof.
  intros Hm.
  destruct (first_filter_key ms_id mid (milestones st) m Hm) as [Hid _].
  destruct st as [us gs ms ts vs].
  unfold find_milestone in Hm. cbn [milestones] in Hm.
  unfold update_milestone, milestone_assignments. run_body.
  unfold find_milestone at 1. cbn [milestones]. rewrite Hm, Hid.
  destruct title, description, is_complete as [[|]|]; run_body;
    unfold find_milestone; cbn [milestones];
    lookup_updated; rewrite ?Hm; cbn [option_map snd];
    rewrite ?update_rows_compose by (intros; reflexivity);
    rewrite ?update_rows_id; reflexivity.
Qed.

Lemma update_milestone_missing (mid : Z) (title description : option string)
    (is_complete : option bool) (now : Z) (st : Store) :
  find_milestone mid st = None ->
  update_milestone mid title description is_complete now st
  = (Error "Milestone not found", st).
Proof. intros Hm. unfold update_milestone. run_body. rewrite Hm. reflexivity. Qed.

Lemma update_goal_missing (loads : string -> option pyval) (gid : Z)
    (skill_name : option string) (timeline : option Z) (coach_notes : pyval)
    (st : Store) :
  find_goal gid st = None ->
  update_goal loads gid skill_name timeline coach_notes st
  = (Error "Goal not found", st).
Proof.
  intros Hg. unfold update_goal, update_goal_body. run_body. rewrite Hg. reflexivity.
Qed.

Lemma update_goal_rejected (loads : string -> option pyval) (gid : Z)
    (skill_name : option string) (timeline : option Z) (coach_notes : pyval)
    (st : Store) (g : Goal) :
  find_goal gid st = Some g ->
  parse_arg loads coach_notes = None ->
  update_goal loads gid skill_name timeline coach_notes st
  = (Error "Invalid coach_notes JSON format", st).
Proof.
  intros Hg Hparse.
  destruct (parse_arg_fails_on_text loads coach_notes Hparse)
    as (text & -> & Hloads).
  destruct st as [us gs ms ts vs].
  unfold update_goal, update_goal_body. run_body.
  rewrite Hg. cbn [is_not_none parse_arg]. rewrite Hloads.
  destruct skill_name, timeline; reflexivity.
Qed.

Lemma update_goal_run (loads : string -> option pyval) (gid : Z)
    (skill_name : option string) (timeline : option Z) (coach_notes parsed : pyval)
    (st : Store) (g : Goal) :
  find_goal gid st = Some g ->
  parse_arg loads coach_notes = Some parsed ->
  snd (update_goal loads gid skill_name timeline coach_notes st)
  = mkStore (users st)
      (update_rows goal_id gid
         (goal_assignments skill_name timeline coach_notes parsed) (goals st))
      (milestones st) (tasks st) (verifications st).
Proof.
  intros Hg Hparse.
  destruct (first_filter_key goal_id gid (goals st) g Hg) as [Hid _].
  destruct st as [us gs ms ts vs]. unfold find_goal in Hg. cbn [goals] in Hg.
  unfold update_goal, update_goal_body, goal_assignments. run_body.
  unfold find_goal at 1. cbn [goals]. rewrite Hg, Hid, Hparse.
  destruct skill_name, timeline, (is_not_none coach_notes); run_body;
    unfold find_goal; cbn [goals];
    lookup_updated; rewrite ?Hg; cbn [option_map snd];
    rewrite ?update_rows_compose by (intros; reflexivity);
    rewrite ?update_rows_id; reflexivity.
Qed.

Lemma create_task_missing (dumps : pyval -> string) (gid : Z)
    (task_title task_description : string) (now : Z) (st : Store) :
  find_goal gid st = None ->
  create_task dumps gid task_title task_description now st
  = (Error "Goal not found", st).
Proof. intros Hg. unfold create_task. run_body. rewrite Hg. reflexivity. Qed.

Lemma create_user_run (username email : string) (learning_style : option string)
    (now : Z) (st : Store) :
  create_user username email learning_style now st
  = match first (filter (same_name_or_email username email) (users st)) with
    | Some _ => (Error "Username or email already exists", st)
    | None =>
        (UserInfo (next_id (map user_id (users st))) username email
           learning_style now,
         mkStore (users st ++ [mkUser (next_id (map user_id (users st))) username
                                 email learning_style now])
                 (goals st) (milestones st) (tasks st) (verifications st))
    end.
Proof.
  unfold create_user. run_body. fold (same_name_or_email username email).
  destruct (first (filter (same_name_or_email username email) (users st)));
    [reflexivity|].
  run_body. unfold find_user. cbn [users].
  rewrite (first_filter_app_new user_id (users st)
             (mkUser (next_id (map user_id (users st))) username email
                     learning_style now) eq_refl).
  reflexivity.
Qed.

(** ** [update_user] *)

(** X1. [update_user] on an existing user returns that user's projection
    with the new learning style, replaces the learning style of the user
    and nothing else of it, and leaves every other user where it was. *)
Theorem update_user_replaces_learning_style (uid : Z) (learning_style : string)
    (st : Store) (u : User) :
  find_user uid st = Some u ->
  let st' := snd (update_user uid learning_style st) in
  fst (update_user uid learning_style st)
  = UserInfo (user_id u) (user_username u) (user_email u) (Some learning_style)
      (user_created_at u)
  /\ find_user uid st'
     = Some (mkUser (user_id u) (user_username u) (user_email u)
               (Some learning_style) (user_created_at u))
  /\ length (users st') = length (users st)
  /\ (forall i other, nth_error (users st) i = Some other -> user_id other <> uid ->
        nth_error (users st') i = Some other)
  /\ goals st' = goals st /\ milestones st' = milestones st
  /\ tasks st' = tasks st /\ verifications st' = verifications st.
Proof.
  intros Hu st'. subst st'. rewrite (update_user_run uid learning_style st u Hu).
  cbn [fst snd users goals milestones tasks verifications].
  split; [reflexivity|]. split.
  - unfold find_user. cbn [users]. lookup_updated.
    unfold find_user in Hu. rewrite Hu. reflexivity.
  - split; [apply update_rows_length|]. split.
    + intros i other Hnth Hother. apply update_rows_nth_other; assumption.
    + repeat split; reflexivity.
Qed.

Lemma update_user_replaces_learning_style_witness :
  find_user 1 demo_store = Some (mkUser 1 "alice" "alice@x.com" (Some "visual") 10)
  /\ fst (update_user 1 "auditory" demo_store)
     = UserInfo 1 "alice" "alice@x.com" (Some "auditory") 10
  /\ find_user 1 (snd (update_user 1 "auditory" demo_store))
     = Some (mkUser 1 "alice" "alice@x.com" (Some "auditory") 10).
Proof.
  split; [reflexivity|].
  destruct (update_user_replaces_learning_style 1 "auditory" demo_store
              (mkUser 1 "alice" "alice@x.com" (Some "visual") 10) eq_refl)
    as (Hresp & Hfind & _).
  split; [exact Hresp | exact Hfind].
Defined.

(** ** Lookups that find nothing *)

(** X2. A tool that is given the key of a user, goal or milestone that does
    not exist returns its not-found error and leaves the store as it was;
    [create_goal] does so before it looks at the roadmap or the notes. *)
Theorem missing_entity_leaves_store (loads : string -> option pyval)
    (dumps : pyval -> string) (st : Store) (uid gid mid : Z)
    (learning_style : string) (skill_name : string) (timeline : Z)
    (roadmap coach_notes : pyval) (new_skill : option string)
    (new_timeline : option Z) (new_notes : pyval)
    (title description : option string) (is_complete : option bool)
    (task_title task_description : string) (now : Z) :
  find_user uid st = None ->
  find_goal gid st = None ->
  find_milestone mid st = None ->
  update_user uid learning_style st = (Error "User not found", st)
  /\ create_goal loads uid skill_name timeline roadmap coach_notes st
     = (Error "User not found", st)
  /\ get_context gid st = (Error "Goal not found", st)
  /\ update_goal loads gid new_skill new_timeline new_notes st
     = (Error "Goal not found", st)
  /\ update_milestone mid title description is_complete now st
     = (Error "Milestone not found", st)
  /\ create_task dumps gid task_title task_description now st
     = (Error "Goal not found", st).
Proof.
  intros Hu Hg Hm.
  split; [apply update_user_missing, Hu|].
  split; [rewrite create_goal_run, Hu; reflexivity|].
  split; [apply get_context_missing, Hg|].
  split; [apply update_goal_missing, Hg|].
  split; [apply update_milestone_missing, Hm | apply create_task_missing, Hg].
Qed.

Lemma missing_entity_leaves_store_witness :
  find_user 7 demo_store = None
  /\ find_goal 7 demo_store = None
  /\ find_milestone 7 demo_store = None
  /\ update_user 7 "auditory" demo_store = (Error "User not found", demo_store)
  /\ create_goal Json.loads 7 "Bass" 45 (PStr "[1") (PStr "{bad") demo_store
     = (Error "User not found", demo_store)
  /\ get_context 7 demo_store = (Error "Goal not found", demo_store)
  /\ update_goal Json.loads 7 (Some "Piano") None PNone demo_store
     = (Error "Goal not found", demo_store)
  /\ update_milestone 7 None None (Some true) 80 demo_store
     = (Error "Milestone not found", demo_store)
  /\ create_task Json.dumps 7 "Learn Em" "Practice E minor" 80 demo_store
     = (Error "Goal not found", demo_store).
Proof.
  split; [reflexivity|]. split; [reflexivity|]. split; [reflexivity|].
  apply (missing_entity_leaves_store Json.loads Json.dumps demo_store 7 7 7);
    reflexivity.
Defined.

(** ** What a tool leaves alone *)

Lemma milestone_assignments_keep (title description : option string)
    (is_complete : option bool) (now : Z) (m : Milestone) :
  let m' := milestone_assignments title description is_complete now m in
  ms_id m' = ms_id m /\ ms_goal_id m' = ms_goal_id m /\ ms_order m' = ms_order m.
Proof.
  unfold milestone_assignments.
  destruct title, description, is_complete as [[|]|]; repeat split; reflexivity.
Qed.

Lemma goal_assignments_keep (skill_name : option string) (timeline : option Z)
    (coach_notes parsed : pyval) (g : Goal) :
  let g' := goal_assignments skill_name timeline coach_notes parsed g in
  goal_id g' = goal_id g /\ goal_user_id g' = goal_user_id g.
Proof.
  unfold goal_assignments.
  destruct skill_name, timeline, (is_not_none coach_notes); split; reflexivity.
Qed.

(** The three outcomes of [update_goal], as stores. *)
Lemma update_goal_store (loads : string -> option pyval) (gid : Z)
    (skill_name : option string) (timeline : option Z) (coach_notes : pyval)
    (st : Store) :
  snd (update_goal loads gid skill_name timeline coach_notes st) = st
  \/ exists parsed,
       snd (update_goal loads gid skill_name timeline coach_notes st)
       = mkStore (users st)
           (update_rows goal_id gid
              (goal_assignments skill_name timeline coach_notes parsed) (goals st))
           (milestones st) (tasks st) (verifications st).
Proof.
  destruct (find_goal gid st) as [g|] eqn:Hg.
  - destruct (parse_arg loads coach_notes) as [parsed|] eqn:Hparse.
    + right. exists parsed. eapply update_goal_run; eassumption.
    + left. rewrite (update_goal_rejected loads gid skill_name timeline coach_notes
                       st g Hg Hparse). reflexivity.
  - left. rewrite update_goal_missing by exact Hg. reflexivity.
Qed.

Lemma update_milestone_store (mid : Z) (title description : option string)
    (is_complete : option bool) (now : Z) (st : Store) :
  snd (update_milestone mid title description is_complete now st) = st
  \/ snd (update_milestone mid title description is_complete now st)
     = mkStore (users st) (goals st)
         (update_rows ms_id mid
            (milestone_assignments title description is_complete now)
            (milestones st))
         (tasks st) (verifications st).
Proof.
  destruct (find_milestone mid st) as [m|] eqn:Hm.
  - right. eapply update_milestone_run; eassumption.
  - left. rewrite update_milestone_missing by exact Hm. reflexivity.
Qed.

(** X3. Whatever its arguments and whatever it returns, a tool writes only
    to its own tables: [create_user] and [update_user] only to users (and
    [update_user] keeps every key, username and email), [create_goal] only
    to goals and milestones, [update_goal] only to goals, [update_milestone]
    only to milestones, [create_task] only to tasks and verifications, and
    [get_context] to nothing. *)
Theorem tools_write_only_their_tables (loads : string -> option pyval)
    (dumps : pyval -> string) (st : Store) (uid gid mid : Z)
    (username email : string) (style : option string) (learning_style : string)
    (skill_name : string) (timeline : Z) (roadmap coach_notes : pyval)
    (new_skill : option string) (new_timeline : option Z) (new_notes : pyval)
    (title description : option string) (is_complete : option bool)
    (task_title task_description : string) (now : Z) :
  (let st' := snd (create_user username email style now st) in
   goals st' = goals st /\ milestones st' = milestones st
   /\ tasks st' = tasks st /\ verifications st' = verifications st)
  /\ (let st' := snd (update_user uid learning_style st) in
      map user_id (users st') = map user_id (users st)
      /\ map user_username (users st') = map user_username (users st)
      /\ map user_email (users st') = map user_email (users st)
      /\ goals st' = goals st /\ milestones st' = milestones st
      /\ tasks st' = tasks st /\ verifications st' = verifications st)
  /\ (let st' := snd (create_goal loads uid skill_name timeline roadmap
                        coach_notes st) in
      users st' = users st /\ tasks st' = tasks st
      /\ verifications st' = verifications st)
  /\ snd (get_context gid st) = st
  /\ (let st' := snd (update_goal loads gid new_skill new_timeline new_notes st) in
      users st' = users st /\ milestones st' = milestones st
      /\ tasks st' = tasks st /\ verifications st' = verifications st)
  /\ (let st' := snd (update_milestone mid title description is_complete now st) in
      users st' = users st /\ goals st' = goals st
      /\ tasks st' = tasks st /\ verifications st' = verifications st)
  /\ (let st' := snd (create_task dumps gid task_title task_description now st) in
      users st' = users st /\ goals st' = goals st
      /\ milestones st' = milestones st).
Proof.
  split; [|split; [|split; [|split; [|split; [|split]]]]]; cbn zeta.
  - rewrite create_user_run.
    destruct (first (filter (same_name_or_email username email) (users st)));
      repeat split; reflexivity.
  - destruct (find_user uid st) as [u|] eqn:Hu.
    + rewrite (update_user_run uid learning_style st u Hu).
      cbn [snd users goals milestones tasks verifications].
      repeat split; try reflexivity;
        apply update_rows_map_kept; intros r; reflexivity.
    + rewrite (update_user_missing uid learning_style st Hu).
      repeat split; reflexivity.
  - rewrite create_goal_run.
    destruct (find_user uid st); [|repeat split; reflexivity].
    destruct (parse_arg loads roadmap) as [roadmap_list|];
      [|repeat split; reflexivity].
    destruct (parse_notes loads coach_notes) as [notes|];
      [|repeat split; reflexivity].
    cbn zeta. destruct (iter_items roadmap_list) as [entries|];
      [|repeat split; reflexivity].
    destruct (store_milestones _ 0 entries _) as [[created|msg] s'] eqn:Hloop;
      [|repeat split; reflexivity].
    destruct (store_milestones_done _ entries 0 _ s' created Hloop) as (Hpending & _).
    cbn [snd]. rewrite Hpending. repeat split; reflexivity.
  - destruct (find_goal gid st) as [g|] eqn:Hg.
    + rewrite (get_context_found gid st g Hg). reflexivity.
    + rewrite (get_context_missing gid st Hg). reflexivity.
  - destruct (update_goal_store loads gid new_skill new_timeline new_notes st)
      as [-> | [parsed ->]]; repeat split; reflexivity.
  - destruct (update_milestone_store mid title description is_complete now st)
      as [-> | ->]; repeat split; reflexivity.
  - destruct (find_goal gid st) as [g|] eqn:Hg.
    + rewrite (create_task_found dumps gid task_title task_description now st g Hg).
      repeat split; reflexivity.
    + rewrite (create_task_missing dumps gid task_title task_description now st Hg).
      repeat split; reflexivity.
Qed.

(** X4. [update_goal] and [update_milestone] neither add nor remove a row,
    and leave every row under another key in its place unchanged;
    [update_milestone] keeps the key, the goal and the [order] of every
    milestone, so it never renumbers a roadmap. *)
Theorem updates_touch_one_row (loads : string -> option pyval) (st : Store)
    (gid mid : Z) (skill_name : option string) (timeline : option Z)
    (coach_notes : pyval) (title description : option string)
    (is_complete : option bool) (now : Z) :
  (let st' := snd (update_goal loads gid skill_name timeline coach_notes st) in
   length (goals st') = length (goals st)
   /\ map goal_id (goals st') = map goal_id (goals st)
   /\ map goal_user_id (goals st') = map goal_user_id (goals st)
   /\ forall i g, nth_error (goals st) i = Some g -> goal_id g <> gid ->
        nth_error (goals st') i = Some g)
  /\ (let st' := snd (update_milestone mid title description is_complete now st) in
      length (milestones st') = length (milestones st)
      /\ map ms_id (milestones st') = map ms_id (milestones st)
      /\ map ms_goal_id (milestones st') = map ms_goal_id (milestones st)
      /\ map ms_order (milestones st') = map ms_order (milestones st)
      /\ forall i m, nth_error (milestones st) i = Some m -> ms_id m <> mid ->
           nth_error (milestones st') i = Some m).
Proof.
  split; cbn zeta.
  - destruct (update_goal_store loads gid skill_name timeline coach_notes st)
      as [-> | [parsed ->]]; [repeat split; auto|].
    cbn [goals]. split; [apply update_rows_length|].
    split; [apply update_rows_map_kept; intros r; apply goal_assignments_keep|].
    split; [apply update_rows_map_kept; intros r; apply goal_assignments_keep|].
    intros i g Hnth Hkey. apply update_rows_nth_other; assumption.
  - destruct (update_milestone_store mid title description is_complete now st)
      as [-> | ->]; [repeat split; auto|].
    cbn [milestones]. split; [apply update_rows_length|].
    split; [apply update_rows_map_kept; intros r; apply milestone_assignments_keep|].
    split; [apply update_rows_map_kept; intros r; apply milestone_assignments_keep|].
    split; [apply update_rows_map_kept; intros r; apply milestone_assignments_keep|].
    intros i m Hnth Hkey. apply update_rows_nth_other; assumption.
Qed.

(** X5. An update that supplies no field writes nothing: [update_goal]
    without [skill_name], [timeline] and [coach_notes], and
    [update_milestone] without [title], [description] and [is_complete],
    leave the store exactly as it was, whether the key exists or not. *)
Theorem update_without_fields_is_noop (loads : string -> option pyval)
    (st : Store) (gid mid : Z) (now : Z) :
  snd (update_goal loads gid None None PNone st) = st
  /\ snd (update_milestone mid None None None now st) = st.
Proof.
  split.
  - destruct (find_goal gid st) as [g|] eqn:Hg.
    + rewrite (update_goal_run loads gid None None PNone PNone st g Hg eq_refl).
      unfold goal_assignments. cbn [is_not_none]. rewrite update_rows_id.
      destruct st; reflexivity.
    + rewrite update_goal_missing by exact Hg. reflexivity.
  - destruct (find_milestone mid st) as [m|] eqn:Hm.
    + rewrite (update_milestone_run mid None None None now st m Hm).
      unfold milestone_assignments. rewrite update_rows_id.
      destruct st; reflexivity.
    + rewrite update_milestone_missing by exact Hm. reflexivity.
Qed.

(** ** [create_goal]: when it writes and when it does not *)

(** The loop finishes when every entry is a dict. *)
Lemma store_milestones_succeeds (gid : Z) (entries : list pyval) :
  forallb is_record entries = true ->
  forall (idx : nat) (s : Session),
    exists created s', store_milestones gid idx entries s = (Done created, s').
Proof.
  induction entries as [|e rest IH]; intros Hok idx s.
  - eexists _, _. reflexivity.
  - cbn [forallb] in Hok. apply andb_true_iff in Hok. destruct Hok as [He Hrest].
    destruct e; try discriminate.
    cbn [store_milestones]. unfold py_get. run_body.
    match goal with
    | |- context [store_milestones gid (S idx) rest ?s1] =>
        destruct (IH Hrest (S idx) s1) as (created & s2 & ->)
    end.
    eexists _, _. reflexivity.
Qed.

Lemma parse_notes_falsy (loads : string -> option pyval) (coach_notes : pyval) :
  truthy coach_notes = false -> parse_notes loads coach_notes = Some PNone.
Proof. unfold parse_notes. intros ->. reflexivity. Qed.

(** X6. An empty [coach_notes] text is not JSON, yet [create_goal] accepts
    it: a [coach_notes] that is false as a condition (null, the empty text)
    is never parsed and the call behaves as if it were absent; [update_goal]
    does parse the empty text and rejects the call. *)
Theorem empty_coach_notes (loads : string -> option pyval) (uid : Z)
    (skill_name : string) (timeline : Z) (roadmap coach_notes : pyval)
    (gid : Z) (new_skill : option string) (new_timeline : option Z)
    (st : Store) (g : Goal) :
  truthy coach_notes = false ->
  loads EmptyString = None ->
  find_goal gid st = Some g ->
  create_goal loads uid skill_name timeline roadmap coach_notes st
  = create_goal loads uid skill_name timeline roadmap PNone st
  /\ update_goal loads gid new_skill new_timeline (PStr EmptyString) st
     = (Error "Invalid coach_notes JSON format", st).
Proof.
  intros Hfalsy Hloads Hg. split.
  - rewrite !create_goal_run, (parse_notes_falsy loads coach_notes Hfalsy).
    reflexivity.
  - apply (update_goal_rejected loads gid new_skill new_timeline (PStr EmptyString)
             st g Hg). exact Hloads.
Qed.

Lemma empty_coach_notes_witness :
  truthy (PStr EmptyString) = false
  /\ Json.loads EmptyString = None
  /\ find_goal 1 demo_store = Some demo_goal
  /\ create_goal Json.loads 1 "Bass" 45 (PStr "[{}]") (PStr EmptyString) demo_store
     = create_goal Json.loads 1 "Bass" 45 (PStr "[{}]") PNone demo_store
  /\ update_goal Json.loads 1 (Some "Piano") None (PStr EmptyString) demo_store
     = (Error "Invalid coach_notes JSON format", demo_store).
Proof.
  split; [reflexivity|]. split; [reflexivity|]. split; [reflexivity|].
  apply (empty_coach_notes Json.loads 1 "Bass" 45 (PStr "[{}]") (PStr EmptyString)
           1 (Some "Piano") None demo_store demo_goal); reflexivity.
Defined.

(** X7. For an existing user [create_goal] validates before it writes: a
    roadmap text that is not JSON gives "Invalid roadmap JSON format", and
    with a roadmap that parses, a non-empty [coach_notes] text that is not
    JSON gives "Invalid coach_notes JSON format"; in both cases the store is
    left as it was. *)
Theorem create_goal_rejects_before_writing (loads : string -> option pyval)
    (uid : Z) (skill_name : string) (timeline : Z) (roadmap coach_notes : pyval)
    (st : Store) (u : User) :
  find_user uid st = Some u ->
  parse_arg loads roadmap = None
  \/ (truthy coach_notes = true /\ parse_arg loads coach_notes = None) ->
  create_goal loads uid skill_name timeline roadmap coach_notes st
  = (Error match parse_arg loads roadmap with
            | Some _ => "Invalid coach_notes JSON format"
            | None => "Invalid roadmap JSON format"
            end,
     st).
Proof.
  intros Hu Hbad. rewrite create_goal_run, Hu.
  destruct (parse_arg loads roadmap) as [roadmap_list|]; [|reflexivity].
  destruct Hbad as [Hbad | [Htruthy Hnotes]]; [discriminate|].
  unfold parse_notes. rewrite Htruthy, Hnotes. reflexivity.
Qed.

Lemma create_goal_rejects_before_writing_witness :
  find_user 1 demo_store = Some (mkUser 1 "alice" "alice@x.com" (Some "visual") 10)
  /\ create_goal Json.loads 1 "Bass" 45 (PStr "[{}") PNone demo_store
     = (Error "Invalid roadmap JSON format", demo_store)
  /\ create_goal Json.loads 1 "Bass" 45 (PStr "[{}]") (PStr "{bad") demo_store
     = (Error "Invalid coach_notes JSON format", demo_store).
Proof.
  split; [reflexivity|]. split.
  - apply (create_goal_rejects_before_writing Json.loads 1 "Bass" 45 (PStr "[{}")
             PNone demo_store (mkUser 1 "alice" "alice@x.com" (Some "visual") 10));
      [reflexivity | left; reflexivity].
  - apply (create_goal_rejects_before_writing Json.loads 1 "Bass" 45 (PStr "[{}]")
             (PStr "{bad") demo_store
             (mkUser 1 "alice" "alice@x.com" (Some "visual") 10));
      [reflexivity | right; split; reflexivity].
Defined.

(** X8. [create_goal] succeeds exactly when the user exists, the roadmap
    parses to something iterable all of whose entries are dicts, and the
    notes are absent or parse. *)
Theorem create_goal_succeeds_iff (loads : string -> option pyval) (uid : Z)
    (skill_name : string) (timeline : Z) (roadmap coach_notes : pyval)
    (st : Store) :
  is_error (fst (create_goal loads uid skill_name timeline roadmap coach_notes st))
  = false
  <-> find_user uid st <> None
      /\ (exists roadmap_list,
            parse_arg loads roadmap = Some roadmap_list
            /\ entries_are_records roadmap_list = true)
      /\ parse_notes loads coach_notes <> None.
Proof.
  rewrite create_goal_run. unfold entries_are_records.
  destruct (find_user uid st) as [u|]; [|cbn; split; [discriminate|]; tauto].
  destruct (parse_arg loads roadmap) as [roadmap_list|];
    [|cbn; split; [discriminate|]; intros (_ & (x & Hx & _) & _); discriminate].
  destruct (parse_notes loads coach_notes) as [notes|];
    [|cbn; split; [discriminate|]; tauto].
  cbn zeta. destruct (iter_items roadmap_list) as [entries|] eqn:Hiter.
  - destruct (forallb is_record entries) eqn:Hrec.
    + match goal with
      | |- context [store_milestones ?gid 0 entries ?s1] =>
          destruct (store_milestones_succeeds gid entries Hrec 0 s1)
            as (created & s2 & ->)
      end.
      cbn. split; [|reflexivity]. intros _.
      split; [discriminate|]. split; [|discriminate].
      exists roadmap_list. rewrite Hiter. split; [reflexivity | exact Hrec].
    + match goal with
      | |- context [store_milestones ?gid 0 entries ?s1] =>
          destruct (store_milestones_raises gid entries Hrec 0 s1) as [msg Hmsg];
          destruct (store_milestones gid 0 entries s1) as [[created|msg'] s2]
      end; cbn [fst] in Hmsg; [discriminate|].
      cbn. split; [discriminate|].
      intros (_ & (x & Hx & Hok) & _). injection Hx as <-.
      rewrite Hiter in Hok. congruence.
  - cbn. split; [discriminate|].
    intros (_ & (x & Hx & Hok) & _). injection Hx as <-.
    rewrite Hiter in Hok. discriminate.
Qed.

(** ** [create_goal]: what a successful call writes *)

Lemma fold_max_nonneg (ids : list Z) : 0 <= fold_right Z.max 0 ids.
Proof. induction ids as [|x rest IH]; cbn [fold_right]; lia. Qed.

Lemma fold_max_app (a b : list Z) :
  fold_right Z.max 0 (a ++ b)
  = Z.max (fold_right Z.max 0 a) (fold_right Z.max 0 b).
Proof.
  induction a as [|x rest IH]; cbn [fold_right app].
  - pose proof (fold_max_nonneg b). lia.
  - rewrite IH. lia.
Qed.

(** Keys are handed out consecutively. *)
Lemma next_id_after_new (ids : list Z) :
  next_id (ids ++ [next_id ids]) = next_id ids + 1.
Proof.
  unfold next_id. rewrite fold_max_app. cbn [fold_right].
  pose proof (fold_max_nonneg ids). lia.
Qed.

Lemma records_of_entries (entries : list pyval) :
  forallb is_record entries = true ->
  exists records, entries = map PDict records.
Proof.
  induction entries as [|e rest IH]; intros Hok.
  - exists []. reflexivity.
  - cbn [forallb] in Hok. apply andb_true_iff in Hok. destruct Hok as [He Hrest].
    destruct (IH Hrest) as [records ->]. destruct e; try discriminate.
    exists (kvs :: records). reflexivity.
Qed.

Lemma forallb_is_record_map (records : list (list (string * pyval))) :
  forallb is_record (map PDict records) = true.
Proof. induction records as [|kvs rest IH]; [reflexivity | exact IH]. Qed.

Lemma store_milestones_records (gid : Z) (records : list (list (string * pyval))) :
  forall (idx : nat) (s : Session),
    let created :=
      milestones_of_records gid (next_id (map ms_id (milestones (pending s)))) idx
        records in
    store_milestones gid idx (map PDict records) s
    = (Done created, mkSession (committed s) (add_milestones created (pending s))).
Proof.
  induction records as [|kvs rest IH]; intros idx s; cbn zeta.
  - cbn. rewrite add_milestones_nil. destruct s; reflexivity.
  - cbn [map store_milestones milestones_of_records]. unfold py_get. run_body.
    fold (entry_title idx kvs). fold (entry_description kvs).
    match goal with
    | |- context [store_milestones gid (S idx) (map PDict rest) ?s1] =>
        rewrite (IH (S idx) s1)
    end.
    cbn [pending committed milestones].
    rewrite map_app. cbn [map ms_id]. rewrite next_id_after_new.
    fold (milestone_of_entry gid (next_id (map ms_id (milestones (pending s))))
            idx kvs).
    unfold add_milestones. cbn [users goals milestones tasks verifications].
    rewrite <- app_assoc. reflexivity.
Qed.

(** The store and the response of a call that succeeds. *)
Lemma create_goal_written (loads : string -> option pyval) (uid : Z)
    (skill_name : string) (timeline : Z) (roadmap coach_notes : pyval)
    (st : Store) (u : User) (roadmap_list notes : pyval)
    (records : list (list (string * pyval))) :
  find_user uid st = Some u ->
  parse_arg loads roadmap = Some roadmap_list ->
  iter_items roadmap_list = Some (map PDict records) ->
  parse_notes loads coach_notes = Some notes ->
  let g := mkGoal (next_id (map goal_id (goals st))) uid skill_name timeline notes in
  let created :=
    milestones_of_records (goal_id g) (next_id (map ms_id (milestones st))) 0
      records in
  create_goal loads uid skill_name timeline roadmap coach_notes st
  = (GoalCreated (goal_id g)
       ("Goal '" ++ skill_name ++ "' created successfully with "
        ++ str_of_nat (length created) ++ " milestones")
       skill_name timeline (length created),
     add_milestones created (add_goal g st)).
Proof.
  intros Hu Hparse Hiter Hnotes g created. subst g created.
  rewrite create_goal_run, Hu, Hparse, Hnotes. cbn zeta. rewrite Hiter.
  rewrite store_milestones_records. reflexivity.
Qed.

Lemma milestones_of_records_length (gid id : Z) (records : list (list (string * pyval))) :
  forall idx, length (milestones_of_records gid id idx records) = length records.
Proof.
  revert id. induction records as [|kvs rest IH]; intros id idx; cbn;
    [reflexivity | rewrite IH; reflexivity].
Qed.

Lemma create_goal_late_failure_keeps_goal_witness :
  find_user 1 demo_store = Some (mkUser 1 "alice" "alice@x.com" (Some "visual") 10)
  /\ parse_arg Json.loads (PStr "[{}, 3]") = Some (PList [PDict []; PInt 3])
  /\ entries_are_records (PList [PDict []; PInt 3]) = false
  /\ exists msg,
       create_goal Json.loads 1 "Bass" 45 (PStr "[{}, 3]") PNone demo_store
       = (Error msg, add_goal (mkGoal 2 1 "Bass" 45 PNone) demo_store).
Proof.
  split; [reflexivity|]. split; [reflexivity|]. split; [reflexivity|].
  apply (create_goal_late_failure_keeps_goal Json.loads 1 "Bass" 45
           (PStr "[{}, 3]") PNone demo_store
           (mkUser 1 "alice" "alice@x.com" (Some "visual") 10)
           (PList [PDict []; PInt 3]) PNone); reflexivity.
Defined.

Lemma filter_all {A} (f : A -> bool) (l : list A) :
  (forall x, In x l -> f x = true) -> filter f l = l.
Proof.
  induction l as [|x rest IH]; cbn [filter]; intros Hall; [reflexivity|].
  rewrite (Hall x (or_introl eq_refl)), IH; [reflexivity|].
  intros y Hy. apply Hall. right; exact Hy.
Qed.

(** Ordering rows that are already in order changes nothing. *)
Lemma order_by_sorted_same {A} (before : A -> A -> bool) (rows : list A) :
  StronglySorted (precedes before) rows -> order_by before rows = rows.
Proof.
  induction 1 as [|x rest Hsorted IH Hall]; [reflexivity|].
  cbn [order_by fold_right]. fold (order_by before rest). rewrite IH.
  destruct rest as [|y rest']; [reflexivity|].
  cbn [insert_by]. inversion Hall as [|? ? Hxy _]; subst.
  unfold precedes in Hxy. rewrite Hxy. reflexivity.
Qed.

Lemma milestones_of_records_facts (gid : Z) (records : list (list (string * pyval))) :
  forall (id : Z) (idx : nat),
    Forall (fun m => ms_goal_id m = gid /\ (idx + 1 <= ms_order m)%nat)
           (milestones_of_records gid id idx records)
    /\ StronglySorted (precedes by_order) (milestones_of_records gid id idx records).
Proof.
  induction records as [|kvs rest IH]; intros id idx; cbn [milestones_of_records].
  - split; constructor.
  - destruct (IH (id + 1) (S idx)) as [Hall Hsorted]. split.
    + constructor; [cbn; split; [reflexivity | lia]|].
      eapply Forall_impl; [|exact Hall]. cbn. intros m [Hg Ho]. split; [exact Hg | lia].
    + constructor; [exact Hsorted|].
      eapply Forall_impl; [|exact Hall]. intros m [_ Ho].
      unfold precedes, by_order. cbn [ms_order milestone_of_entry].
      apply Nat.leb_le. lia.
Qed.

(** X10. Reading back what [create_goal] wrote.  When the user exists, the
    roadmap parses to a sequence of records and the notes are absent or
    parse, and no milestone or task in the store refers to a goal that is
    not there, [get_context] on the returned goal key gives the skill name,
    the owner's learning style, no tasks, the parsed notes, and one roadmap
    entry per record, in input order, incomplete, with consecutive keys. *)
Theorem create_goal_then_get_context (loads : string -> option pyval) (uid : Z)
    (skill_name : string) (timeline : Z) (roadmap coach_notes : pyval)
    (st : Store) (u : User) (roadmap_list notes : pyval)
    (records : list (list (string * pyval))) :
  find_user uid st = Some u ->
  parse_arg loads roadmap = Some roadmap_list ->
  iter_items roadmap_list = Some (map PDict records) ->
  parse_notes loads coach_notes = Some notes ->
  (forall m, In m (milestones st) -> In (ms_goal_id m) (map goal_id (goals st))) ->
  (forall t, In t (tasks st) -> In (tk_goal_id t) (map goal_id (goals st))) ->
  exists gid conf,
    fst (create_goal loads uid skill_name timeline roadmap coach_notes st)
    = GoalCreated gid conf skill_name timeline (length records)
    /\ get_context gid
         (snd (create_goal loads uid skill_name timeline roadmap coach_notes st))
       = (ContextInfo gid skill_name (user_learning_style u) [] []
            (map summary_of_milestone
               (milestones_of_records gid (next_id (map ms_id (milestones st))) 0
                  records))
            notes,
          snd (create_goal loads uid skill_name timeline roadmap coach_notes st)).
Proof.
  intros Hu Hparse Hiter Hnotes Hms Hts.
  rewrite (create_goal_written loads uid skill_name timeline roadmap coach_notes st
             u roadmap_list notes records Hu Hparse Hiter Hnotes).
  cbn [fst snd goal_id]. rewrite milestones_of_records_length.
  eexists _, _. split; [reflexivity|].
  set (gid := next_id (map goal_id (goals st))).
  set (g := mkGoal gid uid skill_name timeline notes).
  set (created := milestones_of_records gid (next_id (map ms_id (milestones st))) 0
                    records).
  assert (Hfresh : forall x, In x (map goal_id (goals st)) -> (x =? gid) = false).
  { intros x Hx. apply Z.eqb_neq. pose proof (next_id_above _ x Hx). subst gid. lia. }
  assert (Hg : find_goal gid (add_milestones created (add_goal g st)) = Some g).
  { unfold find_goal. cbn [add_milestones add_goal goals].
    apply (first_filter_app_new goal_id (goals st) g eq_refl). }
  rewrite (get_context_found gid _ g Hg).
  change (goal_user_id g) with uid. change (goal_id g) with gid.
  change (goal_skill_name g) with skill_name.
  change (goal_coach_notes g) with notes.
  cbn [add_milestones add_goal users goals milestones tasks verifications].
  unfold find_user.
  change (users (add_milestones created (add_goal g st))) with (users st).
  unfold find_user in Hu. rewrite Hu.
  destruct (milestones_of_records_facts gid records
              (next_id (map ms_id (milestones st))) 0) as [Hall Hsorted].
  fold created in Hall, Hsorted.
  rewrite (filter_none (completed_of gid)), (filter_none (open_of gid)).
  - rewrite filter_app, (filter_none (milestone_of gid) (milestones st)).
    + rewrite (filter_all (milestone_of gid) created).
      * cbn [app]. rewrite (order_by_sorted_same by_order created Hsorted).
        reflexivity.
      * intros m Hm. rewrite Forall_forall in Hall. destruct (Hall m Hm) as [Hmg _].
        unfold milestone_of. apply Z.eqb_eq, Hmg.
    + intros m Hm. apply Hfresh, Hms, Hm.
  - intros t Ht. unfold open_of. rewrite (Hfresh _ (Hts t Ht)). reflexivity.
  - intros t Ht. unfold completed_of. rewrite (Hfresh _ (Hts t Ht)). reflexivity.
Qed.

(** Case analysis on membership in a list that is written out. *)
Ltac in_cases H :=
  cbn in H;
  repeat match type of H with
         | _ \/ _ => destruct H as [H | H]
         end;
  try contradiction; try subst.

Lemma create_goal_then_get_context_witness :
  exists gid conf,
    fst (create_goal Json.loads 1 "Bass" 45 (PStr "[{}, {}]") PNone demo_store)
    = GoalCreated gid conf "Bass" 45 2
    /\ get_context gid
         (snd (create_goal Json.loads 1 "Bass" 45 (PStr "[{}, {}]") PNone demo_store))
       = (ContextInfo gid "Bass" (Some "visual") [] []
            [mkMilestoneSummary 4 (PStr "Milestone 1") (PStr EmptyString) 1 false;
             mkMilestoneSummary 5 (PStr "Milestone 2") (PStr EmptyString) 2 false]
            PNone,
          snd (create_goal Json.loads 1 "Bass" 45 (PStr "[{}, {}]") PNone demo_store)).
Proof.
  apply (create_goal_then_get_context Json.loads 1 "Bass" 45 (PStr "[{}, {}]") PNone
           demo_store (mkUser 1 "alice" "alice@x.com" (Some "visual") 10)
           (PList [PDict []; PDict []]) PNone [[]; []]);
    try reflexivity.
  - intros m Hm. in_cases Hm; cbn; auto.
  - intros t Ht. in_cases Ht; cbn; auto.
Defined.

(** X11. Nothing deduplicates goals: when a [create_goal] call meets its
    success conditions, repeating it with the same arguments succeeds again
    and the store then holds two new goals, equal but for their keys, which
    are consecutive, and twice the milestones. *)
Theorem create_goal_twice (loads : string -> option pyval) (uid : Z)
    (skill_name : string) (timeline : Z) (roadmap coach_notes : pyval)
    (st : Store) (u : User) (roadmap_list notes : pyval)
    (records : list (list (string * pyval))) :
  find_user uid st = Some u ->
  parse_arg loads roadmap = Some roadmap_list ->
  iter_items roadmap_list = Some (map PDict records) ->
  parse_notes loads coach_notes = Some notes ->
  let first_call :=
    create_goal loads uid skill_name timeline roadmap coach_notes st in
  let second_call :=
    create_goal loads uid skill_name timeline roadmap coach_notes (snd first_call) in
  exists gid conf,
    fst first_call = GoalCreated gid conf skill_name timeline (length records)
    /\ fst second_call
       = GoalCreated (gid + 1) conf skill_name timeline (length records)
    /\ goals (snd second_call)
       = (goals st ++ [mkGoal gid uid skill_name timeline notes;
                       mkGoal (gid + 1) uid skill_name timeline notes])%list
    /\ length (milestones (snd second_call))
       = (length (milestones st) + 2 * length records)%nat.
Proof.
  intros Hu Hparse Hiter Hnotes first_call second_call.
  subst second_call first_call.
  rewrite (create_goal_written loads uid skill_name timeline roadmap coach_notes st
             u roadmap_list notes records Hu Hparse Hiter Hnotes).
  cbn [fst snd goal_id].
  match goal with
  | |- context [create_goal _ _ _ _ _ _ ?st1] =>
      assert (Hu1 : find_user uid st1 = Some u) by exact Hu;
      rewrite (create_goal_written loads uid skill_name timeline roadmap
                 coach_notes st1 u roadmap_list notes records Hu1 Hparse Hiter Hnotes)
  end.
  cbn [fst snd goal_id add_milestones add_goal goals milestones].
  rewrite map_app. cbn [map goal_id]. rewrite next_id_after_new.
  rewrite !milestones_of_records_length.
  eexists _, _. split; [reflexivity|]. split; [reflexivity|]. split.
  - rewrite <- app_assoc. reflexivity.
  - rewrite !length_app, !milestones_of_records_length. lia.
Qed.

Lemma create_goal_twice_witness :
  let first_call := create_goal Json.loads 1 "Bass" 45 (PStr "[{}]") PNone demo_store in
  let second_call :=
    create_goal Json.loads 1 "Bass" 45 (PStr "[{}]") PNone (snd first_call) in
  exists gid conf,
    fst first_call = GoalCreated gid conf "Bass" 45 1
    /\ fst second_call = GoalCreated (gid + 1) conf "Bass" 45 1
    /\ goals (snd second_call)
       = (goals demo_store ++ [mkGoal gid 1 "Bass" 45 PNone;
                               mkGoal (gid + 1) 1 "Bass" 45 PNone])%list
    /\ length (milestones (snd second_call))
       = (length (milestones demo_store) + 2 * 1)%nat.
Proof.
  apply (create_goal_twice Json.loads 1 "Bass" 45 (PStr "[{}]") PNone demo_store
           (mkUser 1 "alice" "alice@x.com" (Some "visual") 10)
           (PList [PDict []]) PNone [[]]); reflexivity.
Defined.

(** ** [create_task] seen through [get_context] *)

Lemma order_by_app_length {A} (before : A -> A -> bool) (rows extra : list A) :
  length (order_by before (rows ++ extra))
  = (length (order_by before rows) + length extra)%nat.
Proof. rewrite !order_by_length, length_app. reflexivity. Qed.

(** X12. A task made by [create_task] shows up in the goal's context: after
    the call on an existing goal, [get_context] lists the completed tasks and
    the roadmap exactly as before, and the open tasks are those of before
    and the new one, which is listed with status INCOMPLETE. *)
Theorem create_task_then_get_context (dumps : pyval -> string) (gid : Z)
    (task_title task_description : string) (now : Z) (st : Store) (g : Goal) :
  find_goal gid st = Some g ->
  let st' := snd (create_task dumps gid task_title task_description now st) in
  let before := fst (get_context gid st) in
  let after := fst (get_context gid st') in
  context_recent after = context_recent before
  /\ context_roadmap after = context_roadmap before
  /\ Permutation (context_current after)
       (mkTaskSummary (next_id (map tk_id (tasks st))) task_title task_description
          INCOMPLETE None
        :: context_current before).
Proof.
  intros Hg st' before after. subst after before st'.
  rewrite (create_task_found dumps gid task_title task_description now st g Hg).
  cbn [snd].
  match goal with
  | |- context [get_context gid ?st1] =>
      assert (Hg1 : find_goal gid st1 = Some g) by exact Hg;
      rewrite (get_context_found gid st1 g Hg1)
  end.
  rewrite (get_context_found gid st g Hg).
  cbn [fst context_recent context_roadmap context_current tasks milestones].
  rewrite !filter_app. cbn [filter].
  unfold completed_of at 2, open_of at 2.
  cbn [tk_goal_id tk_status TaskStatus_eqb existsb orb andb].
  rewrite Z.eqb_refl. cbn [andb]. rewrite app_nil_r.
  split; [reflexivity|]. split; [reflexivity|].
  match goal with
  | |- Permutation (map _ (order_by _ (?old ++ [?t]))) _ =>
      transitivity (map summary_of_task (t :: order_by created_at_asc old))
  end.
  - apply Permutation_map.
    eapply perm_trans; [apply order_by_perm|].
    eapply perm_trans; [apply Permutation_sym, Permutation_cons_append|].
    apply perm_skip, Permutation_sym, order_by_perm.
  - reflexivity.
Qed.

Lemma create_task_then_get_context_witness :
  find_goal 1 demo_store = Some demo_goal
  /\ (let st' := snd (create_task Json.dumps 1 "Learn Em" "Practice E minor" 80
                        demo_store) in
      context_recent (fst (get_context 1 st'))
      = context_recent (fst (get_context 1 demo_store))
      /\ context_roadmap (fst (get_context 1 st'))
         = context_roadmap (fst (get_context 1 demo_store))
      /\ Permutation (context_current (fst (get_context 1 st')))
           (mkTaskSummary 10 "Learn Em" "Practice E minor" INCOMPLETE None
            :: context_current (fst (get_context 1 demo_store)))).
Proof.
  split; [reflexivity|].
  apply (create_task_then_get_context Json.dumps 1 "Learn Em" "Practice E minor" 80
           demo_store demo_goal).
  reflexivity.
Defined.

(** ** Completing a milestone and then creating a task *)

Lemma update_rows_In_inv {A} (key : A -> Z) (id : Z) (f : A -> A) (rows : list A)
    (r' : A) :
  In r' (update_rows key id f rows) ->
  exists r, In r rows /\ r' = (if key r =? id then f r else r).
Proof.
  unfold update_rows. rewrite in_map_iff. intros (r & Hr & Hin).
  exists r. split; [exact Hin | symmetry; exact Hr].
Qed.

(** X13. A milestone that has just been marked complete is never the one a
    new task is attached to: after [update_milestone] with [is_complete]
    true on key [mid], no [create_task] call returns [mid] as
    [milestone_id], whatever the goal and whether or not [mid] exists. *)
Theorem completed_milestone_gets_no_task (dumps : pyval -> string) (st : Store)
    (mid gid : Z) (title description : option string) (now now' : Z)
    (task_title task_description : string) :
  let st' := snd (update_milestone mid title description (Some true) now st) in
  forall tid tt td vtype vcontent,
    fst (create_task dumps gid task_title task_description now' st')
    <> TaskCreated tid tt td vtype vcontent (Some mid).
Proof.
  intros st' tid tt td vtype vcontent. subst st'.
  set (st' := snd (update_milestone mid title description (Some true) now st)).
  destruct (find_goal gid st') as [g|] eqn:Hg.
  - rewrite (create_task_found dumps gid task_title task_description now' st' g Hg).
    cbn [fst]. intros Heq. injection Heq as _ _ _ _ _ Hmid.
    unfold current_milestone in Hmid.
    destruct (first (order_by by_order (filter (incomplete_of gid) (milestones st'))))
      as [r|] eqn:Hfirst; [|discriminate].
    cbn [option_map] in Hmid. injection Hmid as Hmid.
    apply (first_order_by_some by_order by_order_total by_order_trans) in Hfirst.
    destruct Hfirst as [Hin _]. apply filter_In in Hin. destruct Hin as [Hin Hopen].
    apply incomplete_of_true in Hopen. destruct Hopen as [_ Hopen].
    destruct (find_milestone mid st) as [m|] eqn:Hm.
    + subst st'.
      rewrite (update_milestone_run mid title description (Some true) now st m Hm)
        in Hin.
      cbn [milestones] in Hin. apply update_rows_In_inv in Hin.
      destruct Hin as (r0 & _ & Hr). destruct (ms_id r0 =? mid) eqn:Hkey.
      * subst r. unfold milestone_assignments in Hopen.
        destruct title, description; discriminate.
      * subst r. apply Z.eqb_neq in Hkey. contradiction.
    + subst st'.
      rewrite (update_milestone_missing mid title description (Some true) now st Hm)
        in Hin.
      cbn [snd] in Hin. unfold find_milestone in Hm.
      rewrite first_filter_none in Hm. specialize (Hm r Hin). cbn in Hm.
      apply Z.eqb_neq in Hm. contradiction.
  - rewrite (create_task_missing dumps gid task_title task_description now' st' Hg).
    discriminate.
Qed.

(** X14. Marking an incomplete milestone complete and then incomplete again
    restores it: the milestone found under the key is the one that was there,
    every other milestone is in its place unchanged, and the other tables
    are as they were. *)
Theorem complete_then_reopen (mid : Z) (now now' : Z) (st : Store) (m : Milestone) :
  find_milestone mid st = Some m ->
  ms_is_complete m = false ->
  ms_completed_at m = None ->
  let st1 := snd (update_milestone mid None None (Some true) now st) in
  let st2 := snd (update_milestone mid None None (Some false) now' st1) in
  (exists m1, find_milestone mid st1 = Some m1
              /\ ms_is_complete m1 = true /\ ms_completed_at m1 = Some now)
  /\ find_milestone mid st2 = Some m
  /\ (forall i r, nth_error (milestones st) i = Some r -> ms_id r <> mid ->
        nth_error (milestones st2) i = Some r)
  /\ users st2 = users st /\ goals st2 = goals st
  /\ tasks st2 = tasks st /\ verifications st2 = verifications st.
Proof.
  intros Hm Hopen Hnever st1 st2. subst st2 st1.
  rewrite (update_milestone_run mid None None (Some true) now st m Hm).
  assert (Hm1 : find_milestone mid
                  (mkStore (users st) (goals st)
                     (update_rows ms_id mid
                        (milestone_assignments None None (Some true) now)
                        (milestones st))
                     (tasks st) (verifications st))
                = Some (milestone_assignments None None (Some true) now m)).
  { unfold find_milestone. cbn [milestones]. lookup_updated.
    unfold find_milestone in Hm. rewrite Hm. reflexivity. }
  rewrite (update_milestone_run mid None None (Some false) now' _ _ Hm1).
  cbn [users goals milestones tasks verifications].
  split; [eexists; split; [exact Hm1 | split; reflexivity]|].
  split.
  - unfold find_milestone. cbn [milestones]. lookup_updated.
    unfold find_milestone in Hm. rewrite Hm. cbn [option_map].
    destruct m. cbn in Hopen, Hnever. subst. reflexivity.
  - split; [|repeat split; reflexivity].
    intros i r Hnth Hkey. do 2 (apply update_rows_nth_other; [|exact Hkey]).
    exact Hnth.
Qed.

Lemma complete_then_reopen_witness :
  let m := mkMilestone 2 1 (PStr "Songs") (PStr EmptyString) 2 false None in
  let st1 := snd (update_milestone 2 None None (Some true) 70 demo_store) in
  let st2 := snd (update_milestone 2 None None (Some false) 75 st1) in
  find_milestone 2 demo_store = Some m
  /\ (exists m1, find_milestone 2 st1 = Some m1
                 /\ ms_is_complete m1 = true /\ ms_completed_at m1 = Some 70)
  /\ find_milestone 2 st2 = Some m.
Proof.
  intros m st1 st2. split; [reflexivity|].
  destruct (complete_then_reopen 2 70 75 demo_store m eq_refl eq_refl eq_refl)
    as (H1 & H2 & _).
  split; [exact H1 | exact H2].
Defined.

(** ** Usernames and emails *)

Lemma create_user_success (username email : string) (learning_style : option string)
    (now : Z) (st : Store) :
  is_error (fst (create_user username email learning_style now st)) = false ->
  (forall u, In u (users st) -> same_name_or_email username email u = false)
  /\ create_user username email learning_style now st
     = (UserInfo (next_id (map user_id (users st))) username email
          learning_style now,
        mkStore (users st ++ [mkUser (next_id (map user_id (users st))) username
                                email learning_style now])
                (goals st) (milestones st) (tasks st) (verifications st)).
Proof.
  rewrite create_user_run.
  destruct (first (filter (same_name_or_email username email) (users st)))
    as [u|] eqn:Hfirst; [discriminate|].
  intros _. split; [apply first_filter_none, Hfirst | reflexivity].
Qed.

Lemma same_name_or_email_false (username email : string) (u : User) :
  same_name_or_email username email u = false ->
  String.eqb (user_username u) username = false
  /\ String.eqb (user_email u) email = false.
Proof. unfold same_name_or_email. apply orb_false_iff. Qed.

(** X15. Once [create_user] has succeeded, its username and its email are
    taken: any later call with the same username, or with the same email, is
    refused with the conflict error and writes nothing. *)
Theorem create_user_takes_name_and_email (username email : string)
    (learning_style : option string) (now : Z) (st : Store)
    (username' email' : string) (learning_style' : option string) (now' : Z) :
  is_error (fst (create_user username email learning_style now st)) = false ->
  let st' := snd (create_user username email learning_style now st) in
  create_user username email' learning_style' now' st'
  = (Error "Username or email already exists", st')
  /\ create_user username' email learning_style' now' st'
     = (Error "Username or email already exists", st').
Proof.
  intros Hok st'. subst st'.
  destruct (create_user_success username email learning_style now st Hok)
    as [_ ->].
  cbn [snd].
  assert (Hfound : forall name mail,
            name = username \/ mail = email ->
            first (filter (same_name_or_email name mail)
                     (users st ++ [mkUser (next_id (map user_id (users st)))
                                     username email learning_style now]))
            <> None).
  { intros name mail Hsame Hnone. rewrite first_filter_none in Hnone.
    assert (Hlast : In (mkUser (next_id (map user_id (users st))) username email
                          learning_style now)
                      (users st ++ [mkUser (next_id (map user_id (users st)))
                                      username email learning_style now]))
      by (apply in_or_app; right; left; reflexivity).
    specialize (Hnone _ Hlast).
    unfold same_name_or_email in Hnone. cbn [user_username user_email] in Hnone.
    apply orb_false_iff in Hnone. destruct Hnone as [Hn He].
    destruct Hsame as [-> | ->];
      [rewrite String.eqb_refl in Hn | rewrite String.eqb_refl in He];
      discriminate. }
  split; rewrite create_user_run; cbn [users].
  - specialize (Hfound username email' (or_introl eq_refl)).
    destruct (first _); [reflexivity | contradiction].
  - specialize (Hfound username' email (or_intror eq_refl)).
    destruct (first _); [reflexivity | contradiction].
Qed.

Lemma create_user_takes_name_and_email_witness :
  let st' := snd (create_user "bob" "bob@x.com" None 20 demo_store) in
  is_error (fst (create_user "bob" "bob@x.com" None 20 demo_store)) = false
  /\ create_user "bob" "other@x.com" (Some "visual") 21 st'
     = (Error "Username or email already exists", st')
  /\ create_user "robert" "bob@x.com" (Some "visual") 21 st'
     = (Error "Username or email already exists", st').
Proof.
  intros st'. split; [reflexivity|].
  apply (create_user_takes_name_and_email "bob" "bob@x.com" None 20 demo_store
           "robert" "other@x.com" (Some "visual") 21).
  reflexivity.
Defined.

(** X16. After a successful [create_user], looking the users up by the
    username, or by the email, finds the record that was created, which is
    the one the response projects. *)
Theorem create_user_then_lookup (username email : string)
    (learning_style : option string) (now : Z) (st : Store) :
  is_error (fst (create_user username email learning_style now st)) = false ->
  let st' := snd (create_user username email learning_style now st) in
  exists u,
    fst (create_user username email learning_style now st)
    = UserInfo (user_id u) (user_username u) (user_email u)
        (user_learning_style u) (user_created_at u)
    /\ u = mkUser (user_id u) username email learning_style now
    /\ first (filter (fun x => String.eqb (user_username x) username) (users st'))
       = Some u
    /\ first (filter (fun x => String.eqb (user_email x) email) (users st'))
       = Some u
    /\ find_user (user_id u) st' = Some u.
Proof.
  intros Hok st'. subst st'.
  destruct (create_user_success username email learning_style now st Hok)
    as [Hfree ->].
  cbn [fst snd users].
  exists (mkUser (next_id (map user_id (users st))) username email
            learning_style now).
  split; [reflexivity|]. split; [reflexivity|].
  rewrite !filter_app. cbn [filter user_username user_email].
  rewrite !String.eqb_refl.
  rewrite (filter_none (fun x => String.eqb (user_username x) username)),
          (filter_none (fun x => String.eqb (user_email x) email)).
  - split; [reflexivity|]. split; [reflexivity|].
    unfold find_user. cbn [users user_id].
    apply (first_filter_app_fresh user_id (users st)
             (mkUser (next_id (map user_id (users st))) username email
                     learning_style now) eq_refl).
  - intros x Hx. apply (same_name_or_email_false username email x (Hfree x Hx)).
  - intros x Hx. apply (same_name_or_email_false username email x (Hfree x Hx)).
Qed.

Lemma create_user_then_lookup_witness :
  let st' := snd (create_user "bob" "bob@x.com" None 20 demo_store) in
  is_error (fst (create_user "bob" "bob@x.com" None 20 demo_store)) = false
  /\ exists u,
       fst (create_user "bob" "bob@x.com" None 20 demo_store)
       = UserInfo (user_id u) (user_username u) (user_email u)
           (user_learning_style u) (user_created_at u)
       /\ u = mkUser (user_id u) "bob" "bob@x.com" None 20
       /\ first (filter (fun x => String.eqb (user_username x) "bob") (users st'))
          = Some u
       /\ first (filter (fun x => String.eqb (user_email x) "bob@x.com") (users st'))
          = Some u
       /\ find_user (user_id u) st' = Some u.
Proof.
  intros st'. split; [reflexivity|].
  apply (create_user_then_lookup "bob" "bob@x.com" None 20 demo_store).
  reflexivity.
Defined.

(** X17. The user tools keep usernames and emails unique: if no two users
    of the store share a username and no two share an email, the same holds
    after any [create_user] call and after any [update_user] call. *)
Theorem user_tools_keep_names_unique (username email : string)
    (learning_style : option string) (now : Z) (uid : Z) (new_style : string)
    (st : Store) :
  NoDup (map user_username (users st)) ->
  NoDup (map user_email (users st)) ->
  (let st' := snd (create_user username email learning_style now st) in
   NoDup (map user_username (users st')) /\ NoDup (map user_email (users st')))
  /\ (let st' := snd (update_user uid new_style st) in
      NoDup (map user_username (users st')) /\ NoDup (map user_email (users st'))).
Proof.
  intros Hnames Hmails. split; cbn zeta.
  - rewrite create_user_run.
    destruct (first (filter (same_name_or_email username email) (users st)))
      as [u|] eqn:Hfirst; cbn [snd users]; [split; assumption|].
    rewrite first_filter_none in Hfirst.
    rewrite !map_app. cbn [map user_username user_email].
    split; (eapply Permutation_NoDup; [apply Permutation_cons_append|]);
      (constructor; [|assumption]); rewrite in_map_iff;
      intros (x & Hx & Hin);
      destruct (same_name_or_email_false username email x (Hfirst x Hin))
        as [Hn He]; rewrite Hx, String.eqb_refl in *; discriminate.
  - destruct (find_user uid st) as [u|] eqn:Hu.
    + rewrite (update_user_run uid new_style st u Hu). cbn [snd users].
      rewrite !update_rows_map_kept by (intros r; reflexivity).
      split; assumption.
    + rewrite (update_user_missing uid new_style st Hu). split; assumption.
Qed.

Lemma user_tools_keep_names_unique_witness :
  NoDup (map user_username (users demo_store))
  /\ NoDup (map user_email (users demo_store))
  /\ (let st' := snd (create_user "bob" "bob@x.com" None 20 demo_store) in
      NoDup (map user_username (users st')) /\ NoDup (map user_email (users st')))
  /\ (let st' := snd (update_user 1 "auditory" demo_store) in
      NoDup (map user_username (users st')) /\ NoDup (map user_email (users st'))).
Proof.
  assert (Hn : NoDup (map user_username (users demo_store)))
    by (repeat constructor; intros []).
  assert (He : NoDup (map user_email (users demo_store)))
    by (repeat constructor; intros []).
  split; [exact Hn|]. split; [exact He|].
  apply (user_tools_keep_names_unique "bob" "bob@x.com" None 20 1 "auditory"
           demo_store Hn He).
Defined.

(** ** References between the tables *)

Lemma found_key_in_table {A} (key : A -> Z) (id : Z) (rows : list A) (r : A) :
  first (filter (fun x => key x =? id) rows) = Some r -> In id (map key rows).
Proof.
  intros Hfound. destruct (first_filter_key key id rows r Hfound) as [<- Hin].
  apply in_map, Hin.
Qed.

Lemma update_rows_In_intro {A} (key : A -> Z) (id : Z) (f : A -> A)
    (rows : list A) (r : A) :
  In r rows -> In (if key r =? id then f r else r) (update_rows key id f rows).
Proof.
  intros Hin. unfold update_rows.
  apply (in_map (fun x => if key x =? id then f x else x)), Hin.
Qed.

Lemma refs_ok_create_user (username email : string) (learning_style : option string)
    (now : Z) (st : Store) :
  refs_ok st -> refs_ok (snd (create_user username email learning_style now st)).
Proof.
  intros Hok. rewrite create_user_run.
  destruct (first (filter (same_name_or_email username email) (users st)));
    [exact Hok|].
  destruct Hok as (Hg & Hm & Ht & Htm & Hv). cbn [snd]. unfold refs_ok.
  cbn [users goals milestones tasks verifications].
  repeat split; try assumption.
  intros g Hin. rewrite map_app. apply in_or_app. left. apply Hg, Hin.
Qed.

Lemma refs_ok_update_user (uid : Z) (learning_style : string) (st : Store) :
  refs_ok st -> refs_ok (snd (update_user uid learning_style st)).
Proof.
  intros Hok. destruct (find_user uid st) as [u|] eqn:Hu.
  - rewrite (update_user_run uid learning_style st u Hu).
    destruct Hok as (Hg & Hm & Ht & Htm & Hv). cbn [snd]. unfold refs_ok.
    cbn [users goals milestones tasks verifications].
    rewrite update_rows_map_kept by (intros r; reflexivity).
    repeat split; assumption.
  - rewrite (update_user_missing uid learning_style st Hu). exact Hok.
Qed.

Lemma refs_ok_add_goal (uid : Z) (g : Goal) (st : Store) (u : User) :
  find_user uid st = Some u -> goal_user_id g = uid ->
  refs_ok st -> refs_ok (add_goal g st).
Proof.
  intros Hu Hguid (Hg & Hm & Ht & Htm & Hv). unfold refs_ok, add_goal.
  cbn [users goals milestones tasks verifications].
  split; [|split; [|split; [|split]]]; try assumption.
  - intros g' Hin. apply in_app_or in Hin. destruct Hin as [Hin | [<- | []]].
    + apply Hg, Hin.
    + rewrite Hguid. apply (found_key_in_table user_id uid (users st) u Hu).
  - intros m Hin. rewrite map_app. apply in_or_app. left. apply Hm, Hin.
  - intros t Hin. rewrite map_app. apply in_or_app. left. apply Ht, Hin.
Qed.

Lemma refs_ok_add_milestones (gid : Z) (created : list Milestone) (st : Store) :
  In gid (map goal_id (goals st)) ->
  Forall (fun m => ms_goal_id m = gid) created ->
  refs_ok st -> refs_ok (add_milestones created st).
Proof.
  intros Hgid Hall (Hg & Hm & Ht & Htm & Hv). unfold refs_ok, add_milestones.
  cbn [users goals milestones tasks verifications].
  split; [|split; [|split; [|split]]]; try assumption.
  - intros m Hin. apply in_app_or in Hin. destruct Hin as [Hin | Hin].
    + apply Hm, Hin.
    + rewrite Forall_forall in Hall. rewrite (Hall m Hin). exact Hgid.
  - intros t mid Hin Hmid. destruct (Htm t mid Hin Hmid) as (m & Hmin & Hkey).
    exists m. split; [apply in_or_app; left; exact Hmin | exact Hkey].
Qed.

Lemma refs_ok_create_goal (loads : string -> option pyval) (uid : Z)
    (skill_name : string) (timeline : Z) (roadmap coach_notes : pyval)
    (st : Store) :
  refs_ok st ->
  refs_ok (snd (create_goal loads uid skill_name timeline roadmap coach_notes st)).
Proof.
  intros Hok. rewrite create_goal_run.
  destruct (find_user uid st) as [u|] eqn:Hu; [|exact Hok].
  destruct (parse_arg loads roadmap) as [roadmap_list|]; [|exact Hok].
  destruct (parse_notes loads coach_notes) as [notes|]; [|exact Hok].
  cbn zeta.
  pose proof (refs_ok_add_goal uid
                (mkGoal (next_id (map goal_id (goals st))) uid skill_name timeline
                        notes) st u Hu eq_refl Hok) as Hok1.
  destruct (iter_items roadmap_list) as [entries|]; [|exact Hok1].
  destruct (forallb is_record entries) eqn:Hrec.
  - destruct (records_of_entries entries Hrec) as [records ->].
    rewrite store_milestones_records. cbn [snd get_db pending].
    eapply refs_ok_add_milestones; [| |exact Hok1].
    + unfold add_goal. cbn [goals]. rewrite map_app. apply in_or_app. right.
      left. reflexivity.
    + cbn [goal_id].
      eapply Forall_impl;
        [|apply (milestones_of_records_facts _ records _ 0)].
      intros m [Hm _]. exact Hm.
  - match goal with
    | |- context [store_milestones ?gid 0 entries ?s1] =>
        destruct (store_milestones_raises gid entries Hrec 0 s1) as [msg Hmsg];
        destruct (store_milestones gid 0 entries s1) as [[created|msg'] s2]
    end; cbn [fst] in Hmsg; [discriminate | exact Hok1].
Qed.

Lemma refs_ok_update_goal (loads : string -> option pyval) (gid : Z)
    (skill_name : option string) (timeline : option Z) (coach_notes : pyval)
    (st : Store) :
  refs_ok st ->
  refs_ok (snd (update_goal loads gid skill_name timeline coach_notes st)).
Proof.
  intros Hok.
  destruct (update_goal_store loads gid skill_name timeline coach_notes st)
    as [-> | [parsed ->]]; [exact Hok|].
  destruct Hok as (Hg & Hm & Ht & Htm & Hv). unfold refs_ok.
  cbn [users goals milestones tasks verifications].
  rewrite (update_rows_map_kept goal_id gid _ goal_id)
    by (intros r; apply goal_assignments_keep).
  split; [|repeat split; assumption].
  intros g' Hin. apply update_rows_In_inv in Hin. destruct Hin as (g0 & Hin & ->).
  destruct (goal_id g0 =? gid); [|apply Hg, Hin].
  destruct (goal_assignments_keep skill_name timeline coach_notes parsed g0)
    as [_ Huser].
  cbn zeta in Huser. rewrite Huser. apply Hg, Hin.
Qed.

Lemma refs_ok_update_milestone (mid : Z) (title description : option string)
    (is_complete : option bool) (now : Z) (st : Store) :
  refs_ok st ->
  refs_ok (snd (update_milestone mid title description is_complete now st)).
Proof.
  intros Hok.
  destruct (update_milestone_store mid title description is_complete now st)
    as [-> | ->]; [exact Hok|].
  destruct Hok as (Hg & Hm & Ht & Htm & Hv). unfold refs_ok.
  cbn [users goals milestones tasks verifications].
  split; [assumption|]. split; [|split; [assumption|split; [|assumption]]].
  - intros m' Hin. apply update_rows_In_inv in Hin. destruct Hin as (m0 & Hin & ->).
    destruct (ms_id m0 =? mid); [|apply Hm, Hin].
    destruct (milestone_assignments_keep title description is_complete now m0)
      as (_ & Hgoal & _).
    cbn zeta in Hgoal. rewrite Hgoal. apply Hm, Hin.
  - intros t mid' Hin Hmid. destruct (Htm t mid' Hin Hmid) as (m & Hmin & Hkey & Hgoal).
    exists (if ms_id m =? mid
            then milestone_assignments title description is_complete now m
            else m).
    split; [apply update_rows_In_intro, Hmin|].
    destruct (ms_id m =? mid); [|split; assumption].
    destruct (milestone_assignments_keep title description is_complete now m)
      as (Hk & Hgl & _).
    cbn zeta in Hk, Hgl. rewrite Hk, Hgl. split; assumption.
Qed.

Lemma refs_ok_create_task (dumps : pyval -> string) (gid : Z)
    (task_title task_description : string) (now : Z) (st : Store) :
  refs_ok st ->
  refs_ok (snd (create_task dumps gid task_title task_description now st)).
Proof.
  intros Hok. destruct (find_goal gid st) as [g|] eqn:Hg.
  - rewrite (create_task_found dumps gid task_title task_description now st g Hg).
    destruct Hok as (Hgs & Hm & Ht & Htm & Hv). cbn [snd]. unfold refs_ok.
    cbn [users goals milestones tasks verifications].
    split; [assumption|]. split; [assumption|]. split; [|split].
    + intros t Hin. apply in_app_or in Hin. destruct Hin as [Hin | [<- | []]].
      * apply Ht, Hin.
      * cbn [tk_goal_id]. apply (found_key_in_table goal_id gid (goals st) g Hg).
    + intros t mid Hin Hmid. apply in_app_or in Hin.
      destruct Hin as [Hin | [<- | []]]; [apply (Htm t mid Hin Hmid)|].
      cbn [tk_milestone_id tk_goal_id] in Hmid |- *.
      unfold current_milestone in Hmid.
      destruct (first (order_by by_order (filter (incomplete_of gid) (milestones st))))
        as [m|] eqn:Hfirst; [|discriminate].
      cbn [option_map] in Hmid. injection Hmid as Hmid.
      apply (first_order_by_some by_order by_order_total by_order_trans) in Hfirst.
      destruct Hfirst as [Hin _]. apply filter_In in Hin. destruct Hin as [Hin Hopen].
      apply incomplete_of_true in Hopen. destruct Hopen as [Hgoal _].
      exists m. repeat split; assumption.
    + intros v Hin. rewrite map_app. apply in_or_app.
      apply in_app_or in Hin. destruct Hin as [Hin | [<- | []]].
      * left. apply Hv, Hin.
      * right. left. reflexivity.
  - rewrite (create_task_missing dumps gid task_title task_description now st Hg).
    exact Hok.
Qed.

(** X18. The tools keep every reference valid.  If each goal's user, each
    milestone's and task's goal, each task's milestone (a milestone of the
    task's own goal) and each verification's task are in the store, the same
    holds after any call of any tool, also one that returns an error. *)
Theorem tools_keep_references_valid (loads : string -> option pyval)
    (dumps : pyval -> string) (st : Store) (uid gid mid : Z)
    (username email : string) (style : option string) (learning_style : string)
    (skill_name : string) (timeline : Z) (roadmap coach_notes : pyval)
    (new_skill : option string) (new_timeline : option Z) (new_notes : pyval)
    (title description : option string) (is_complete : option bool)
    (task_title task_description : string) (now : Z) :
  refs_ok st ->
  refs_ok (snd (create_user username email style now st))
  /\ refs_ok (snd (update_user uid learning_style st))
  /\ refs_ok (snd (create_goal loads uid skill_name timeline roadmap coach_notes st))
  /\ refs_ok (snd (get_context gid st))
  /\ refs_ok (snd (update_goal loads gid new_skill new_timeline new_notes st))
  /\ refs_ok (snd (update_milestone mid title description is_complete now st))
  /\ refs_ok (snd (create_task dumps gid task_title task_description now st)).
Proof.
  intros Hok.
  split; [apply refs_ok_create_user, Hok|].
  split; [apply refs_ok_update_user, Hok|].
  split; [apply refs_ok_create_goal, Hok|].
  split.
  { destruct (find_goal gid st) as [g|] eqn:Hg.
    - rewrite (get_context_found gid st g Hg). exact Hok.
    - rewrite (get_context_missing gid st Hg). exact Hok. }
  split; [apply refs_ok_update_goal, Hok|].
  split; [apply refs_ok_update_milestone, Hok | apply refs_ok_create_task, Hok].
Qed.

Lemma demo_store_refs_ok : refs_ok demo_store.
Proof.
  unfold refs_ok. split; [|split; [|split; [|split]]].
  - intros g Hin. in_cases Hin. cbn. auto.
  - intros m Hin. in_cases Hin; cbn; auto.
  - intros t Hin. in_cases Hin; cbn; auto.
  - intros t mid Hin Hmid.
    exists (mkMilestone 1 1 (PStr "Chords") (PStr EmptyString) 1 true (Some 50)).
    split; [left; reflexivity|].
    in_cases Hin; cbn in Hmid; injection Hmid as <-; split; reflexivity.
  - intros v Hin. in_cases Hin.
Defined.

Lemma tools_keep_references_valid_witness :
  refs_ok demo_store
  /\ refs_ok (snd (create_goal Json.loads 1 "Bass" 45 (PStr "[{}, 3]") PNone
                     demo_store))
  /\ refs_ok (snd (create_task Json.dumps 1 "Learn Em" "Practice E minor" 80
                     demo_store)).
Proof.
  split; [exact demo_store_refs_ok|].
  destruct (tools_keep_references_valid Json.loads Json.dumps demo_store 1 1 1
              "bob" "bob@x.com" None "auditory" "Bass" 45 (PStr "[{}, 3]") PNone
              None None PNone None None None "Learn Em" "Practice E minor" 80
              demo_store_refs_ok)
    as (_ & _ & Hgoal & _ & _ & _ & Htask).
  split; [exact Hgoal | exact Htask].
Defined.

(** ** Updates seen through [get_context] *)

Lemma filter_update_rows {A} (key : A -> Z) (id : Z) (f : A -> A) (p : A -> bool)
    (rows : list A) :
  (forall r, p (f r) = p r) ->
  filter p (update_rows key id f rows) = update_rows key id f (filter p rows).
Proof.
  intros Hkeep. unfold update_rows.
  induction rows as [|r rest IH]; cbn [map filter]; [reflexivity|].
  assert (Hp : p (if key r =? id then f r else r) = p r)
    by (destruct (key r =? id); [apply Hkeep | reflexivity]).
  rewrite Hp. destruct (p r); cbn [map]; rewrite IH; reflexivity.
Qed.

Lemma insert_by_map {A} (before : A -> A -> bool) (h : A -> A) (x : A)
    (rows : list A) :
  (forall a b, before (h a) (h b) = before a b) ->
  insert_by before (h x) (map h rows) = map h (insert_by before x rows).
Proof.
  intros Hkeep. induction rows as [|y rest IH]; cbn [map insert_by]; [reflexivity|].
  rewrite Hkeep. destruct (before x y); cbn [map]; [reflexivity|].
  rewrite IH. reflexivity.
Qed.

(** Ordering commutes with an assignment that keeps the ordering column. *)
Lemma order_by_map {A} (before : A -> A -> bool) (h : A -> A) (rows : list A) :
  (forall a b, before (h a) (h b) = before a b) ->
  order_by before (map h rows) = map h (order_by before rows).
Proof.
  intros Hkeep. induction rows as [|x rest IH]; [reflexivity|].
  cbn [map order_by fold_right]. fold (order_by before (map h rest)).
  fold (order_by before rest). rewrite IH. apply insert_by_map, Hkeep.
Qed.

Lemma summary_of_assignments (title description : option string)
    (is_complete : option bool) (now : Z) (m : Milestone) :
  summary_of_milestone (milestone_assignments title description is_complete now m)
  = summary_assignments title description is_complete (summary_of_milestone m).
Proof.
  unfold milestone_assignments, summary_assignments.
  destruct title, description, is_complete as [[|]|]; reflexivity.
Qed.

(** X19. What [update_milestone] changes in a goal's context: whatever the
    arguments, the task lists of [get_context] are as before, and the
    roadmap is the roadmap of before, entry by entry and in the same order,
    except that the entries under the updated key show the supplied title,
    description and completion. *)
Theorem update_milestone_then_get_context (mid gid : Z)
    (title description : option string) (is_complete : option bool) (now : Z)
    (st : Store) :
  let st' := snd (update_milestone mid title description is_complete now st) in
  let before := fst (get_context gid st) in
  let after := fst (get_context gid st') in
  context_recent after = context_recent before
  /\ context_current after = context_current before
  /\ context_roadmap after
     = map (fun s => if mss_milestone_id s =? mid
                     then summary_assignments title description is_complete s
                     else s)
           (context_roadmap before).
Proof.
  intros st' before after. subst after before st'.
  destruct (find_milestone mid st) as [m|] eqn:Hm.
  - rewrite (update_milestone_run mid title description is_complete now st m Hm).
    destruct (find_goal gid st) as [g|] eqn:Hg.
    + match goal with
      | |- context [get_context gid ?st1] =>
          assert (Hg1 : find_goal gid st1 = Some g) by exact Hg;
          rewrite (get_context_found gid st1 g Hg1)
      end.
      rewrite (get_context_found gid st g Hg).
      cbn [fst context_recent context_current context_roadmap tasks milestones].
      split; [reflexivity|]. split; [reflexivity|].
      rewrite filter_update_rows
        by (intros r; unfold milestone_of;
            destruct (milestone_assignments_keep title description is_complete
                        now r) as (_ & Hgoal & _); cbn zeta in Hgoal;
            rewrite Hgoal; reflexivity).
      unfold update_rows. rewrite order_by_map.
      * rewrite !map_map. apply map_ext. intros r.
        change (mss_milestone_id (summary_of_milestone r)) with (ms_id r).
        destruct (ms_id r =? mid); [apply summary_of_assignments | reflexivity].
      * intros a b. unfold by_order.
        assert (Hord : forall r,
                  ms_order (if ms_id r =? mid
                            then milestone_assignments title description
                                   is_complete now r
                            else r) = ms_order r).
        { intros r. destruct (ms_id r =? mid); [|reflexivity].
          apply milestone_assignments_keep. }
        rewrite !Hord. reflexivity.
    + match goal with
      | |- context [get_context gid ?st1] =>
          assert (Hg1 : find_goal gid st1 = None) by exact Hg;
          rewrite (get_context_missing gid st1 Hg1)
      end.
      rewrite (get_context_missing gid st Hg). repeat split; reflexivity.
  - rewrite (update_milestone_missing mid title description is_complete now st Hm).
    cbn [snd]. split; [reflexivity|]. split; [reflexivity|].
    destruct (find_goal gid st) as [g|] eqn:Hg.
    + rewrite (get_context_found gid st g Hg). cbn [fst context_roadmap].
      rewrite map_map. apply map_ext_in. intros r Hr.
      change (mss_milestone_id (summary_of_milestone r)) with (ms_id r).
      apply order_by_In in Hr. apply filter_In in Hr. destruct Hr as [Hr _].
      unfold find_milestone in Hm. rewrite first_filter_none in Hm.
      rewrite (Hm r Hr). reflexivity.
    + rewrite (get_context_missing gid st Hg). reflexivity.
Qed.

(** The scenario of completing the first milestone of the sample goal. *)
Example update_milestone_then_get_context_sample :
  context_roadmap
    (fst (get_context 1 (snd (update_milestone 2 None None (Some true) 70
                                demo_store))))
  = [mkMilestoneSummary 1 (PStr "Chords") (PStr EmptyString) 1 true;
     mkMilestoneSummary 2 (PStr "Songs") (PStr EmptyString) 2 true;
     mkMilestoneSummary 3 (PStr "Stage") (PStr EmptyString) 3 false].
Proof. reflexivity. Qed.

(** X20. What [update_goal] changes in the goal's context: after a call on
    an existing goal whose [coach_notes] is absent or parses, [get_context]
    gives the supplied skill name and the parsed notes (the former ones when
    omitted), and the learning style, the task lists and the roadmap of
    before. *)
Theorem update_goal_then_get_context (loads : string -> option pyval) (gid : Z)
    (skill_name : option string) (timeline : option Z) (coach_notes parsed : pyval)
    (st : Store) (g : Goal) :
  find_goal gid st = Some g ->
  parse_arg loads coach_notes = Some parsed ->
  let st' := snd (update_goal loads gid skill_name timeline coach_notes st) in
  exists style recent current roadmap,
    get_context gid st
    = (ContextInfo (goal_id g) (goal_skill_name g) style recent current roadmap
         (goal_coach_notes g), st)
    /\ get_context gid st'
       = (ContextInfo (goal_id g)
            (match skill_name with Some v => v | None => goal_skill_name g end)
            style recent current roadmap
            (if is_not_none coach_notes then parsed else goal_coach_notes g),
          st').
Proof.
  intros Hg Hparse st'. subst st'.
  rewrite (update_goal_run loads gid skill_name timeline coach_notes parsed st g
             Hg Hparse).
  assert (Hg1 : find_goal gid
                  (mkStore (users st)
                     (update_rows goal_id gid
                        (goal_assignments skill_name timeline coach_notes parsed)
                        (goals st))
                     (milestones st) (tasks st) (verifications st))
                = Some (goal_assignments skill_name timeline coach_notes parsed g)).
  { unfold find_goal. cbn [goals].
    rewrite first_filter_update_same by (intros r; apply goal_assignments_keep).
    unfold find_goal in Hg. rewrite Hg. reflexivity. }
  rewrite (get_context_found gid st g Hg), (get_context_found gid _ _ Hg1).
  cbn [tasks milestones].
  destruct (goal_assignments_keep skill_name timeline coach_notes parsed g)
    as [Hid Huser].
  cbn zeta in Hid, Huser. rewrite Hid, Huser.
  change (find_user (goal_user_id g)
            (mkStore (users st)
               (update_rows goal_id gid
                  (goal_assignments skill_name timeline coach_notes parsed)
                  (goals st))
               (milestones st) (tasks st) (verifications st)))
    with (find_user (goal_user_id g) st).
  eexists _, _, _, _. split; [reflexivity|].
  unfold goal_assignments.
  destruct skill_name, timeline, (is_not_none coach_notes); reflexivity.
Qed.

Lemma update_goal_then_get_context_witness :
  let st' := snd (update_goal Json.loads 1 (Some "Piano") None (PStr "[7]")
                    demo_store) in
  find_goal 1 demo_store = Some demo_goal
  /\ parse_arg Json.loads (PStr "[7]") = Some (PList [PInt 7])
  /\ exists style recent current roadmap,
       get_context 1 demo_store
       = (ContextInfo 1 "Guitar" style recent current roadmap PNone, demo_store)
       /\ get_context 1 st'
          = (ContextInfo 1 "Piano" style recent current roadmap (PList [PInt 7]),
             st').
Proof.
  intros st'. split; [reflexivity|]. split; [reflexivity|].
  apply (update_goal_then_get_context Json.loads 1 (Some "Piano") None (PStr "[7]")
           (PList [PInt 7]) demo_store demo_goal); reflexivity.
Defined.

(** X21. What [update_user] changes in a goal's context: after the
    learning style of an existing user is replaced, [get_context] on a goal
    that the user owns gives the new learning style and otherwise the same
    snapshot, and on a goal owned by someone else gives the same snapshot. *)
Theorem update_user_then_get_context (uid gid : Z) (learning_style : string)
    (st : Store) (u : User) (g : Goal) :
  find_user uid st = Some u ->
  find_goal gid st = Some g ->
  let st' := snd (update_user uid learning_style st) in
  exists style recent current roadmap,
    fst (get_context gid st)
    = ContextInfo (goal_id g) (goal_skill_name g) style recent current roadmap
        (goal_coach_notes g)
    /\ fst (get_context gid st')
       = ContextInfo (goal_id g) (goal_skill_name g)
           (if goal_user_id g =? uid then Some learning_style else style)
           recent current roadmap (goal_coach_notes g).
Proof.
  intros Hu Hg st'. subst st'.
  rewrite (update_user_run uid learning_style st u Hu). cbn [snd].
  rewrite (get_context_found gid st g Hg).
  match goal with
  | |- context [get_context gid ?st1] =>
      assert (Hg1 : find_goal gid st1 = Some g) by exact Hg;
      rewrite (get_context_found gid st1 g Hg1)
  end.
  cbn [fst tasks milestones].
  eexists _, _, _, _. split; [reflexivity|].
  unfold find_user. cbn [users].
  destruct (Z.eqb_spec (goal_user_id g) uid) as [-> | Hother].
  - lookup_updated. unfold find_user in Hu. rewrite Hu. reflexivity.
  - lookup_updated. reflexivity.
Qed.

Lemma update_user_then_get_context_witness :
  find_user 1 demo_store = Some (mkUser 1 "alice" "alice@x.com" (Some "visual") 10)
  /\ find_goal 1 demo_store = Some demo_goal
  /\ exists style recent current roadmap,
       fst (get_context 1 demo_store)
       = ContextInfo 1 "Guitar" style recent current roadmap PNone
       /\ fst (get_context 1 (snd (update_user 1 "auditory" demo_store)))
          = ContextInfo 1 "Guitar" (Some "auditory") recent current roadmap PNone.
Proof.
  split; [reflexivity|]. split; [reflexivity|].
  apply (update_user_then_get_context 1 1 "auditory" demo_store
           (mkUser 1 "alice" "alice@x.com" (Some "visual") 10) demo_goal);
    reflexivity.
Defined.
